(** * Adverse news and sanctions screening

    A shallow embedding of the scoring and matching pipeline of the four
    script variants of the repository

    - [adverse_news5_app_Version2.py]  (module [V5], lexicon engine),
    - [adverse_news_app.py]            (module [V1], transformer engine),
    - [adverse_news8_app_v2.py]        (module [V8], sanctions merged in),
    - [adverse_news9_app_v2_1.py]      (module [V9], concise queries),

    followed by the properties of that pipeline.

    Modelling conventions.

    - A Python [str] is a list of characters.  A character is a Unicode code
      point in the range U+0000..U+00FF, carried by the 8-bit type [ascii].
      [str.lower], [str.isspace], the regex classes [\s], [\w], [\b] and
      case-insensitive matching are modelled exactly on this range.
    - A Python [float] is a finite IEEE-754 binary64 number, carried by its
      exact rational value in [Q].  A literal such as [0.6] denotes the double
      nearest to the decimal ([Float64.lit]), a float division is the exact
      quotient rounded to the nearest double ([Float64.rnd]), and comparisons
      are comparisons of the exact values.
    - Calls that leave the process (HTTP fetchers, the sentiment classifier)
      and the iteration order of a Python [set] are fields of an environment
      record [env]; every property is stated for an arbitrary environment. *)

From Stdlib Require Import String Ascii.
From Stdlib Require DecimalString.
From Stdlib Require Import Bool Arith ZArith QArith Lia Lqa.
From Stdlib Require Import List Permutation Sorted.
Import ListNotations.

Set Implicit Arguments.

(** A Python string. *)
Definition text : Type := list ascii.

(** A string literal used where a [text] is expected is converted character
    by character. *)
Definition text_of_string (s : string) : text := list_ascii_of_string s.
Coercion text_of_string : string >-> text.

Open Scope string_scope.
Open Scope list_scope.

(** Concatenation of texts, [a + b] in the scripts and the pieces of an
    f-string. *)
Notation "a +++ b" := (@app ascii (a : text) (b : text))
  (at level 60, right associativity).

(** ** Python [str] operations *)

Module PyStr.

Definition code (c : ascii) : N := N_of_ascii c.

Definition in_range (lo hi : N) (c : ascii) : bool :=
  (N.leb lo (code c) && N.leb (code c) hi)%bool.

(** [str.isspace] on one character; also the regex class [\s] and the set
    removed by [str.strip()]: TAB..CR, FS..US, SPACE, NEL and NBSP. *)
Definition is_space (c : ascii) : bool :=
  (in_range 9 13 c || in_range 28 32 c || N.eqb (code c) 133 || N.eqb (code c) 160)%bool.

Definition is_digit (c : ascii) : bool := in_range 48 57 c.

(** The regex range [a-z]. *)
Definition is_az (c : ascii) : bool := in_range 97 122 c.

(** Characters with a lowercase form different from themselves:
    [A-Z] and U+00C0..U+00DE except the multiplication sign U+00D7. *)
Definition has_lower (c : ascii) : bool :=
  (in_range 65 90 c || (in_range 192 222 c && negb (N.eqb (code c) 215)))%bool.

Definition lower_char (c : ascii) : ascii :=
  if has_lower c then ascii_of_N (code c + 32) else c.

(** [str.lower()] *)
Definition lower (s : text) : text := map lower_char s.

(** Characters with a one-character uppercase form inside the range:
    [a-z] and U+00E0..U+00FE except the division sign U+00F7. *)
Definition has_upper (c : ascii) : bool :=
  (in_range 97 122 c || (in_range 224 254 c && negb (N.eqb (code c) 247)))%bool.

(** Uppercase form of one character.  U+00DF uppercases to the two letters
    [SS].  U+00B5 and U+00FF uppercase to code points above U+00FF; they are
    left in place, which is indistinguishable for the only use made of
    [upper] (comparison with the ASCII texts [LABEL_] and [LABEL_0]). *)
Definition upper_char (c : ascii) : text :=
  if has_upper c then [ascii_of_N (code c - 32)]
  else if N.eqb (code c) 223 then ["S"%char; "S"%char]
  else [c].

(** [str.upper()] *)
Definition upper (s : text) : text := flat_map upper_char s.

(** [str.lstrip()], [str.rstrip()], [str.strip()] *)
Fixpoint lstrip (s : text) : text :=
  match s with
  | c :: s' => if is_space c then lstrip s' else s
  | [] => []
  end.

Definition rstrip (s : text) : text := rev (lstrip (rev s)).

Definition strip (s : text) : text := rstrip (lstrip s).

Definition eqb_char (a b : ascii) : bool := Ascii.eqb a b.

Fixpoint eqb (a b : text) : bool :=
  match a, b with
  | [], [] => true
  | x :: a', y :: b' => (eqb_char x y && eqb a' b')%bool
  | _, _ => false
  end.

(** [s.startswith(p)] *)
Fixpoint startswith (p s : text) : bool :=
  match p, s with
  | [], _ => true
  | x :: p', y :: s' => (eqb_char x y && startswith p' s')%bool
  | _ :: _, [] => false
  end.

(** [sub in s] *)
Fixpoint contains (sub s : text) : bool :=
  (startswith sub s ||
   match s with
   | [] => false
   | _ :: s' => contains sub s'
   end)%bool.

(** [s.replace(old, new)] for a non-empty [old]: scan from the left; where
    [old] starts, emit [new] and jump over the occurrence ([skip] counts the
    characters of the occurrence still to jump over). *)
Fixpoint replace_scan (old new : text) (skip : nat) (s : text) : text :=
  match s with
  | [] => []
  | c :: s' =>
      match skip with
      | S k => replace_scan old new k s'
      | O =>
          if startswith old s
          then new ++ replace_scan old new (length old - 1) s'
          else c :: replace_scan old new 0 s'
      end
  end.

(** [s.replace(old, new)]; with an empty [old] Python inserts [new] before
    every character and at the end. *)
Definition replace (old new s : text) : text :=
  match old with
  | [] => new ++ flat_map (fun c => c :: new) s
  | _ :: _ => replace_scan old new 0 s
  end.

(** [sep.join(parts)] *)
Fixpoint join (sep : text) (parts : list text) : text :=
  match parts with
  | [] => []
  | [p] => p
  | p :: rest => p ++ sep ++ join sep rest
  end.

(** [s[:n]] *)
Definition slice_to (n : nat) (s : text) : text := firstn n s.

(** Truth value of a string: [if s:] *)
Definition truthy (s : text) : bool :=
  match s with
  | [] => false
  | _ :: _ => true
  end.

End PyStr.

(** ** The regular expressions of the scripts *)

Module Re.

Import PyStr.

Definition space : ascii := " "%char.

(** [re.sub(r'[^a-z0-9\s]', ' ', n)] *)
Definition sub_non_alnum (n : text) : text :=
  map (fun c => if (is_az c || is_digit c || is_space c)%bool then c else space) n.

(** [re.sub(r'\s+', ' ', n)]: every maximal run of whitespace becomes one
    space; [in_run] tells that the previous character was whitespace. *)
Fixpoint sub_spaces_scan (in_run : bool) (n : text) : text :=
  match n with
  | [] => []
  | c :: n' =>
      if is_space c
      then (if in_run then sub_spaces_scan true n' else space :: sub_spaces_scan true n')
      else c :: sub_spaces_scan false n'
  end.

Definition sub_spaces (n : text) : text := sub_spaces_scan false n.

(** The regex class [\w] (alphanumeric or underscore). *)
Definition is_word (c : ascii) : bool :=
  (in_range 48 57 c || in_range 65 90 c || N.eqb (code c) 95 || in_range 97 122 c
   || N.eqb (code c) 170 || N.eqb (code c) 178 || N.eqb (code c) 179
   || N.eqb (code c) 181 || N.eqb (code c) 185 || N.eqb (code c) 186
   || in_range 188 190 c
   || (in_range 192 255 c && negb (N.eqb (code c) 215) && negb (N.eqb (code c) 247)))%bool.

Definition is_word_opt (c : option ascii) : bool :=
  match c with
  | Some x => is_word x
  | None => false
  end.

(** [\b] between the character before the position and the one after it. *)
Definition boundary (prev next : option ascii) : bool :=
  xorb (is_word_opt prev) (is_word_opt next).

(** Case-insensitive literal: does [s] start with [kw] up to letter case?
    Returns the matched characters of [s] and the rest.  Among the
    characters of a [text], U+0000 to U+00FF, the pattern takes two for the
    same letter exactly when their lowercase forms are equal; the
    characters it equates beyond that (the dotless i, the long s, the Kelvin
    sign) lie outside this range. *)
Fixpoint match_literal (kw s : text) : option (text * text) :=
  match kw with
  | [] => Some ([], s)
  | k :: kw' =>
      match s with
      | [] => None
      | c :: s' =>
          if eqb_char (lower_char k) (lower_char c)
          then match match_literal kw' s' with
               | Some (m, rest) => Some (c :: m, rest)
               | None => None
               end
          else None
      end
  end.

(** The pattern [(?i)\b(kw)\b] tried at one position, with [prev] the
    character before the position: the text of group 1 on success. *)
Definition match_word (kw : text) (prev : option ascii) (s : text) : option text :=
  if boundary prev (hd_error s)
  then match match_literal kw s with
       | Some (m, rest) =>
           let before_end := match rev m with
                             | [] => prev
                             | c :: _ => Some c
                             end in
           if boundary before_end (hd_error rest) then Some m else None
       | None => None
       end
  else None.

(** [re.sub(fr"(?i)\b({re.escape(kw)})\b", template, text)] where [wrap]
    gives the expansion of the template for the text of group 1.  Matches
    are found from the left and do not overlap; [skip] counts the characters
    of the last match still to jump over. *)
Fixpoint sub_word_scan (kw : text) (wrap : text -> text) (skip : nat)
  (prev : option ascii) (s : text) : text :=
  match skip with
  | S k =>
      match s with
      | [] => []
      | c :: s' => sub_word_scan kw wrap k (Some c) s'
      end
  | O =>
      match match_word kw prev s with
      | Some m =>
          match s with
          | [] => wrap m
          | c :: s' =>
              match m with
              | [] => wrap m ++ c :: sub_word_scan kw wrap 0 (Some c) s'
              | _ :: _ => wrap m ++ sub_word_scan kw wrap (length m - 1) (Some c) s'
              end
          end
      | None =>
          match s with
          | [] => []
          | c :: s' => c :: sub_word_scan kw wrap 0 (Some c) s'
          end
      end
  end.

Definition sub_word (kw : text) (wrap : text -> text) (s : text) : text :=
  sub_word_scan kw wrap 0 None s.

End Re.

(** ** Python floats *)

Module Float64.

Local Open Scope Q_scope.

(** [num / den] rounded to the nearest integer, ties to the even one
    ([den] positive). *)
Definition round_half_even (num den : Z) : Z :=
  let q := (num / den)%Z in
  let r := (num mod den)%Z in
  match (2 * r ?= den)%Z with
  | Lt => q
  | Gt => (q + 1)%Z
  | Eq => if Z.even q then q else (q + 1)%Z
  end.

(** [floor (log2 (n / d))] for positive [n] and [d]. *)
Definition ilog2 (n d : Z) : Z :=
  let e := (Z.log2 n - Z.log2 d)%Z in
  if (d * 2 ^ Z.max 0 e <=? n * 2 ^ Z.max 0 (- e))%Z then e else (e - 1)%Z.

(** The double nearest to [n / d] (positive [n], [d]), ties to even: 53
    significant bits, exponent not below that of the subnormal numbers. *)
Definition rnd_pos (n d : Z) : Q :=
  let sh := Z.min (52 - ilog2 n d) 1074 in
  let up := (2 ^ Z.max 0 sh)%Z in
  let down := (2 ^ Z.max 0 (- sh))%Z in
  let m := round_half_even (n * up) (d * down) in
  Qred (Qmake (m * down) (Z.to_pos up)).

(** Rounding of an exact value to the nearest double. *)
Definition rnd (q : Q) : Q :=
  match Qnum q with
  | Z0 => 0
  | Zpos n => rnd_pos (Zpos n) (Zpos (Qden q))
  | Zneg n => - rnd_pos (Zpos n) (Zpos (Qden q))
  end.

(** A decimal literal of the source. *)
Definition lit (q : Q) : Q := rnd q.

(** [x / y] on floats. *)
Definition div (x y : Q) : Q := rnd (x / y).

(** [float(n)] for an [int] below 2^53, and [2.0 * x]: both exact. *)
Definition of_int (n : Z) : Q := inject_Z n.

(** [x < y], [x <= y], [x >= y] *)
Definition leb (x y : Q) : bool := Qle_bool x y.
Definition ltb (x y : Q) : bool := negb (Qle_bool y x).
Definition geb (x y : Q) : bool := Qle_bool y x.

(** The number of hundredths nearest to [x], ties to even. *)
Definition hundredths (x : Q) : Z :=
  round_half_even (Qnum x * 100) (Zpos (Qden x)).

(** [round(x, 2)]: the exact value of [x] is rounded to two decimals, ties
    to even, and the decimal is read back as a double. *)
Definition round2 (x : Q) : Q := rnd (Qmake (hundredths x) 100).

Definition digits (n : Z) : text :=
  text_of_string (DecimalString.NilZero.string_of_uint (N.to_uint (Z.to_N n))).

(** [repr] of a non-negative float returned by [round(_, 2)]: the shortest
    decimal that reads back as the same double. *)
Definition repr2 (x : Q) : text :=
  let k := hundredths x in
  let frac := (k mod 100)%Z in
  digits (k / 100) +++ "." +++
  (if (frac mod 10 =? 0)%Z then digits (frac / 10)
   else if (frac <? 10)%Z then "0" +++ digits frac
   else digits frac).

End Float64.

(** ** [difflib.SequenceMatcher(None, a, b).ratio()] *)

Module Difflib.

Local Open Scope nat_scope.

Definition dflt : ascii := "000"%char.

Definition count (c : ascii) (b : text) : nat := count_occ ascii_dec b c.

(** The automatic junk heuristic: in a [b] of 200 characters or more, a
    character that occurs more than [len(b) // 100 + 1] times is dropped
    from the index [b2j]. *)
Definition popular (b : text) (c : ascii) : bool :=
  ((200 <=? length b) && (length b / 100 + 1 <? count c b))%bool.

Fixpoint indices_from (c : ascii) (j : nat) (b : text) : list nat :=
  match b with
  | [] => []
  | x :: b' =>
      if Ascii.eqb x c then j :: indices_from c (S j) b' else indices_from c (S j) b'
  end.

(** [b2j.get(c, [])]: the positions of [c] in [b], increasing. *)
Definition b2j (b : text) (c : ascii) : list nat :=
  if popular b c then [] else indices_from c 0 b.

(** No [isjunk] function is given, so the junk set is empty. *)
Definition isbjunk (c : ascii) : bool := false.

Record Match : Type := { m_a : nat; m_b : nat; m_size : nat }.

(** A dictionary from positions of [b] to lengths. *)
Definition dict : Type := list (nat * nat).

Fixpoint dict_get (d : dict) (j : nat) : nat :=
  match d with
  | [] => 0
  | (j', k) :: d' => if j' =? j then k else dict_get d' j
  end.

(** [j2len.get(j - 1, 0)] *)
Definition prev_len (j2len : dict) (j : nat) : nat :=
  match j with
  | O => 0
  | S j' => dict_get j2len j'
  end.

(** The inner loop of [find_longest_match], over the positions [js] of
    [a[i]] in [b]. *)
Fixpoint scan_row (i blo bhi : nat) (j2len : dict) (js : list nat)
  (newj2len : dict) (best : Match) : dict * Match :=
  match js with
  | [] => (newj2len, best)
  | j :: js' =>
      if j <? blo then scan_row i blo bhi j2len js' newj2len best
      else if bhi <=? j then (newj2len, best)
      else
        let k := prev_len j2len j + 1 in
        let best' :=
          if m_size best <? k
          then {| m_a := i + 1 - k; m_b := j + 1 - k; m_size := k |}
          else best in
        scan_row i blo bhi j2len js' ((j, k) :: newj2len) best'
  end.

(** The outer loop, over the positions [rows] of [a]. *)
Fixpoint scan_rows (a b : text) (blo bhi : nat) (rows : list nat)
  (j2len : dict) (best : Match) : Match :=
  match rows with
  | [] => best
  | i :: rows' =>
      let '(newj2len, best') :=
        scan_row i blo bhi j2len (b2j b (nth i a dflt)) [] best in
      scan_rows a b blo bhi rows' newj2len best'
  end.

(** [while besti > alo and bestj > blo and test(b[bestj-1]) and
    a[besti-1] == b[bestj-1]]: the block grows to the left.  Each turn
    lowers [besti], so [besti] turns are never exceeded. *)
Fixpoint extend_left (a b : text) (test : ascii -> bool) (alo blo : nat)
  (turns : nat) (m : Match) : Match :=
  match turns with
  | O => m
  | S turns' =>
      if ((alo <? m_a m) && (blo <? m_b m)
          && test (nth (m_b m - 1) b dflt)
          && Ascii.eqb (nth (m_a m - 1) a dflt) (nth (m_b m - 1) b dflt))%bool
      then extend_left a b test alo blo turns'
             {| m_a := m_a m - 1; m_b := m_b m - 1; m_size := m_size m + 1 |}
      else m
  end.

(** [while besti+bestsize < ahi and bestj+bestsize < bhi and
    test(b[bestj+bestsize]) and a[besti+bestsize] == b[bestj+bestsize]]:
    the block grows to the right, at most [ahi] times. *)
Fixpoint extend_right (a b : text) (test : ascii -> bool) (ahi bhi : nat)
  (turns : nat) (m : Match) : Match :=
  match turns with
  | O => m
  | S turns' =>
      if ((m_a m + m_size m <? ahi) && (m_b m + m_size m <? bhi)
          && test (nth (m_b m + m_size m) b dflt)
          && Ascii.eqb (nth (m_a m + m_size m) a dflt) (nth (m_b m + m_size m) b dflt))%bool
      then extend_right a b test ahi bhi turns'
             {| m_a := m_a m; m_b := m_b m; m_size := m_size m + 1 |}
      else m
  end.

(** [find_longest_match(alo, ahi, blo, bhi)] *)
Definition find_longest_match (a b : text) (alo ahi blo bhi : nat) : Match :=
  let m0 := {| m_a := alo; m_b := blo; m_size := 0 |} in
  let m1 := scan_rows a b blo bhi (seq alo (ahi - alo)) [] m0 in
  let notjunk := fun c => negb (isbjunk c) in
  let m2 := extend_left a b notjunk alo blo (m_a m1) m1 in
  let m3 := extend_right a b notjunk ahi bhi ahi m2 in
  let m4 := extend_left a b isbjunk alo blo (m_a m3) m3 in
  extend_right a b isbjunk ahi bhi ahi m4.

(** The work list of [get_matching_blocks]: the head of the list is the
    element [queue.pop()] takes.  Every turn that finds a block uses up at
    least one character of [a], and a turn pushes at most two ranges, so
    [2 * len(a) + 1] turns empty the queue. *)
Fixpoint blocks_loop (a b : text) (turns : nat)
  (queue : list (nat * nat * nat * nat)) (blocks : list Match) : list Match :=
  match turns with
  | O => blocks
  | S turns' =>
      match queue with
      | [] => blocks
      | (alo, ahi, blo, bhi) :: queue' =>
          let x := find_longest_match a b alo ahi blo bhi in
          let i := m_a x in
          let j := m_b x in
          let k := m_size x in
          if 0 <? k then
            let q1 := if ((alo <? i) && (blo <? j))%bool
                      then (alo, i, blo, j) :: queue' else queue' in
            let q2 := if ((i + k <? ahi) && (j + k <? bhi))%bool
                      then (i + k, ahi, j + k, bhi) :: q1 else q1 in
            blocks_loop a b turns' q2 (blocks ++ [x])
          else blocks_loop a b turns' queue' blocks
      end
  end.

Definition get_matching_blocks (a b : text) : list Match :=
  blocks_loop a b (2 * length a + 1) [(0, length a, 0, length b)] [].

(** [matches = sum(triple[-1] for triple in self.get_matching_blocks())] *)
Definition matches (a b : text) : nat :=
  fold_right (fun x acc => m_size x + acc) 0 (get_matching_blocks a b).

(** [_calculate_ratio(matches, length)] *)
Definition calculate_ratio (matches length : nat) : Q :=
  if 0 <? length
  then Float64.div (2 * Float64.of_int (Z.of_nat matches)) (Float64.of_int (Z.of_nat length))
  else 1.

Definition ratio (a b : text) : Q :=
  calculate_ratio (matches a b) (length a + length b).

End Difflib.

(** ** Python's stable [sorted] *)

Module Py.

Section Sorted.

Variables (A K : Type) (ltb : K -> K -> bool) (key : A -> K).

(** [x], which stood before every element of the sorted [l], goes in front
    of the first element whose key is not smaller than its own. *)
Fixpoint insert (x : A) (l : list A) : list A :=
  match l with
  | [] => [x]
  | y :: l' => if ltb (key y) (key x) then y :: insert x l' else x :: l
  end.

(** [sorted(l, key=key)]: ascending in [key], compared with [<] only;
    elements with equal keys keep their order.  Where [<] orders the keys
    as the floats and integers of the scripts are ordered, every stable
    sort returns this list; insertion from the right is the shortest to
    write. *)
Definition sorted (l : list A) : list A := fold_right insert [] l.

End Sorted.

End Py.

(** ** Records of the pipeline *)

(** An article dictionary as the fetchers build it, its title and its
    description being strings; [Fetched] below has the loop of [V9] for the
    other values a fetcher can store there. *)
Record article : Type := {
  art_title : text;
  art_desc : text;
  art_date : text;
  art_url : text;
  art_source : text
}.

Inductive severity : Type := High | Medium | Low | NotNegative.

Definition severity_eqb (a b : severity) : bool :=
  match a, b with
  | High, High | Medium, Medium | Low, Low | NotNegative, NotNegative => true
  | _, _ => false
  end.

(** A result dictionary of [search_all]; [model_label] is absent in the
    lexicon variant. *)
Record result : Type := {
  title : text;
  source : text;
  date : text;
  snippet_html : text;
  url : text;
  score : Q;
  severity_of : severity;
  model_label : option text
}.

(** [{"sanctioned_name": ..., "similarity": ...}] *)
Record sanctions_match : Type := {
  sanctioned_name : text;
  similarity : Q
}.

(** The first element of the classifier's answer: a dictionary that may
    hold a label and a score. *)
Record classification : Type := {
  res_label : option text;
  res_score : option Q
}.

(** What the scripts obtain from outside.  A fetcher returns the list it
    would return in the run at hand (the empty list on a transport error);
    [sentiment_model] is [None] where the call, the indexing of its answer
    or the conversion of the score raises. *)
Record env : Type := {
  fetch_from_newsdata : text -> text -> text -> list article;
  fetch_from_newsapi : text -> text -> text -> list article;
  fetch_from_gnews : text -> text -> text -> list article;
  fetch_ofac_list : list text;
  fetch_uk_list : list text;
  fetch_opensanctions : list text;
  fetch_opensanctions_all : nat -> nat -> list text;
  (* list(set(l)): the distinct elements of l in iteration order *)
  set_order : list text -> list text;
  (* sia.polarity_scores(text)['compound'] *)
  polarity_compound : text -> Q;
  model_choice : text;
  sentiment_model : text -> option classification
}.

Definition texts (l : list string) : list text := map text_of_string l.

(** The two markers of the highlighter. *)
Definition name_span : text := "<span style='background-color: #fff176; font-weight:bold;'>".
Definition keyword_span : text := "<span style='background-color: #ef9a9a; font-weight:bold;'>".
Definition span_end : text := "</span>".

(** [sorted(set(keywords), key=lambda s: -len(s))] *)
Definition longest_first (e : env) (keywords : list text) : list text :=
  Py.sorted Z.ltb (fun s : text => (- Z.of_nat (length s))%Z) (set_order e keywords).

(** ** Code that several variants hold verbatim *)

Module Shared.

Import PyStr.

(** The [try] block around the classifier: label and score of the answer,
    or [("ERROR", 0.0)] when anything in it raised. *)
Definition run_model (e : env) (txt : text) : text * Q :=
  match sentiment_model e (slice_to 1024 txt) with
  | Some res =>
      (match res_label res with Some l => l | None => [] end,
       match res_score res with Some s => s | None => 0 end)
  | None => (text_of_string "ERROR", 0)
  end.

(** The decision on the label. *)
Definition is_negative (model_choice label : text) : bool :=
  let lab_lower := lower label in
  let is_negative := false in
  let is_negative :=
    if (contains "neg" lab_lower || contains "negative" lab_lower)%bool
    then true else is_negative in
  let is_negative :=
    if (truthy model_choice && contains "twitter-roberta" model_choice
        && startswith "LABEL_" (upper label))%bool
    then (if eqb (upper label) "LABEL_0" then true else is_negative)
    else is_negative in
  is_negative.

(** The severity of a negative article. *)
Definition severity_of_score (score : Q) : severity :=
  if Float64.geb score (Float64.lit 0.85) then High
  else if Float64.geb score (Float64.lit 0.6) then Medium
  else Low.

(** [color_highlight_terms] of [V1] and [V8].  The template is the raw
    string [<span ...>\\1</span>], which [re.sub] expands to a backslash
    followed by the digit 1, not to the text of group 1. *)
Definition wrap_literal (open_tag : text) (m : text) : text :=
  open_tag +++ "\1" +++ span_end.

Definition color_highlight_terms (e : env) (txt name : text) (keywords : list text) : text :=
  if negb (truthy txt) then []
  else
    let txt := if truthy name
               then Re.sub_word name (wrap_literal name_span) txt else txt in
    fold_left (fun txt kw => Re.sub_word kw (wrap_literal keyword_span) txt)
      (longest_first e keywords) txt.

(** The body of the loop over the articles in [V1] and [V8]: no result or
    one. *)
Definition classify_article (e : env) (name : text) (all_keywords : list text)
  (high_severity : bool) (art : article) : list result :=
  let txt := art_title art +++ " " +++ art_desc art in
  if negb (truthy (strip txt)) then []
  else
    let '(label, score) := run_model e txt in
    if negb (is_negative (model_choice e) label) then []
    else
      let severity := severity_of_score score in
      if (high_severity && negb (severity_eqb severity High))%bool then []
      else
        [ {| title := art_title art;
             source := art_source art;
             date := art_date art;
             snippet_html := color_highlight_terms e txt name all_keywords;
             url := art_url art;
             score := score;
             severity_of := severity;
             model_label := Some label |} ].

(** [search_sanctions] of [V1] and [V5]. *)
Definition search_sanctions (e : env) (name_query : text) : list sanctions_match :=
  let sanctioned := fetch_ofac_list e ++ fetch_opensanctions e ++ fetch_uk_list e in
  let sanctioned := filter truthy sanctioned in
  let matches :=
    flat_map (fun sname =>
      let ratio := Difflib.ratio (lower name_query) (lower sname) in
      if Float64.geb ratio (Float64.lit 0.8)
      then [ {| sanctioned_name := sname; similarity := Float64.round2 ratio |} ]
      else []) sanctioned in
  Py.sorted Float64.ltb (fun x => - similarity x) matches.

(** The result built for one sanctions match in [V8] and [V9]. *)
Definition sanctions_result (m : sanctions_match) : result :=
  {| title := "Sanctions match: " +++ sanctioned_name m;
     source := "SanctionsLists";
     date := "";
     snippet_html := "Possible sanctions match: <b>" +++ sanctioned_name m
                     +++ "</b> (similarity: " +++ Float64.repr2 (similarity m) +++ ")";
     url := "";
     score := similarity m;
     severity_of := High;
     model_label := Some (text_of_string "SANCTIONS_MATCH") |}.

End Shared.

(** ** [adverse_news5_app_Version2.py] *)

Module V5.

Import PyStr.

Definition search_sanctions := Shared.search_sanctions.

(** [categorize_severity(score)] *)
Definition categorize_severity (score : Q) : severity :=
  if Float64.leb score (- Float64.lit 0.5) then High
  else if (Float64.ltb (- Float64.lit 0.5) score
           && Float64.leb score (- Float64.lit 0.2))%bool then Medium
  else if (Float64.ltb (- Float64.lit 0.2) score && Float64.ltb score 0)%bool then Low
  else NotNegative.

Definition default_negative_keywords : list text := texts [
  "fraud"; "scam"; "scandal"; "ponzi"; "laundering"; "money laundering";
  "terrorist"; "terrorism"; "bribery"; "corruption"; "embezzlement";
  "sanction"; "tax evasion"; "tax fraud"; "illegal"; "crime"; "criminal";
  "kickback"; "smuggling"; "forgery"; "fake"; "theft"; "stolen";
  "misconduct"; "collusion"; "cartel"; "black money"; "suspicious";
  "investigation"; "probe"; "raid"; "arrested"; "charges"; "indicted";
  "convicted"; "lawsuit"; "fine"; "penalty"; "regulatory action";
  "OFAC"; "FATF"; "FCPA"; "terror financing"; "shell company";
  "Iran"; "Syria"; "North Korea"; "Cuba" ].

(** The template [<span ...>\1</span>]: the marker around the matched
    text. *)
Definition wrap (open_tag : text) (m : text) : text :=
  open_tag +++ m +++ span_end.

(** [color_highlight_terms(text, name, keywords)], local to [search_all]. *)
Definition color_highlight_terms (e : env) (txt name : text) (keywords : list text) : text :=
  let txt := if truthy name then Re.sub_word name (wrap name_span) txt else txt in
  fold_left (fun txt kw => Re.sub_word kw (wrap keyword_span) txt)
    (longest_first e keywords) txt.

Definition all_keywords (e : env) (keywords : list text) : list text :=
  set_order e (keywords ++ default_negative_keywords).

Definition query (e : env) (name : text) (keywords : list text) : text :=
  join " " ((if truthy name then [name] else []) ++ all_keywords e keywords).

Definition articles (e : env) (name : text) (keywords : list text)
  (from_date to_date : text) : list article :=
  let query := query e name keywords in
  fetch_from_newsdata e query from_date to_date
  ++ fetch_from_newsapi e query from_date to_date
  ++ fetch_from_gnews e query from_date to_date.

(** The body of the loop over the articles: no result or one. *)
Definition classify_article (e : env) (name : text) (all_keywords : list text)
  (high_severity : bool) (art : article) : list result :=
  let txt := art_title art +++ " " +++ art_desc art in
  let score := polarity_compound e txt in
  let severity := categorize_severity score in
  if severity_eqb severity NotNegative then []
  else if (high_severity && negb (severity_eqb severity High))%bool then []
  else
    [ {| title := art_title art;
         source := art_source art;
         date := art_date art;
         snippet_html := color_highlight_terms e txt name all_keywords;
         url := art_url art;
         score := score;
         severity_of := severity;
         model_label := None |} ].

(** [search_all(name, keywords, from_date, to_date, high_severity)] *)
Definition search_all (e : env) (name : text) (keywords : list text)
  (from_date to_date : text) (high_severity : bool) : list result :=
  flat_map (classify_article e name (all_keywords e keywords) high_severity)
    (articles e name keywords from_date to_date).

(** The sanctions section of the page: [if name: ... search_sanctions(name)]. *)
Definition sanctions_section (e : env) (name : text) : option (list sanctions_match) :=
  if truthy name then Some (search_sanctions e name) else None.

End V5.

(** ** [adverse_news_app.py] *)

Module V1.

Import PyStr.

Definition search_sanctions := Shared.search_sanctions.

Definition DEFAULT_NEGATIVE_KEYWORDS : list text := V5.default_negative_keywords.

Definition color_highlight_terms := Shared.color_highlight_terms.

Definition all_keywords (e : env) (keywords : list text) : list text :=
  set_order e (keywords ++ DEFAULT_NEGATIVE_KEYWORDS).

Definition query (e : env) (name : text) (keywords : list text) : text :=
  join " " ((if truthy name then [name] else []) ++ all_keywords e keywords).

Definition articles (e : env) (name : text) (keywords : list text)
  (from_date to_date : text) : list article :=
  let query := query e name keywords in
  fetch_from_newsdata e query from_date to_date
  ++ fetch_from_newsapi e query from_date to_date
  ++ fetch_from_gnews e query from_date to_date.

(** [search_all(name, keywords, from_date, to_date, high_severity)] *)
Definition search_all (e : env) (name : text) (keywords : list text)
  (from_date to_date : text) (high_severity : bool) : list result :=
  flat_map (Shared.classify_article e name (all_keywords e keywords) high_severity)
    (articles e name keywords from_date to_date).

(** The sanctions section of the page: [if name: ... search_sanctions(name)]. *)
Definition sanctions_section (e : env) (name : text) : option (list sanctions_match) :=
  if truthy name then Some (search_sanctions e name) else None.

End V1.

(** ** [adverse_news8_app_v2.py] *)

Module V8.

Import PyStr.

Definition remove_tokens : list text := texts [
  "public joint stock company"; "pjsc"; "plc"; "llc"; "ltd"; "limited";
  "inc"; "corp"; "corporation"; "co."; "company"; "sa"; "gmbh"; "pjsc"; "," ].

(** [normalize_name(n)] *)
Definition normalize_name (n : text) : text :=
  if negb (truthy n) then []
  else
    let n := lower n in
    let n := fold_left (fun n t => replace t " " n) remove_tokens n in
    strip (Re.sub_spaces n).

(** [fuzzy_match(a, b)] *)
Definition fuzzy_match (a b : text) : Q := Difflib.ratio a b.

Definition FALLBACK_SANCTIONS : list text := texts [
  "lukoil"; "rosneft"; "gazprom"; "sberbank"; "vtb"; "alrosa"; "gazprombank";
  "vtb bank" ].

Definition DEFAULT_NEGATIVE_KEYWORDS : list text := texts [
  "fraud"; "laundering"; "ponzi"; "money laundering"; "tax evasion"; "embezzlement";
  "forgery"; "kickback"; "shell company"; "suspicious transaction"; "false accounting";
  "terror financing"; "insider trading"; "asset freeze"; "illegal transfer"; "bribery";
  "corruption"; "diversion of funds"; "misappropriation";
  "charges"; "convicted"; "indicted"; "lawsuit"; "criminal case"; "penalty"; "fine";
  "prosecuted"; "guilty plea"; "investigation"; "probe"; "raid"; "arrested";
  "suspended"; "debarred"; "regulatory action"; "compliance breach"; "sanctioned";
  "sanction"; "ofac"; "eu sanction"; "uk sanction"; "fatf"; "blocked entity";
  "blacklisted"; "restricted"; "export ban"; "embargo"; "asset freeze";
  "designated entity"; "designated vessel"; "sdn"; "sdn list"; "blocked"; "iran";
  "syria"; "cuba"; "north korea"; "crimea"; "donetsk"; "luhansk";
  "environmental violation"; "oil spill"; "pollution"; "governance failure";
  "labor abuse"; "human rights abuse"; "workplace accident"; "unethical practice";
  "illegal dumping"; "bribery charges"; "corruption probe"; "compliance failure";
  "reputational risk" ].

Definition color_highlight_terms := Shared.color_highlight_terms.

Definition all_keywords (e : env) (keywords : list text) : list text :=
  set_order e (keywords ++ DEFAULT_NEGATIVE_KEYWORDS).

Definition query (e : env) (name : text) (keywords : list text) : text :=
  join " " ((if truthy name then [name] else []) ++ all_keywords e keywords).

Definition articles (e : env) (name : text) (keywords : list text)
  (from_date to_date : text) : list article :=
  let query := query e name keywords in
  fetch_from_newsdata e query from_date to_date
  ++ fetch_from_newsapi e query from_date to_date
  ++ fetch_from_gnews e query from_date to_date.

(** The combined candidate list. *)
Definition sanctions_names (e : env) : list text :=
  let names := fetch_ofac_list e ++ fetch_uk_list e ++ fetch_opensanctions_all e 1000 4000 in
  let names := set_order e (filter truthy names) in
  let names := names ++ FALLBACK_SANCTIONS in
  set_order e (filter truthy names).

(** The loop that collects the matches of [name], then [sorted]. *)
Definition matches (name : text) (sanctions_names : list text) : list sanctions_match :=
  let name_norm := normalize_name name in
  let matches :=
    flat_map (fun s =>
      let s_norm := normalize_name s in
      let score := fuzzy_match name_norm s_norm in
      if Float64.geb score (Float64.lit 0.6)
      then [ {| sanctioned_name := s; similarity := Float64.round2 score |} ]
      else []) sanctions_names in
  if negb (Nat.eqb (length matches) 0)
  then Py.sorted Float64.ltb (fun x => - similarity x) matches
  else matches.

(** The results of the sanctions stage: [if name: ...]. *)
Definition sanctions_stage (e : env) (name : text) : list result :=
  if truthy name
  then map Shared.sanctions_result (matches name (sanctions_names e))
  else [].

(** The results of the loop over the articles. *)
Definition news_stage (e : env) (name : text) (keywords : list text)
  (from_date to_date : text) (high_severity : bool) : list result :=
  flat_map (Shared.classify_article e name (all_keywords e keywords) high_severity)
    (articles e name keywords from_date to_date).

(** [search_all(name, keywords, from_date, to_date, high_severity)] *)
Definition search_all (e : env) (name : text) (keywords : list text)
  (from_date to_date : text) (high_severity : bool) : list result :=
  sanctions_stage e name ++ news_stage e name keywords from_date to_date high_severity.

End V8.

(** ** [adverse_news9_app_v2_1.py] *)

Module V9.

Import PyStr.

Definition remove_tokens : list text := texts [
  "public joint stock company"; "pjsc"; "plc"; "llc"; "ltd"; "limited";
  "inc"; "corp"; "corporation"; "co."; "company"; "sa"; "gmbh"; "," ].

(** [normalize_name(n)] *)
Definition normalize_name (n : text) : text :=
  if negb (truthy n) then []
  else
    let n := lower n in
    let n := fold_left (fun n t => replace t " " n) remove_tokens n in
    let n := Re.sub_non_alnum n in
    strip (Re.sub_spaces n).

(** [fuzzy_match(a, b)] *)
Definition fuzzy_match (a b : text) : Q := Difflib.ratio a b.

Definition FALLBACK_SANCTIONS : list text := texts [
  "Lukoil"; "Rosneft"; "Gazprom"; "Sberbank"; "VTB"; "Alrosa"; "Gazprombank";
  "VTB Bank"; "Rosneft Oil Company" ].

Definition KEYWORD_BUCKET : list text := texts [
  "fraud"; "laundering"; "corruption"; "sanction"; "bribery"; "investigation";
  "probe"; "fine"; "penalty" ].

Definition dquote : text := [ascii_of_nat 34].

(** [build_query(name, keywords)] *)
Definition build_query (name : text) (keywords : list text) : text :=
  let kw_or := join " OR " keywords in
  let nm := if contains " " (strip name) then dquote +++ name +++ dquote else strip name in
  nm +++ " AND (" +++ kw_or +++ ")".

(** The three news fetchers build the query from the name and the keywords
    and then call their API. *)
Definition articles (e : env) (name : text) (from_date to_date : text) : list article :=
  let core_keywords := KEYWORD_BUCKET in
  fetch_from_newsdata e (build_query name core_keywords) from_date to_date
  ++ fetch_from_newsapi e (build_query name core_keywords) from_date to_date
  ++ fetch_from_gnews e (build_query name core_keywords) from_date to_date.

(** The combined candidate list. *)
Definition sanctions_names (e : env) : list text :=
  let names := fetch_ofac_list e ++ fetch_uk_list e ++ fetch_opensanctions_all e 1000 3000 in
  let names := set_order e (filter truthy names) in
  let names := names ++ FALLBACK_SANCTIONS in
  set_order e (filter truthy names).

(** The loop that collects the matches of [name], then [sorted]. *)
Definition matches (name : text) (sanctions_names : list text) : list sanctions_match :=
  let name_norm := normalize_name name in
  let matches :=
    flat_map (fun s =>
      let s_norm := normalize_name s in
      let score := fuzzy_match name_norm s_norm in
      if Float64.geb score (Float64.lit 0.6)
      then [ {| sanctioned_name := s; similarity := Float64.round2 score |} ]
      else []) sanctions_names in
  if negb (Nat.eqb (length matches) 0)
  then Py.sorted Float64.ltb (fun x => - similarity x) matches
  else matches.

(** The results of the sanctions stage. *)
Definition sanctions_stage (e : env) (name : text) : list result :=
  map Shared.sanctions_result (matches name (sanctions_names e)).

(** The body of the loop over the articles: no result or one.  The
    headline alone is shown; nothing is highlighted. *)
Definition classify_article (e : env) (high_severity : bool) (art : article) : list result :=
  let txt := art_title art +++ " " +++ art_desc art in
  if negb (truthy (strip txt)) then []
  else
    let '(label, score) := Shared.run_model e txt in
    if negb (Shared.is_negative (model_choice e) label) then []
    else
      let severity := Shared.severity_of_score score in
      if (high_severity && negb (severity_eqb severity High))%bool then []
      else
        let headline := if truthy (strip (art_title art))
                        then strip (art_title art) else strip (art_desc art) in
        [ {| title := headline;
             source := art_source art;
             date := art_date art;
             snippet_html := headline;
             url := art_url art;
             score := score;
             severity_of := severity;
             model_label := Some label |} ].

(** The results of the loop over the articles. *)
Definition news_stage (e : env) (name : text) (from_date to_date : text)
  (high_severity : bool) : list result :=
  flat_map (classify_article e high_severity) (articles e name from_date to_date).

(** [search_all(name, extra_keywords, from_date, to_date, high_severity)] *)
Definition search_all (e : env) (name : text) (extra_keywords : list text)
  (from_date to_date : text) (high_severity : bool) : list result :=
  if (negb (truthy name) || negb (truthy (strip name)))%bool then []
  else sanctions_stage e name ++ news_stage e name from_date to_date high_severity.

End V9.

(** ** Vocabulary of the properties *)

(** The matching loop of the scripts with its two constants as parameters:
    the threshold and the preparation applied to the query and to every
    candidate ([str.lower] in [V1] and [V5], [normalize_name] in [V8] and
    [V9]). *)
Definition match_loop (threshold : Q) (prepare : text -> text) (query : text)
  (candidates : list text) : list sanctions_match :=
  let query_norm := prepare query in
  Py.sorted Float64.ltb (fun x => - similarity x)
    (flat_map (fun s =>
       let score := Difflib.ratio query_norm (prepare s) in
       if Float64.geb score threshold
       then [ {| sanctioned_name := s; similarity := Float64.round2 score |} ]
       else []) candidates).

(** The candidates that meet the threshold, in list order, each with its
    rounded score. *)
Definition kept (threshold : Q) (score : text -> Q) (candidates : list text)
  : list sanctions_match :=
  map (fun s => {| sanctioned_name := s; similarity := Float64.round2 (score s) |})
    (filter (fun s => Float64.geb (score s) threshold) candidates).

(** [out] lists the matches of [base] by descending similarity, matches of
    equal similarity in the order they have in [base]. *)
Definition ranked (base out : list sanctions_match) : Prop :=
  Permutation out base
  /\ StronglySorted (fun x y => similarity y <= similarity x) out
  /\ forall q : Q,
       filter (fun m => Qeq_bool (similarity m) q) out
       = filter (fun m => Qeq_bool (similarity m) q) base.

(** [out] lists its matches by descending score of their candidates. *)
Definition by_score (score : text -> Q) (out : list sanctions_match) : Prop :=
  StronglySorted
    (fun x y => score (sanctioned_name y) <= score (sanctioned_name x)) out.

(** [x] before [y] is in order for [sorted]: the key of [y] is not
    smaller than the key of [x]. *)
Definition in_order (A K : Type) (ltb : K -> K -> bool) (key : A -> K) (x y : A) : Prop :=
  ltb (key y) (key x) = false.

(** Number of places of [s] where [sub] starts. *)
Fixpoint count_sub (sub s : text) : nat :=
  match s with
  | [] => 0
  | _ :: s' => (if PyStr.startswith sub s then 1 else 0) + count_sub sub s'
  end.

(** The characters a normalized name may hold according to the
    specification: lowercase letters, digits and the space. *)
Definition plain_char (c : ascii) : bool :=
  (PyStr.is_az c || PyStr.is_digit c || Ascii.eqb c " ")%bool.

(** No two spaces in a row. *)
Fixpoint single_spaced (s : text) : bool :=
  match s with
  | c :: ((d :: _) as s') =>
      (negb (Ascii.eqb c " " && Ascii.eqb d " ") && single_spaced s')%bool
  | _ => true
  end.

(** Neither a leading nor a trailing space. *)
Definition trimmed (s : text) : bool :=
  (negb (PyStr.startswith " " s) && negb (PyStr.startswith " " (rev s)))%bool.

(** Does [s] start with a whitespace character? *)
Definition starts_blank (s : text) : bool :=
  match s with
  | c :: _ => PyStr.is_space c
  | [] => false
  end.

(** [y] is [x] rounded to two decimal places: [k] is the whole number of
    hundredths nearest to [x], the even one where two are equally near, and
    [y] is the double that the decimal [k / 100] denotes. *)
Definition two_decimals (x y : Q) : Prop :=
  exists k : Z,
    y = Float64.lit (Qmake k 100)
    /\ Qmake (2 * k - 1) 200 <= x <= Qmake (2 * k + 1) 200
    /\ (x == Qmake (2 * k - 1) 200 \/ x == Qmake (2 * k + 1) 200 -> Z.even k = true).

(** A sanctions result as the merged list must hold it, for the candidate
    [s] of the lists and the preparation [prepare] of the names. *)
Definition sanctions_row (prepare : text -> text) (name s : text) (r : result) : Prop :=
  title r = "Sanctions match: " +++ s
  /\ source r = text_of_string "SanctionsLists"
  /\ severity_of r = High
  /\ model_label r = Some (text_of_string "SANCTIONS_MATCH")
  /\ date r = []
  /\ url r = []
  /\ two_decimals (Difflib.ratio (prepare name) (prepare s)) (score r).

(** Two environments that agree on everything the sanctions lists are read
    from; their news sources and their classifiers may differ. *)
Definition same_lists (e e' : env) : Prop :=
  fetch_ofac_list e = fetch_ofac_list e'
  /\ fetch_uk_list e = fetch_uk_list e'
  /\ (forall limit max_items : nat,
        fetch_opensanctions_all e limit max_items
        = fetch_opensanctions_all e' limit max_items)
  /\ (forall l : list text, set_order e l = set_order e' l).

(** The rule of the specification for the label: the label contains [neg],
    letter case apart, or it equals the code that the configuration maps to
    negative for the classifier. *)
Definition claimed_negative (negative_code : option text) (label : text) : bool :=
  (PyStr.contains "neg" (PyStr.lower label)
   || match negative_code with
      | Some c => PyStr.eqb label c
      | None => false
      end)%bool.

(** The rule of the code: the lowercased label contains [neg], or the name
    of the selected model contains [twitter-roberta] and the label is
    [LABEL_0] once put in upper case. *)
Definition counts_negative (model_choice label : text) : Prop :=
  PyStr.contains "neg" (PyStr.lower label) = true
  \/ (PyStr.contains "twitter-roberta" model_choice = true
      /\ PyStr.upper label = text_of_string "LABEL_0").

(** The classifier answers the text of the article, cut to 1024
    characters, and the loop reads [label] and [confidence] from the answer:
    [res.get('label','') or ''] and [float(res.get('score',0.0))], so an
    answer without a label reads as the empty label and one without a score
    as 0.0. *)
Definition answers (e : env) (art : article) (label : text) (confidence : Q) : Prop :=
  exists res : classification,
    sentiment_model e (PyStr.slice_to 1024 (art_title art +++ " " +++ art_desc art))
    = Some res
    /\ label = match res_label res with Some l => l | None => [] end
    /\ confidence = match res_score res with Some s => s | None => 0 end.

(** What the loop body does with one article that the classifier answered
    with [label] and [confidence]: [out] holds the results appended for
    it. *)
Definition article_outcome (e : env) (high_severity : bool) (art : article)
  (label : text) (confidence : Q) (out : list result) : Prop :=
  (out = []
   <-> PyStr.strip (art_title art +++ " " +++ art_desc art) = []
       \/ ~ counts_negative (model_choice e) label
       \/ (high_severity = true /\ confidence < Float64.lit 0.85))
  /\ (length out <= 1)%nat
  /\ Forall (fun r => counts_negative (model_choice e) label
                      /\ model_label r = Some label
                      /\ score r = confidence
                      /\ (severity_of r = High <-> Float64.lit 0.85 <= confidence)
                      /\ (severity_of r = Medium
                          <-> Float64.lit 0.6 <= confidence
                              /\ confidence < Float64.lit 0.85)
                      /\ (severity_of r = Low <-> confidence < Float64.lit 0.6))
       out.

(** The model of the example in which the code of the classifier for
    negative is a label of the form [LABEL_n]. *)
Definition roberta : text := "cardiffnlp/twitter-roberta-base-sentiment-latest".

(** ** An environment for the examples *)

Definition probe_article : article :=
  {| art_title := "Company X faces fraud probe";
     art_desc := "";
     art_date := "2024-05-01";
     art_url := "https://news.example/x";
     art_source := "NewsAPI" |}.

Definition fine_article : article :=
  {| art_title := "Regulator fines Company X";
     art_desc := "Penalty for money laundering";
     art_date := "2024-06-01";
     art_url := "https://news.example/y";
     art_source := "NewsAPI" |}.

(** One news source answers with two articles whatever the query; the
    classifier raises on the first and calls the second negative with
    confidence 0.9; the lexicon engine scores every text -0.55; the
    sanctions sources hold three names; a set is iterated in list order,
    an element that is repeated at the place of its last occurrence. *)
Definition example_env : env :=
  {| fetch_from_newsdata := fun _ _ _ => [];
     fetch_from_newsapi := fun _ _ _ => [probe_article; fine_article];
     fetch_from_gnews := fun _ _ _ => [];
     fetch_ofac_list := texts ["ACME LTD"; "Inc"];
     fetch_uk_list := texts ["Beta Corp"];
     fetch_opensanctions := [];
     fetch_opensanctions_all := fun _ _ => [];
     set_order := nodup (list_eq_dec ascii_dec);
     polarity_compound := fun _ => - Float64.lit 0.55;
     model_choice := "ProsusAI/finbert";
     sentiment_model := fun txt =>
       if PyStr.eqb txt (art_title probe_article +++ " " +++ art_desc probe_article)
       then None
       else Some {| res_label := Some (text_of_string "negative");
                    res_score := Some (Float64.lit 0.9) |} |}.

(** The turns the work list of [get_matching_blocks] can still take: a
    range of [n] characters of [a] gives at most [n] blocks, each of which
    pushes at most two ranges. *)
Definition queue_weight (queue : list (nat * nat * nat * nat)) : nat :=
  fold_right (fun r acc =>
    match r with (alo, ahi, _, _) => (2 * (ahi - alo) + 1 + acc)%nat end) 0%nat queue.

Definition queue_ok (queue : list (nat * nat * nat * nat)) : Prop :=
  Forall (fun r => match r with (alo, ahi, _, _) => (alo <= ahi)%nat end) queue.

(** The character before the position reached once [s] is read, [prev]
    being the one before [s]. *)
Definition char_before (prev : option ascii) (s : text) : option ascii :=
  fold_left (fun _ c => Some c) s prev.

(** Does the literal of the pattern of [kw], letters compared as the
    case-insensitive pattern compares them, stand at some position of [s],
    between word boundaries or not? *)
Fixpoint occurs (kw s : text) : bool :=
  match Re.match_literal kw s with
  | Some _ => true
  | None =>
      match s with
      | [] => false
      | _ :: s' => occurs kw s'
      end
  end.

(** In the text [pre ++ m ++ post], read with [prev] before it, the
    pattern [(?i)\b(kw)\b] matches at no position of [pre], and after [pre]
    it matches the characters [m], which are not none. *)
Fixpoint first_at (kw : text) (prev : option ascii) (pre m post : text) : bool :=
  match pre with
  | [] =>
      match m with
      | [] => false
      | _ :: _ =>
          match Re.match_word kw prev (m ++ post) with
          | Some m' => PyStr.eqb m' m
          | None => false
          end
      end
  | c :: pre' =>
      match Re.match_word kw prev (pre ++ m ++ post) with
      | Some _ => false
      | None => first_at kw (Some c) pre' m post
      end
  end.

(** The keywords of the example in which the shorter one is no word of the
    longer one. *)
Definition laund_keywords : list text := texts ["laund"; "money laundering"].

(** The keywords and the outcome of the highlighter example. *)
Definition laundering_keywords : list text := texts ["laundering"; "money laundering"].

Definition nested_marking : text :=
  keyword_span +++ "money " +++ keyword_span +++ "laundering" +++ span_end
  +++ span_end +++ " scheme".

(** ** The page script around [search_all] *)

Module Page.

Import PyStr.

(** [s.split(",")]: the pieces between the commas; there is always at
    least one piece. *)
Fixpoint split_comma (s : text) : list text :=
  match s with
  | [] => [[]]
  | c :: s' =>
      if eqb_char c ","
      then [] :: split_comma s'
      else match split_comma s' with
           | p :: ps => (c :: p) :: ps
           | [] => [[c]]
           end
  end.

(** [[k.strip() for k in keywords_input.split(",") if k.strip()]] *)
Definition parse_keywords (keywords_input : text) : list text :=
  flat_map (fun k => if truthy (strip k) then [strip k] else [])
    (split_comma keywords_input).

(** [a < b] on strings: the code points at the first place where the two
    differ decide; a proper prefix is smaller. *)
Fixpoint str_ltb (a b : text) : bool :=
  match a, b with
  | _, [] => false
  | [], _ :: _ => true
  | x :: a', y :: b' =>
      if N.ltb (code x) (code y) then true
      else if N.ltb (code y) (code x) then false
      else str_ltb a' b'
  end.

(** [a < b] on the tuples [(int, str)]: the first components decide unless
    they are equal. *)
Definition tuple_ltb (x y : Z * text) : bool :=
  if Z.eqb (fst x) (fst y) then str_ltb (snd x) (snd y) else Z.ltb (fst x) (fst y).

(** [l.sort(key=key, reverse=True)]: descending, and elements with equal
    keys keep their order; the interpreter reverses the list, sorts it
    ascending and reverses it again. *)
Definition sort_reverse (A K : Type) (ltb : K -> K -> bool) (key : A -> K)
  (l : list A) : list A :=
  rev (Py.sorted ltb key (rev l)).

(** The [if]/[elif] chain on [sort_option] in [V1], [V5] and [V8]. *)
Definition sort_results (sort_option : text) (results : list result) : list result :=
  if eqb sort_option "Newest First" then sort_reverse str_ltb date results
  else if eqb sort_option "Oldest First" then Py.sorted str_ltb date results
  else if eqb sort_option "Source (A-Z)"
  then Py.sorted str_ltb (fun x => lower (source x)) results
  else results.

(** The key of the fourth option of [V9]:
    [(0 if x.get('source')=='SanctionsLists' else 1, x.get('date',''))]. *)
Definition sanctions_first_key (x : result) : Z * text :=
  ((if eqb (source x) "SanctionsLists" then 0 else 1)%Z, date x).

(** The chain of [V9]. *)
Definition sort_results_v9 (sort_option : text) (results : list result) : list result :=
  if eqb sort_option "Newest First" then sort_reverse str_ltb date results
  else if eqb sort_option "Oldest First" then Py.sorted str_ltb date results
  else if eqb sort_option "Source (A-Z)"
  then Py.sorted str_ltb (fun x => lower (source x)) results
  else if eqb sort_option "Sanctions First"
  then Py.sorted tuple_ltb sanctions_first_key results
  else results.

(** [found_news = [r for r in results if r.get('source') != 'SanctionsLists']]
    of [V9]: the rows listed under the news heading and exported. *)
Definition found_news (results : list result) : list result :=
  filter (fun r => negb (eqb (source r) "SanctionsLists")) results.

End Page.

(** ** The paginated fetcher [fetch_opensanctions_all] of [V8] and [V9] *)

Module OpenSanctions.

Import PyStr.

Local Open Scope nat_scope.

(** A value of the decoded answer, as [r.json()] builds it. *)
#[local] Unset Elimination Schemes.

Inductive json : Type :=
| JNull                                   (* None *)
| JBool (b : bool)
| JNumber (q : Q)                         (* an int or a finite float *)
| JNotFinite                              (* NaN, Infinity, -Infinity *)
| JString (s : text)
| JArray (items : list json)              (* a list *)
| JObject (members : list (text * json)). (* a dict *)

#[local] Set Elimination Schemes.

(** [if nm:], the truth value of a decoded value. *)
Definition truthy_value (nm : json) : bool :=
  match nm with
  | JNull => false
  | JBool b => b
  | JNumber q => negb (Qeq_bool q 0%Q)
  | JNotFinite => true
  | JString s => truthy s
  | JArray items => negb (length items =? 0)
  | JObject members => negb (length members =? 0)
  end.

(** Can the value be an element of a set?  Lists and dicts cannot: adding
    one raises TypeError. *)
Definition hashable (nm : json) : bool :=
  match nm with
  | JArray _ | JObject _ => false
  | _ => true
  end.

(** What one turn of the loop meets at its URL. *)
Inductive page : Type :=
| Raises                         (* requests.get, r.json() or a .get raises *)
| Refused                        (* r.status_code != 200 *)
| Results (names : list json).   (* for each r0 of j.get('results', []):
                                    r0.get('properties', {}).get('name'),
                                    None where the key is absent *)

(** How the [while True] loop ends. *)
Inductive outcome : Type :=
| StillRunning                (* the turns given to the model are used up *)
| Raised                      (* control went to the [except] clause *)
| Left (names : list json).   (* a [break] was taken *)

(** [for r0 in results: nm = ...; if nm: names.append(nm)] *)
Definition named (results : list json) : list json :=
  filter truthy_value results.

(** The loop, from the state [offset], [names]; [get limit offset] is the
    answer to the request for [?limit={limit}&offset={offset}]. *)
Fixpoint pages_loop (get : nat -> nat -> page) (limit max_items : nat)
  (turns offset : nat) (names : list json) : outcome :=
  match turns with
  | O => StillRunning
  | S turns' =>
      match get limit offset with
      | Raises => Raised
      | Refused => Left names
      | Results results =>
          if negb (Nat.eqb (length results) 0)
          then
            let names := names ++ named results in
            let offset := offset + limit in
            if max_items <=? offset then Left names
            else pages_loop get limit max_items turns' offset names
          else Left names
      end
  end.

(** [list({n for n in names if n})], still inside the [try]: the set is
    built element by element and a value that cannot be hashed raises
    TypeError; otherwise the list holds the elements of the set in the order
    [order] in which the set is iterated. *)
Definition distinct (order : list json -> list json) (names : list json)
  : option (list json) :=
  let kept := filter truthy_value names in
  if forallb hashable kept then Some (order kept) else None.

(** [fetch_opensanctions_all(limit, max_items)]: the names of the pages as
    a list of distinct elements, the empty list after an exception; [None]
    where the loop does not come to an end. *)
Definition fetch_opensanctions_all (order : list json -> list json)
  (get : nat -> nat -> page) (limit max_items : nat) : option (list json) :=
  match pages_loop get limit max_items (S max_items) 0 [] with
  | StillRunning => None
  | Raised => Some []
  | Left names =>
      match distinct order names with
      | Some l => Some l
      | None => Some []
      end
  end.

End OpenSanctions.

(** ** The loop of [search_all] of [V9] over the articles as fetched *)

Module Fetched.

Import PyStr.

(** What a fetcher of [V9] stores under ["title"] and ["desc"]:
    [a.get("title", "")] and [a.get("description", "")] give the string of
    the answer, the empty string for a key that is absent, and any other
    value the answer holds there as it is. *)
Inductive field : Type :=
| Str (s : text)
| NoneValue                (* JSON null *)
| Other (shown : text).    (* a number, a list, a dict, True or False;
                              [shown] is what [str()] gives for it *)

(** The date and the url are copied to the result unread and are taken as
    strings here; the source is a string literal of the fetcher. *)
Record fetched : Type := {
  raw_title : field;
  raw_desc : field;
  raw_date : text;
  raw_url : text;
  raw_source : text
}.

(** An article both of whose texts are strings. *)
Definition of_article (a : article) : fetched :=
  {| raw_title := Str (art_title a);
     raw_desc := Str (art_desc a);
     raw_date := art_date a;
     raw_url := art_url a;
     raw_source := art_source a |}.

(** [f"{x}"] *)
Definition shown_as (x : field) : text :=
  match x with
  | Str s => s
  | NoneValue => "None"
  | Other shown => shown
  end.

(** [x.strip()]; [None] is the AttributeError of a value that has no such
    method. *)
Definition strip_of (x : field) : option text :=
  match x with
  | Str s => Some (strip s)
  | NoneValue | Other _ => None
  end.

(** [art.get('title','').strip() or art.get('desc','').strip()]: the
    description is looked at only when the stripped title is empty. *)
Definition headline_of (art : fetched) : option text :=
  match strip_of (raw_title art) with
  | Some t => if truthy t then Some t else strip_of (raw_desc art)
  | None => None
  end.

(** The body of the loop over the articles: no result or one, or [None]
    when the line of the headline, which no [try] encloses, raises. *)
Definition classify_article (e : env) (high_severity : bool) (art : fetched)
  : option (list result) :=
  let txt := shown_as (raw_title art) +++ " " +++ shown_as (raw_desc art) in
  if negb (truthy (strip txt)) then Some []
  else
    let '(label, score) := Shared.run_model e txt in
    if negb (Shared.is_negative (model_choice e) label) then Some []
    else
      let severity := Shared.severity_of_score score in
      if (high_severity && negb (severity_eqb severity High))%bool then Some []
      else
        match headline_of art with
        | Some headline =>
            Some [ {| title := headline;
                      source := raw_source art;
                      date := raw_date art;
                      snippet_html := headline;
                      url := raw_url art;
                      score := score;
                      severity_of := severity;
                      model_label := Some label |} ]
        | None => None
        end.

(** [for art in articles: ...]: the results appended, or [None] when the
    body raises for one of the articles and [search_all] ends with that
    exception. *)
Fixpoint news_loop (e : env) (high_severity : bool) (articles : list fetched)
  : option (list result) :=
  match articles with
  | [] => Some []
  | art :: articles' =>
      match classify_article e high_severity art with
      | Some rows =>
          match news_loop e high_severity articles' with
          | Some more => Some (rows ++ more)
          | None => None
          end
      | None => None
      end
  end.

End Fetched.

(** ** Vocabulary of the further properties *)

(** The results the high-severity switch lets through. *)
Definition is_high (r : result) : bool := severity_eqb (severity_of r) High.

(** A set is iterated element by element: [list(set(l))] holds the elements
    of [l] and no others. *)
Definition lists_members (order : list text -> list text) : Prop :=
  forall (l : list text) (x : text), In x (order l) <-> In x l.

(** The fields a news result copies from its article. *)
Definition copied_fields (r : result) : text * text * text :=
  (source r, date r, url r).

Definition article_fields (a : article) : text * text * text :=
  (art_source a, art_date a, art_url a).

(** Strings without the comma, and strings [strip] leaves alone. *)
Definition comma_free (k : text) : Prop := Forall (fun c => c <> ","%char) k.

Definition clean_keyword (k : text) : Prop :=
  k <> [] /\ PyStr.strip k = k /\ comma_free k.

Definition blank (s : text) : Prop := Forall (fun c => PyStr.is_space c = true) s.

(** Does the loop body [f] append a result for the article [a]? *)
Definition reported (f : article -> list result) (a : article) : bool :=
  match f a with
  | [] => false
  | _ :: _ => true
  end.

(** [out] is [base] put in order of the text key [key], ascending or
    descending, rows with equal keys in the order they have in [base]. *)
Definition sorted_by_text (descending : bool) (key : result -> text)
  (base out : list result) : Prop :=
  Permutation out base
  /\ StronglySorted
       (fun x y => if descending
                   then Page.str_ltb (key x) (key y) = false
                   else Page.str_ltb (key y) (key x) = false) out
  /\ forall k : text,
       filter (fun r => PyStr.eqb (key r) k) out
       = filter (fun r => PyStr.eqb (key r) k) base.

(** Rows derived from the sanctions lists. *)
Definition is_sanctions_row (r : result) : bool := PyStr.eqb (source r) "SanctionsLists".

(** The states in which the loop of [fetch_opensanctions_all] starts a
    turn: the offset of the next request and the names appended so far. *)
Inductive reaches (get : nat -> nat -> OpenSanctions.page) (limit max_items : nat)
  : nat -> list OpenSanctions.json -> Prop :=
| reaches_start : reaches get limit max_items 0%nat []
| reaches_next (offset : nat) (names : list OpenSanctions.json)
    (results : list OpenSanctions.json) :
    reaches get limit max_items offset names ->
    get limit offset = OpenSanctions.Results results ->
    results <> [] ->
    (offset + limit < max_items)%nat ->
    reaches get limit max_items (offset + limit)%nat
      (names ++ OpenSanctions.named results).

(** What [fetch_opensanctions_all] returns once the loop was left with
    [names]: the distinct names when each of them can be put in a set, the
    empty list when one of them cannot (a name given as a list, as a
    multi-valued property is). *)
Definition finished (order : list OpenSanctions.json -> list OpenSanctions.json)
  (names : list OpenSanctions.json) (answer : option (list OpenSanctions.json)) : Prop :=
  (Forall (fun nm => OpenSanctions.hashable nm = true) names ->
   answer = Some (order names))
  /\ (Exists (fun nm => OpenSanctions.hashable nm = false) names ->
      answer = Some []).

(** An article of [V9] at which the loop of [search_all] raises: its text
    is not blank, the classifier's answer counts as negative and passes the
    high-severity switch, and the headline cannot be taken, because the
    title is not a string, or the title is blank and the description is not
    a string. *)
Definition stranded (e : env) (high_severity : bool) (art : Fetched.fetched) : Prop :=
  let txt := Fetched.shown_as (Fetched.raw_title art) +++ " "
             +++ Fetched.shown_as (Fetched.raw_desc art) in
  PyStr.strip txt <> []
  /\ Shared.is_negative (model_choice e) (fst (Shared.run_model e txt)) = true
  /\ (high_severity = true ->
      Shared.severity_of_score (snd (Shared.run_model e txt)) = High)
  /\ match Fetched.raw_title art with
     | Fetched.Str t =>
         PyStr.strip t = []
         /\ match Fetched.raw_desc art with
            | Fetched.Str _ => False
            | _ => True
            end
     | _ => True
     end.

(** An article whose title is empty and whose description is null. *)
Definition null_description : Fetched.fetched :=
  {| Fetched.raw_title := Fetched.Str "";
     Fetched.raw_desc := Fetched.NoneValue;
     Fetched.raw_date := "2024-06-01";
     Fetched.raw_url := "https://news.example/z";
     Fetched.raw_source := "GNews" |}.

(** The ranges of the work list of [get_matching_blocks] are well formed
    on the side of [b] too. *)
Definition queue_ok_b (queue : list (nat * nat * nat * nat)) : Prop :=
  Forall (fun r => match r with (_, _, blo, bhi) => (blo <= bhi)%nat end) queue.

(** The characters of [a], and of [b], the ranges of the work list still
    cover. *)
Definition queue_room_a (queue : list (nat * nat * nat * nat)) : nat :=
  fold_right (fun r acc => match r with (alo, ahi, _, _) => (ahi - alo + acc)%nat end)
    0%nat queue.

Definition queue_room_b (queue : list (nat * nat * nat * nat)) : nat :=
  fold_right (fun r acc => match r with (_, _, blo, bhi) => (bhi - blo + acc)%nat end)
    0%nat queue.

(** The characters a list of blocks matches. *)
Definition total_size (blocks : list Difflib.Match) : nat :=
  fold_right (fun x acc => (Difflib.m_size x + acc)%nat) 0%nat blocks.

(** The length of the longest common run of [a] and [b] that ends at the
    positions [i] of [a] and [j] of [b] and holds no character dropped from
    the index of [b]: what the inner loop of [find_longest_match] stores
    for [j] while it is on row [i]. *)
Fixpoint run_ending (a b : text) (i j : nat) {struct i} : nat :=
  if ((i <? length a)%nat && (j <? length b)%nat
      && Ascii.eqb (nth i a Difflib.dflt) (nth j b Difflib.dflt)
      && negb (Difflib.popular b (nth j b Difflib.dflt)))%bool
  then S (match i, j with
          | S i', S j' => run_ending a b i' j'
          | _, _ => O
          end)
  else O.

(** * Properties *)

(** ** The stable sort *)

Section SortedFacts.

Variables (A K : Type) (ltb : K -> K -> bool) (key : A -> K).

Let insert := Py.insert ltb key.
Let sorted := Py.sorted ltb key.

Let in_order := in_order ltb key.

Lemma insert_perm (x : A) (l : list A) : Permutation (insert x l) (x :: l).
Proof.
  induction l as [|y l IH]; simpl.
  - apply Permutation_refl.
  - destruct (ltb (key y) (key x)).
    + apply perm_trans with (y :: x :: l).
      * now apply perm_skip.
      * apply perm_swap.
    + apply Permutation_refl.
Qed.

Lemma sorted_perm (l : list A) : Permutation (sorted l) l.
Proof.
  induction l as [|x l IH]; simpl.
  - apply perm_nil.
  - apply perm_trans with (x :: sorted l).
    + apply insert_perm.
    + now apply perm_skip.
Qed.

(** Sorting leaves every family of pairwise unordered elements in place:
    this is stability. *)
Lemma insert_filter (p : A -> bool) (x : A) (l : list A) :
  (forall a b, p a = true -> p b = true -> ltb (key a) (key b) = false) ->
  filter p (insert x l) = filter p (x :: l).
Proof.
  intros Hp. induction l as [|y l IH]; simpl; [reflexivity|].
  destruct (ltb (key y) (key x)) eqn:E; simpl; [|reflexivity].
  simpl in IH. rewrite IH.
  destruct (p x) eqn:Px, (p y) eqn:Py; try reflexivity.
  rewrite (Hp y x Py Px) in E. discriminate.
Qed.

Lemma sorted_filter (p : A -> bool) (l : list A) :
  (forall a b, p a = true -> p b = true -> ltb (key a) (key b) = false) ->
  filter p (sorted l) = filter p l.
Proof.
  intros Hp. induction l as [|x l IH]; simpl; [reflexivity|].
  fold (sorted l). fold (insert x (sorted l)).
  rewrite insert_filter by exact Hp. simpl. now rewrite IH.
Qed.

Hypothesis ltb_asym : forall a b, ltb a b = true -> ltb b a = false.
Hypothesis ltb_negtrans :
  forall a b c, ltb b a = false -> ltb c b = false -> ltb c a = false.

Lemma insert_Forall (P : A -> Prop) (x : A) (l : list A) :
  P x -> Forall P l -> Forall P (insert x l).
Proof.
  intros Hx Hl. induction Hl as [|y l Hy Hl IH]; simpl.
  - now constructor.
  - destruct (ltb (key y) (key x)); constructor; auto.
Qed.

Lemma insert_sorted (x : A) (l : list A) :
  StronglySorted in_order l -> StronglySorted in_order (insert x l).
Proof.
  intros Hl. induction Hl as [|y l Hl IH Hy]; simpl.
  - constructor; constructor.
  - destruct (ltb (key y) (key x)) eqn:E.
    + constructor; [exact IH|].
      apply insert_Forall; [|exact Hy].
      unfold in_order. now apply ltb_asym.
    + constructor; [now constructor|].
      constructor; [exact E|].
      eapply Forall_impl; [|exact Hy].
      intros z Hz. unfold in_order in *. eapply ltb_negtrans; eassumption.
Qed.

Lemma sorted_sorted (l : list A) : StronglySorted in_order (sorted l).
Proof.
  induction l as [|x l IH]; simpl.
  - constructor.
  - now apply insert_sorted.
Qed.

End SortedFacts.

(** ** The loops of the similarity ratio run to their end *)

Section LoopBounds.

Local Open Scope nat_scope.

Variables a b : text.

Lemma dict_get_cons (j k : nat) (d : Difflib.dict) (j' : nat) :
  Difflib.dict_get ((j, k) :: d) j' = if j =? j' then k else Difflib.dict_get d j'.
Proof. reflexivity. Qed.

Lemma scan_row_bounds (alo i blo bhi : nat) (j2len : Difflib.dict) (js : list nat)
  (newj2len : Difflib.dict) (best : Difflib.Match) :
  alo <= i ->
  (forall j, Difflib.dict_get j2len j <= i - alo) ->
  (forall j, Difflib.dict_get newj2len j <= i + 1 - alo) ->
  alo <= Difflib.m_a best ->
  Difflib.m_a best + Difflib.m_size best <= i + 1 ->
  (forall j, Difflib.dict_get (fst (Difflib.scan_row i blo bhi j2len js newj2len best)) j
             <= i + 1 - alo)
  /\ alo <= Difflib.m_a (snd (Difflib.scan_row i blo bhi j2len js newj2len best))
  /\ Difflib.m_a (snd (Difflib.scan_row i blo bhi j2len js newj2len best))
     + Difflib.m_size (snd (Difflib.scan_row i blo bhi j2len js newj2len best))
     <= i + 1.
Proof.
  intros Hi Hold. revert newj2len best.
  induction js as [|j js IH]; intros newj2len best Hnew Ha Hsum.
  - cbn [Difflib.scan_row fst snd]. auto.
  - cbn [Difflib.scan_row]. destruct (j <? blo); [now apply IH|].
    destruct (bhi <=? j); [cbn [fst snd]; auto|].
    assert (Hk : Difflib.prev_len j2len j + 1 <= i + 1 - alo).
    { unfold Difflib.prev_len. destruct j as [|j']; [lia|].
      specialize (Hold j'). lia. }
    apply IH.
    + intros j'. rewrite dict_get_cons. destruct (j =? j'); [exact Hk|apply Hnew].
    + destruct (Difflib.m_size best <? Difflib.prev_len j2len j + 1);
        cbn [Difflib.m_a]; [lia|exact Ha].
    + destruct (Difflib.m_size best <? Difflib.prev_len j2len j + 1);
        cbn [Difflib.m_a Difflib.m_size]; [lia|exact Hsum].
Qed.

Lemma scan_rows_bounds (alo blo bhi n i : nat) (j2len : Difflib.dict)
  (best : Difflib.Match) :
  alo <= i ->
  (forall j, Difflib.dict_get j2len j <= i - alo) ->
  alo <= Difflib.m_a best ->
  Difflib.m_a best + Difflib.m_size best <= i ->
  alo <= Difflib.m_a (Difflib.scan_rows a b blo bhi (seq i n) j2len best)
  /\ Difflib.m_a (Difflib.scan_rows a b blo bhi (seq i n) j2len best)
     + Difflib.m_size (Difflib.scan_rows a b blo bhi (seq i n) j2len best)
     <= i + n.
Proof.
  revert i j2len best. induction n as [|n IH]; intros i j2len best Hi Hold Ha Hsum.
  - cbn [seq Difflib.scan_rows]. lia.
  - cbn [seq Difflib.scan_rows].
    pose proof (@scan_row_bounds alo i blo bhi j2len
                  (Difflib.b2j b (nth i a Difflib.dflt)) [] best Hi Hold) as H.
    destruct (Difflib.scan_row i blo bhi j2len
                (Difflib.b2j b (nth i a Difflib.dflt)) [] best) as [new best'].
    cbn [fst snd] in H.
    destruct H as (Hnew & Ha' & Hsum'); [intros j; cbn; lia|exact Ha|lia|].
    assert (Hnew' : forall j, Difflib.dict_get new j <= S i - alo)
      by (intros j; specialize (Hnew j); lia).
    assert (Hi' : alo <= S i) by lia.
    assert (Hsum'' : Difflib.m_a best' + Difflib.m_size best' <= S i) by lia.
    destruct (IH (S i) new best' Hi' Hnew' Ha' Hsum'') as [H1 H2].
    split; [exact H1|lia].
Qed.

Lemma extend_left_bounds (test : ascii -> bool) (alo blo bound turns : nat)
  (m : Difflib.Match) :
  alo <= Difflib.m_a m ->
  Difflib.m_a m + Difflib.m_size m <= bound ->
  alo <= Difflib.m_a (Difflib.extend_left a b test alo blo turns m)
  /\ Difflib.m_a (Difflib.extend_left a b test alo blo turns m)
     + Difflib.m_size (Difflib.extend_left a b test alo blo turns m) <= bound.
Proof.
  revert m. induction turns as [|turns IH]; intros m Ha Hsum; [cbn; auto|].
  cbn [Difflib.extend_left].
  destruct (alo <? Difflib.m_a m) eqn:E; cbn [andb]; [|auto].
  destruct (_ && _ && _)%bool; [|auto].
  apply Nat.ltb_lt in E. apply IH; cbn [Difflib.m_a Difflib.m_size]; lia.
Qed.

Lemma extend_right_bounds (test : ascii -> bool) (alo ahi bhi turns : nat)
  (m : Difflib.Match) :
  alo <= Difflib.m_a m ->
  Difflib.m_a m + Difflib.m_size m <= ahi ->
  alo <= Difflib.m_a (Difflib.extend_right a b test ahi bhi turns m)
  /\ Difflib.m_a (Difflib.extend_right a b test ahi bhi turns m)
     + Difflib.m_size (Difflib.extend_right a b test ahi bhi turns m) <= ahi.
Proof.
  revert m. induction turns as [|turns IH]; intros m Ha Hsum; [cbn; auto|].
  cbn [Difflib.extend_right].
  destruct (Difflib.m_a m + Difflib.m_size m <? ahi) eqn:E; cbn [andb]; [|auto].
  destruct (_ && _ && _)%bool; [|auto].
  apply Nat.ltb_lt in E. apply IH; cbn [Difflib.m_a Difflib.m_size]; lia.
Qed.

(** The longest block lies inside the range of [a] it was searched in. *)
Lemma find_longest_match_bounds (alo ahi blo bhi : nat) :
  alo <= ahi ->
  alo <= Difflib.m_a (Difflib.find_longest_match a b alo ahi blo bhi)
  /\ Difflib.m_a (Difflib.find_longest_match a b alo ahi blo bhi)
     + Difflib.m_size (Difflib.find_longest_match a b alo ahi blo bhi) <= ahi.
Proof.
  intros H. unfold Difflib.find_longest_match. cbv zeta.
  destruct (@scan_rows_bounds alo blo bhi (ahi - alo) alo []
              {| Difflib.m_a := alo; Difflib.m_b := blo; Difflib.m_size := 0 |})
    as [H1 H2]; cbn [Difflib.m_a Difflib.m_size]; try lia.
  { intros j. cbn. lia. }
  replace (alo + (ahi - alo)) with ahi in H2 by lia.
  set (m1 := Difflib.scan_rows a b blo bhi (seq alo (ahi - alo)) [] _) in *.
  destruct (@extend_left_bounds (fun c => negb (Difflib.isbjunk c)) alo blo ahi
              (Difflib.m_a m1) m1 H1 H2) as [H3 H4].
  set (m2 := Difflib.extend_left a b _ alo blo (Difflib.m_a m1) m1) in *.
  destruct (@extend_right_bounds (fun c => negb (Difflib.isbjunk c)) alo ahi bhi ahi
              m2 H3 H4) as [H5 H6].
  set (m3 := Difflib.extend_right a b _ ahi bhi ahi m2) in *.
  destruct (@extend_left_bounds Difflib.isbjunk alo blo ahi
              (Difflib.m_a m3) m3 H5 H6) as [H7 H8].
  now apply extend_right_bounds.
Qed.

(** Once the turns cover the weight of the queue, more turns change
    nothing: the loop has stopped on the empty queue. *)
Lemma blocks_loop_turns (turns extra : nat) (queue : list (nat * nat * nat * nat))
  (blocks : list Difflib.Match) :
  queue_ok queue -> queue_weight queue <= turns ->
  Difflib.blocks_loop a b (turns + extra) queue blocks
  = Difflib.blocks_loop a b turns queue blocks.
Proof.
  revert queue blocks. induction turns as [|turns IH]; intros queue blocks Hok Hw.
  - destruct queue as [|[[[alo ahi] blo] bhi] queue].
    + now destruct extra.
    + cbn [queue_weight fold_right] in Hw. lia.
  - cbn [Nat.add Difflib.blocks_loop].
    destruct queue as [|[[[alo ahi] blo] bhi] queue]; [reflexivity|].
    inversion Hok as [|? ? Hr Hq]; subst.
    cbn [queue_weight fold_right] in Hw. fold (queue_weight queue) in Hw.
    destruct (find_longest_match_bounds blo bhi Hr) as [H1 H2].
    set (x := Difflib.find_longest_match a b alo ahi blo bhi) in *.
    destruct (0 <? Difflib.m_size x) eqn:Ek.
    + apply Nat.ltb_lt in Ek. apply IH.
      * destruct (alo <? Difflib.m_a x) eqn:E1;
        destruct (blo <? Difflib.m_b x) eqn:E2;
        destruct (Difflib.m_a x + Difflib.m_size x <? ahi) eqn:E3;
        destruct (Difflib.m_b x + Difflib.m_size x <? bhi) eqn:E4;
        cbn [andb]; repeat constructor; auto;
        try (apply Nat.ltb_lt in E1); try (apply Nat.ltb_lt in E3); lia.
      * destruct (alo <? Difflib.m_a x) eqn:E1;
        destruct (blo <? Difflib.m_b x) eqn:E2;
        destruct (Difflib.m_a x + Difflib.m_size x <? ahi) eqn:E3;
        destruct (Difflib.m_b x + Difflib.m_size x <? bhi) eqn:E4;
        cbn [andb queue_weight fold_right]; fold (queue_weight queue);
        try (apply Nat.ltb_lt in E1); try (apply Nat.ltb_lt in E3); lia.
    + apply IH; [exact Hq|lia].
Qed.

End LoopBounds.

(** [get_matching_blocks] is given enough turns: with any number of
    additional turns it returns the same blocks. *)
Lemma get_matching_blocks_turns (a b : text) (extra : nat) :
  Difflib.blocks_loop a b (2 * length a + 1 + extra)%nat
    [(0, length a, 0, length b)%nat] []
  = Difflib.get_matching_blocks a b.
Proof.
  unfold Difflib.get_matching_blocks. apply blocks_loop_turns.
  - repeat constructor. lia.
  - cbn [queue_weight fold_right]. lia.
Qed.

(** The two loops that extend a block also have turns to spare. *)
Lemma extend_left_turns (a b : text) (test : ascii -> bool) (alo blo turns extra : nat)
  (m : Difflib.Match) :
  (Difflib.m_a m <= turns)%nat ->
  Difflib.extend_left a b test alo blo (turns + extra) m
  = Difflib.extend_left a b test alo blo turns m.
Proof.
  revert m. induction turns as [|turns IH]; intros m H.
  - destruct extra as [|extra]; [reflexivity|].
    cbn [Nat.add Difflib.extend_left].
    replace (Difflib.m_a m) with 0%nat by lia. reflexivity.
  - cbn [Nat.add Difflib.extend_left].
    destruct (alo <? Difflib.m_a m)%nat eqn:E; cbn [andb]; [|reflexivity].
    destruct (_ && _ && _)%bool; [|reflexivity].
    apply IH. cbn [Difflib.m_a]. lia.
Qed.

Lemma extend_right_turns (a b : text) (test : ascii -> bool) (ahi bhi turns extra : nat)
  (m : Difflib.Match) :
  (ahi - (Difflib.m_a m + Difflib.m_size m) <= turns)%nat ->
  Difflib.extend_right a b test ahi bhi (turns + extra) m
  = Difflib.extend_right a b test ahi bhi turns m.
Proof.
  revert m. induction turns as [|turns IH]; intros m H.
  - destruct extra as [|extra]; [reflexivity|].
    cbn [Nat.add Difflib.extend_right].
    destruct (Difflib.m_a m + Difflib.m_size m <? ahi)%nat eqn:E; [|reflexivity].
    apply Nat.ltb_lt in E. lia.
  - cbn [Nat.add Difflib.extend_right].
    destruct (Difflib.m_a m + Difflib.m_size m <? ahi)%nat eqn:E; cbn [andb];
      [|reflexivity].
    destruct (_ && _ && _)%bool; [|reflexivity].
    apply Nat.ltb_lt in E. apply IH. cbn [Difflib.m_a Difflib.m_size]. lia.
Qed.

(** ** The sanctions matcher *)

Lemma float_ltb_asym (a b : Q) : Float64.ltb a b = true -> Float64.ltb b a = false.
Proof.
  unfold Float64.ltb. intros H.
  apply negb_true_iff in H. apply negb_false_iff.
  apply Qle_bool_iff. destruct (Qlt_le_dec a b) as [Hlt|Hle].
  - now apply Qlt_le_weak.
  - apply Qle_bool_iff in Hle. congruence.
Qed.

Lemma float_ltb_negtrans (a b c : Q) :
  Float64.ltb b a = false -> Float64.ltb c b = false -> Float64.ltb c a = false.
Proof.
  unfold Float64.ltb. intros H1 H2.
  apply negb_false_iff in H1, H2. apply negb_false_iff.
  apply Qle_bool_iff in H1, H2. apply Qle_bool_iff.
  now apply Qle_trans with b.
Qed.

Lemma flat_map_kept (threshold : Q) (score : text -> Q) (candidates : list text) :
  flat_map (fun s =>
    if Float64.geb (score s) threshold
    then [ {| sanctioned_name := s; similarity := Float64.round2 (score s) |} ]
    else []) candidates
  = kept threshold score candidates.
Proof.
  unfold kept. induction candidates as [|s l IH]; simpl; [reflexivity|].
  rewrite IH. now destruct (Float64.geb (score s) threshold).
Qed.

Lemma sorted_ranked (base : list sanctions_match) :
  ranked base (Py.sorted Float64.ltb (fun x => - similarity x) base).
Proof.
  unfold ranked. split; [|split].
  - apply sorted_perm.
  - eapply StronglySorted_ind with
      (P := fun l => StronglySorted (fun x y => similarity y <= similarity x) l);
      [constructor| |apply sorted_sorted].
    + intros a l _ IH Ha. constructor; [exact IH|].
      eapply Forall_impl; [|exact Ha].
      intros b Hb. unfold in_order, Float64.ltb in Hb.
      apply negb_false_iff, Qle_bool_iff in Hb.
      now apply Qopp_le_compat in Hb; rewrite !Qopp_involutive in Hb.
    + intros a b. apply float_ltb_asym.
    + intros a b c. apply float_ltb_negtrans.
  - intros q. apply sorted_filter.
    intros a b Ha Hb. apply Qeq_bool_iff in Ha, Hb.
    unfold Float64.ltb. apply negb_false_iff, Qle_bool_iff.
    rewrite Ha, Hb. apply Qle_refl.
Qed.

Lemma matches_guard (l : list sanctions_match) :
  (if negb (Nat.eqb (length l) 0)
   then Py.sorted Float64.ltb (fun x => - similarity x) l else l)
  = Py.sorted Float64.ltb (fun x => - similarity x) l.
Proof. now destruct l. Qed.

(** C1, as the claim states it, fails: the order is not by the score itself.
    Against the query [Acme Holdings] the candidate [Acme Holdings Oil]
    scores 26/30 and [Acme Holdi] scores 20/23, which is more; both round to
    0.87, so the two matches tie and stay in list order, the lower score
    first. *)
Lemma C1_counterexample :
  ~ (forall (name : text) (names : list text),
        by_score
          (fun s => V9.fuzzy_match (V9.normalize_name name) (V9.normalize_name s))
          (V9.matches name names)).
Proof.
  intros H.
  specialize (H (text_of_string "Acme Holdings")
                (texts ["Acme Holdings Oil"; "Acme Holdi"])).
  assert (E : V9.matches "Acme Holdings" (texts ["Acme Holdings Oil"; "Acme Holdi"])
              = [ {| sanctioned_name := "Acme Holdings Oil";
                     similarity := Float64.lit 0.87 |};
                  {| sanctioned_name := "Acme Holdi";
                     similarity := Float64.lit 0.87 |} ])
    by (vm_compute; reflexivity).
  rewrite E in H. unfold by_score in H.
  inversion H as [|x l _ Hx]; subst.
  inversion Hx as [|y l' Hy _]; subst.
  cbn [sanctioned_name] in Hy. vm_compute in Hy. exact (Hy eq_refl).
Qed.

(** C1, amended. For every query name, candidate list and threshold, the
    matching loop returns a match exactly for the candidates whose score
    against the prepared query reaches the threshold.  Each match carries
    the score rounded to two decimals as its similarity, and the matches
    are ordered by descending rounded similarity, matches whose rounded
    similarities are equal in candidate order.  The matchers of the scripts
    are this loop at the thresholds 0.6 ([V8], [V9], names prepared by
    [normalize_name]) and 0.8 ([V1], [V5], names lowercased). *)
Theorem C1_sanctions_matcher :
  (forall (threshold : Q) (prepare : text -> text) (query : text)
          (candidates : list text),
      ranked
        (kept threshold (fun s => Difflib.ratio (prepare query) (prepare s)) candidates)
        (match_loop threshold prepare query candidates))
  /\ (forall name names,
        V9.matches name names
        = match_loop (Float64.lit 0.6) V9.normalize_name name names)
  /\ (forall name names,
        V8.matches name names
        = match_loop (Float64.lit 0.6) V8.normalize_name name names)
  /\ (forall e name_query,
        Shared.search_sanctions e name_query
        = match_loop (Float64.lit 0.8) PyStr.lower name_query
            (filter PyStr.truthy
               (fetch_ofac_list e ++ fetch_opensanctions e ++ fetch_uk_list e))).
Proof.
  split; [|split; [|split]].
  - intros threshold prepare query candidates. unfold match_loop.
    rewrite (flat_map_kept threshold (fun s => Difflib.ratio (prepare query) (prepare s))).
    apply sorted_ranked.
  - intros name names. unfold V9.matches. apply matches_guard.
  - intros name names. unfold V8.matches. apply matches_guard.
  - reflexivity.
Qed.

(** The scenario of the specification: one match, with full score. *)
Example C1_example_acme :
  V9.matches "Acme Ltd" (texts ["ACME LTD"; "Beta Corp"])
  = [ {| sanctioned_name := "ACME LTD"; similarity := 1 |} ].
Proof. vm_compute. reflexivity. Qed.

(** The better match comes first; the two full matches keep the order of
    the candidate list. *)
Example C1_example_order :
  map sanctioned_name
    (V9.matches "Gazprom" (texts ["Gasprom"; "Gazprom Inc"; "Beta Corp"; "GAZPROM"]))
  = texts ["Gazprom Inc"; "GAZPROM"; "Gasprom"].
Proof. vm_compute. reflexivity. Qed.

(** ** Severity of a lexicon score *)

Lemma Qle_bool_false (x y : Q) : Qle_bool x y = false <-> y < x.
Proof.
  split; intros H.
  - apply Qnot_le_lt. intros Hle. apply Qle_bool_iff in Hle. congruence.
  - destruct (Qle_bool x y) eqn:E; [|reflexivity].
    apply Qle_bool_iff in E. lra.
Qed.

(** Turns the float comparisons among the hypotheses into order facts. *)
Ltac float_order :=
  unfold Float64.leb, Float64.ltb, Float64.geb in *;
  repeat match goal with
    | H : negb _ = true |- _ => apply negb_true_iff in H
    | H : negb _ = false |- _ => apply negb_false_iff in H
    | H : Qle_bool _ _ = true |- _ => apply Qle_bool_iff in H
    | H : Qle_bool _ _ = false |- _ => apply Qle_bool_false in H
    end.

Lemma lit_0_5 : Float64.lit 0.5 = 1 # 2.
Proof. reflexivity. Qed.

(** The double written [0.2] lies a little above one fifth. *)
Lemma lit_0_2 : Float64.lit 0.2 = 3602879701896397 # 18014398509481984.
Proof. reflexivity. Qed.

Lemma categorize_severity_spec (s : Q) :
  (V5.categorize_severity s = High <-> s <= - Float64.lit 0.5)
  /\ (V5.categorize_severity s = Medium
      <-> - Float64.lit 0.5 < s /\ s <= - Float64.lit 0.2)
  /\ (V5.categorize_severity s = Low <-> - Float64.lit 0.2 < s /\ s < 0)
  /\ (V5.categorize_severity s = NotNegative <-> 0 <= s).
Proof.
  unfold V5.categorize_severity. rewrite lit_0_5, lit_0_2.
  destruct (Float64.leb s (- (1 # 2))) eqn:E1;
  destruct (Float64.ltb (- (1 # 2)) s) eqn:E2;
  destruct (Float64.leb s (- (3602879701896397 # 18014398509481984))) eqn:E3;
  destruct (Float64.ltb (- (3602879701896397 # 18014398509481984)) s) eqn:E4;
  destruct (Float64.ltb s 0) eqn:E5; simpl; float_order;
  repeat split; intros; try discriminate; try reflexivity; try lra.
Qed.

Lemma severity_eqb_eq (a b : severity) : severity_eqb a b = true <-> a = b.
Proof. destruct a, b; simpl; split; intros; try discriminate; reflexivity. Qed.

Lemma V5_classify_article_spec (e : env) (name : text) (keywords : list text)
  (high_severity : bool) (art : article) :
  let s := polarity_compound e (art_title art +++ " " +++ art_desc art) in
  (V5.classify_article e name keywords high_severity art = []
   <-> V5.categorize_severity s = NotNegative
       \/ (high_severity = true /\ V5.categorize_severity s <> High))
  /\ Forall (fun r => score r = s
                      /\ severity_of r = V5.categorize_severity s
                      /\ severity_of r <> NotNegative)
       (V5.classify_article e name keywords high_severity art).
Proof.
  intros s. unfold V5.classify_article. fold s.
  destruct (V5.categorize_severity s) eqn:E; destruct high_severity; simpl;
    (split; [split; [intros H; try discriminate; auto |
                     intros [H|[H1 H2]]; try discriminate; try reflexivity;
                     try (exfalso; apply H2; reflexivity)]
            | repeat constructor; simpl; try discriminate; auto ]).
  all: try (right; split; [reflexivity|discriminate]).
Qed.

(** C2. The severity of a lexicon score [s] is a total function of [s]
    alone: High for [s <= -0.5], Medium for [-0.5 < s <= -0.2], Low for
    [-0.2 < s < 0], and not negative for [s >= 0]; -0.6, -0.3, -0.1 and 0.1
    fall in the four buckets in this order.  An article whose score is not
    negative produces no result at all, and every result carries the bucket
    of its own score, which is never the not-negative one. *)
Theorem C2_severity_bucketing :
  (forall s : Q,
      (V5.categorize_severity s = High <-> s <= - Float64.lit 0.5)
      /\ (V5.categorize_severity s = Medium
          <-> - Float64.lit 0.5 < s /\ s <= - Float64.lit 0.2)
      /\ (V5.categorize_severity s = Low <-> - Float64.lit 0.2 < s /\ s < 0)
      /\ (V5.categorize_severity s = NotNegative <-> 0 <= s))
  /\ V5.categorize_severity (- Float64.lit 0.6) = High
  /\ V5.categorize_severity (- Float64.lit 0.3) = Medium
  /\ V5.categorize_severity (- Float64.lit 0.1) = Low
  /\ V5.categorize_severity (Float64.lit 0.1) = NotNegative
  /\ (forall e name keywords high_severity art,
        let s := polarity_compound e (art_title art +++ " " +++ art_desc art) in
        (V5.classify_article e name keywords high_severity art = []
         <-> V5.categorize_severity s = NotNegative
             \/ (high_severity = true /\ V5.categorize_severity s <> High))
        /\ Forall (fun r => score r = s
                            /\ severity_of r = V5.categorize_severity s
                            /\ severity_of r <> NotNegative)
             (V5.classify_article e name keywords high_severity art))
  /\ (forall e name keywords from_date to_date high_severity,
        V5.search_all e name keywords from_date to_date high_severity
        = flat_map
            (V5.classify_article e name (V5.all_keywords e keywords) high_severity)
            (V5.articles e name keywords from_date to_date)).
Proof.
  split; [exact categorize_severity_spec|].
  repeat split; try reflexivity.
  - apply V5_classify_article_spec.
  - apply V5_classify_article_spec.
  - apply V5_classify_article_spec.
Qed.

(** The scenario of the specification: a score of -0.55 puts the article
    among the results, with severity High. *)
Example C2_example_probe :
  map (fun r => (title r, severity_of r))
    (V5.search_all example_env "Company X" [] "2018-01-01" "2025-01-01" true)
  = [ (text_of_string "Company X faces fraud probe", High);
      (text_of_string "Regulator fines Company X", High) ].
Proof. vm_compute. reflexivity. Qed.

(** ** Negativity and severity of a classifier answer *)

Lemma eqb_char_eq (a b : ascii) : PyStr.eqb_char a b = true <-> a = b.
Proof. apply Ascii.eqb_eq. Qed.

Lemma text_eqb_eq (a b : text) : PyStr.eqb a b = true <-> a = b.
Proof.
  revert b. induction a as [|x a IH]; intros [|y b]; simpl;
    try (split; intros; [discriminate || reflexivity | discriminate || reflexivity]).
  rewrite andb_true_iff, eqb_char_eq, IH.
  split; [intros [-> ->]; reflexivity | intros H; injection H; auto].
Qed.

Lemma startswith_app (p q s : text) :
  PyStr.startswith (p ++ q) s = true -> PyStr.startswith p s = true.
Proof.
  revert s. induction p as [|x p IH]; intros s; simpl; [reflexivity|].
  destruct s as [|y s]; [intros; discriminate|].
  rewrite !andb_true_iff. intros [H1 H2]. split; [exact H1|]. now apply IH.
Qed.

Lemma contains_app (p q s : text) :
  PyStr.contains (p ++ q) s = true -> PyStr.contains p s = true.
Proof.
  induction s as [|y s IH].
  - simpl. rewrite !orb_false_r. apply startswith_app.
  - change (PyStr.contains (p ++ q) (y :: s))
      with (PyStr.startswith (p ++ q) (y :: s) || PyStr.contains (p ++ q) s)%bool.
    change (PyStr.contains p (y :: s))
      with (PyStr.startswith p (y :: s) || PyStr.contains p s)%bool.
    rewrite !orb_true_iff. intros [H|H].
    + left. now apply startswith_app in H.
    + right. now apply IH.
Qed.

Lemma contains_nonempty (p s : text) :
  p <> [] -> PyStr.contains p s = true -> PyStr.truthy s = true.
Proof.
  intros Hp. destruct s as [|y s]; [|reflexivity].
  destruct p as [|x p]; [congruence|]. simpl. intros; discriminate.
Qed.

Lemma is_negative_spec (model_choice label : text) :
  Shared.is_negative model_choice label = true
  <-> PyStr.contains "neg" (PyStr.lower label) = true
      \/ (PyStr.contains "twitter-roberta" model_choice = true
          /\ PyStr.upper label = text_of_string "LABEL_0").
Proof.
  unfold Shared.is_negative. cbv zeta.
  destruct (PyStr.contains "neg" (PyStr.lower label)) eqn:Eneg.
  - rewrite orb_true_l. split; [intros _; now left|intros _].
    now destruct (PyStr.truthy model_choice && _ && _)%bool;
      [destruct (PyStr.eqb _ _)|].
  - assert (Hnv : PyStr.contains "negative" (PyStr.lower label) = false).
    { destruct (PyStr.contains "negative" (PyStr.lower label)) eqn:E; [|reflexivity].
      apply (contains_app (text_of_string "neg") (text_of_string "ative")) in E.
      congruence. }
    rewrite Hnv, orb_false_l.
    split.
    + intros H. right.
      destruct (PyStr.truthy model_choice) eqn:Et; [|discriminate].
      destruct (PyStr.contains "twitter-roberta" model_choice) eqn:Ec; [|discriminate].
      destruct (PyStr.startswith "LABEL_" (PyStr.upper label)) eqn:Es; [|discriminate].
      rewrite !andb_true_l in H.
      destruct (PyStr.eqb (PyStr.upper label) "LABEL_0") eqn:Ee; [|discriminate].
      split; [reflexivity|]. now apply text_eqb_eq.
    + intros [H|[Hc Hu]]; [discriminate|].
      rewrite Hc, Hu.
      rewrite (contains_nonempty (p := text_of_string "twitter-roberta") model_choice);
        [reflexivity|discriminate|exact Hc].
Qed.

Lemma lit_0_85 : Float64.lit 0.85 = 7656119366529843 # 9007199254740992.
Proof. reflexivity. Qed.

Lemma lit_0_6 : Float64.lit 0.6 = 5404319552844595 # 9007199254740992.
Proof. reflexivity. Qed.

Lemma severity_of_score_spec (c : Q) :
  (Shared.severity_of_score c = High <-> Float64.lit 0.85 <= c)
  /\ (Shared.severity_of_score c = Medium
      <-> Float64.lit 0.6 <= c /\ c < Float64.lit 0.85)
  /\ (Shared.severity_of_score c = Low <-> c < Float64.lit 0.6).
Proof.
  unfold Shared.severity_of_score. rewrite lit_0_85, lit_0_6.
  destruct (Float64.geb c (7656119366529843 # 9007199254740992)) eqn:E1;
  destruct (Float64.geb c (5404319552844595 # 9007199254740992)) eqn:E2;
  float_order; repeat split; intros; try discriminate; try reflexivity; try lra.
Qed.

Lemma strip_truthy (s : text) : PyStr.truthy s = false <-> s = [].
Proof. destruct s; simpl; split; intros; congruence. Qed.

Lemma run_model_answers (e : env) (art : article) (label : text) (confidence : Q) :
  answers e art label confidence ->
  Shared.run_model e (art_title art +++ " " +++ art_desc art) = (label, confidence).
Proof.
  intros (res & H & -> & ->). unfold Shared.run_model. now rewrite H.
Qed.

Lemma run_model_raises (e : env) (txt : text) :
  sentiment_model e (PyStr.slice_to 1024 txt) = None ->
  Shared.run_model e txt = (text_of_string "ERROR", 0)
  /\ forall model_choice : text,
       Shared.is_negative model_choice (fst (Shared.run_model e txt)) = false.
Proof.
  intros H. unfold Shared.run_model. rewrite H. split; [reflexivity|].
  intros model_choice. cbn [fst].
  destruct (Shared.is_negative model_choice "ERROR") eqn:E; [|reflexivity].
  apply is_negative_spec in E. destruct E as [E|[_ E]]; vm_compute in E; discriminate.
Qed.

Lemma severity_of_score_cases (c : Q) : Shared.severity_of_score c <> NotNegative.
Proof.
  unfold Shared.severity_of_score.
  destruct (Float64.geb c (Float64.lit 0.85)); [discriminate|].
  destruct (Float64.geb c (Float64.lit 0.6)); discriminate.
Qed.

(** The case analysis shared by the loop bodies of the transformer
    variants: [row] is the result the body appends at its end. *)
Lemma outcome_of_row (e : env) (high_severity : bool) (art : article)
  (label : text) (confidence : Q) (row : result) :
  model_label row = Some label ->
  score row = confidence ->
  severity_of row = Shared.severity_of_score confidence ->
  article_outcome e high_severity art label confidence
    (if negb (PyStr.truthy (PyStr.strip (art_title art +++ " " +++ art_desc art)))
     then []
     else if negb (Shared.is_negative (model_choice e) label) then []
     else if (high_severity
              && negb (severity_eqb (Shared.severity_of_score confidence) High))%bool
     then []
     else [row]).
Proof.
  intros Hlabel Hscore Hsev. unfold article_outcome.
  set (txt := art_title art +++ " " +++ art_desc art).
  pose proof (is_negative_spec (model_choice e) label) as Hn.
  fold (counts_negative (model_choice e) label) in Hn.
  pose proof (severity_of_score_spec confidence) as (S1 & S2 & S3).
  pose proof (severity_of_score_cases confidence) as S4.
  rewrite <- Hsev in S1, S2, S3, S4.
  assert (Hrow : counts_negative (model_choice e) label ->
                 Forall (fun r => counts_negative (model_choice e) label
                                  /\ model_label r = Some label
                                  /\ score r = confidence
                                  /\ (severity_of r = High <-> Float64.lit 0.85 <= confidence)
                                  /\ (severity_of r = Medium
                                      <-> Float64.lit 0.6 <= confidence
                                          /\ confidence < Float64.lit 0.85)
                                  /\ (severity_of r = Low <-> confidence < Float64.lit 0.6))
                   [row])
    by (intros Hc; constructor;
        [exact (conj Hc (conj Hlabel (conj Hscore (conj S1 (conj S2 S3)))))
        |constructor]).
  destruct (PyStr.truthy (PyStr.strip txt)) eqn:Et; cbn [negb].
  2:{ apply strip_truthy in Et. split; [split; auto|]. split; [cbn; lia|constructor]. }
  assert (Hne : PyStr.strip txt <> [])
    by (intros H; rewrite H in Et; discriminate).
  destruct (Shared.is_negative (model_choice e) label) eqn:En; cbn [negb].
  2:{ split; [split; [intros _|reflexivity]|split; [cbn; lia|constructor]].
      right. left. intros Hc. apply Hn in Hc. discriminate. }
  assert (Hc : counts_negative (model_choice e) label) by now apply Hn.
  rewrite <- Hsev.
  destruct high_severity; cbn [andb].
  - destruct (severity_of row) eqn:Es; cbn [severity_eqb negb].
    + split; [split|split; [cbn; lia|now apply Hrow]].
      * discriminate.
      * intros [H|[H|[_ H]]]; [contradiction|contradiction|].
        assert (Float64.lit 0.85 <= confidence) by now apply S1. lra.
    + split; [split; [intros _|reflexivity]|split; [cbn; lia|constructor]].
      right. right. split; [reflexivity|]. now apply S2.
    + split; [split; [intros _|reflexivity]|split; [cbn; lia|constructor]].
      right. right. split; [reflexivity|].
      assert (confidence < Float64.lit 0.6) by now apply S3.
      rewrite lit_0_85. rewrite lit_0_6 in *. lra.
    + congruence.
  - split; [split|split; [cbn; lia|now apply Hrow]].
    + discriminate.
    + intros [H|[H|[H _]]]; [contradiction|contradiction|discriminate].
Qed.

Lemma classify_article_outcome (e : env) (name : text)
  (keywords : list text) (high_severity : bool) (art : article)
  (label : text) (confidence : Q) :
  answers e art label confidence ->
  article_outcome e high_severity art label confidence
    (Shared.classify_article e name keywords high_severity art).
Proof.
  intros H. unfold Shared.classify_article. cbv zeta.
  rewrite (run_model_answers H). cbv beta iota.
  now apply outcome_of_row.
Qed.

Lemma V9_classify_article_outcome (e : env) (high_severity : bool) (art : article)
  (label : text) (confidence : Q) :
  answers e art label confidence ->
  article_outcome e high_severity art label confidence
    (V9.classify_article e high_severity art).
Proof.
  intros H. unfold V9.classify_article. cbv zeta.
  rewrite (run_model_answers H). cbv beta iota.
  now apply outcome_of_row.
Qed.

Lemma classify_article_raises (e : env) (name : text)
  (keywords : list text) (high_severity : bool) (art : article) :
  sentiment_model e (PyStr.slice_to 1024 (art_title art +++ " " +++ art_desc art)) = None ->
  Shared.classify_article e name keywords high_severity art = []
  /\ V9.classify_article e high_severity art = [].
Proof.
  intros H. destruct (run_model_raises e _ H) as [Hr Hn].
  specialize (Hn (model_choice e)). rewrite Hr in Hn. cbn [fst] in Hn.
  unfold Shared.classify_article, V9.classify_article. cbv zeta.
  rewrite Hr. cbv beta iota. rewrite Hn. cbn [negb].
  now destruct (negb (PyStr.truthy (PyStr.strip _))).
Qed.

(** C3, as the claim states it, fails: no configuration of one negative
    code for each classifier gives the decision of the code.  For the
    twitter-roberta model the labels [LABEL_0] and [label_0] both count as
    negative, neither contains [neg], and a label cannot equal both: the
    code compares the label in upper case with a literal. *)
Lemma C3_counterexample :
  ~ (exists negative_code : text -> option text,
       forall model_choice label : text,
         Shared.is_negative model_choice label
         = claimed_negative (negative_code model_choice) label).
Proof.
  intros [negative_code H].
  pose proof (H roberta (text_of_string "LABEL_0")) as H1.
  pose proof (H roberta (text_of_string "label_0")) as H2.
  assert (E1 : Shared.is_negative roberta "LABEL_0" = true) by (vm_compute; reflexivity).
  assert (E2 : Shared.is_negative roberta "label_0" = true) by (vm_compute; reflexivity).
  rewrite E1 in H1. rewrite E2 in H2.
  unfold claimed_negative in H1, H2.
  destruct (negative_code roberta) as [c|].
  - assert (F1 : PyStr.contains "neg" (PyStr.lower "LABEL_0") = false)
      by (vm_compute; reflexivity).
    assert (F2 : PyStr.contains "neg" (PyStr.lower "label_0") = false)
      by (vm_compute; reflexivity).
    rewrite F1 in H1. rewrite F2 in H2. cbn [orb] in H1, H2.
    symmetry in H1, H2. apply text_eqb_eq in H1, H2.
    rewrite <- H1 in H2. vm_compute in H2. discriminate H2.
  - vm_compute in H1. discriminate H1.
Qed.

(** C3, amended. An article that the classifier answers with (label,
    confidence) counts as negative exactly when the lowercased label
    contains [neg], or the name of the selected model contains
    [twitter-roberta] and the label, put in upper case, is [LABEL_0]; the
    rule is written in [search_all], nothing of it is supplied as
    configuration.  A negative article is bucketed High from confidence
    0.85, Medium from 0.6, Low below, and its result carries the label and
    the confidence of the answer; an article that is not negative produces
    no result.  No result is produced either for a blank text, for a
    negative article below 0.85 when the high-severity switch is on, and
    when the classifier raises.  This holds for the loop body shared by [V1]
    and [V8] and for the one of [V9], which the loops apply to every article
    fetched. *)
Theorem C3_label_confidence_classification :
  (forall model_choice label : text,
      Shared.is_negative model_choice label = true
      <-> PyStr.contains "neg" (PyStr.lower label) = true
          \/ (PyStr.contains "twitter-roberta" model_choice = true
              /\ PyStr.upper label = text_of_string "LABEL_0"))
  /\ (forall c : Q,
        (Shared.severity_of_score c = High <-> Float64.lit 0.85 <= c)
        /\ (Shared.severity_of_score c = Medium
            <-> Float64.lit 0.6 <= c /\ c < Float64.lit 0.85)
        /\ (Shared.severity_of_score c = Low <-> c < Float64.lit 0.6))
  /\ (forall e name keywords high_severity art label confidence,
        answers e art label confidence ->
        article_outcome e high_severity art label confidence
          (Shared.classify_article e name keywords high_severity art))
  /\ (forall e high_severity art label confidence,
        answers e art label confidence ->
        article_outcome e high_severity art label confidence
          (V9.classify_article e high_severity art))
  /\ (forall e name keywords high_severity art,
        sentiment_model e
          (PyStr.slice_to 1024 (art_title art +++ " " +++ art_desc art)) = None ->
        Shared.classify_article e name keywords high_severity art = []
        /\ V9.classify_article e high_severity art = [])
  /\ (forall e name keywords from_date to_date high_severity,
        V1.search_all e name keywords from_date to_date high_severity
        = flat_map
            (Shared.classify_article e name (V1.all_keywords e keywords)
               high_severity)
            (V1.articles e name keywords from_date to_date))
  /\ (forall e name keywords from_date to_date high_severity,
        V8.news_stage e name keywords from_date to_date high_severity
        = flat_map
            (Shared.classify_article e name (V8.all_keywords e keywords)
               high_severity)
            (V8.articles e name keywords from_date to_date))
  /\ (forall e name from_date to_date high_severity,
        V9.news_stage e name from_date to_date high_severity
        = flat_map (V9.classify_article e high_severity)
            (V9.articles e name from_date to_date)).
Proof.
  split; [exact is_negative_spec|].
  split; [exact severity_of_score_spec|].
  split; [exact classify_article_outcome|].
  split; [exact V9_classify_article_outcome|].
  split; [exact classify_article_raises|].
  repeat split.
Qed.

Lemma C3_witness :
  answers example_env fine_article "negative" (Float64.lit 0.9)
  /\ article_outcome example_env true fine_article "negative" (Float64.lit 0.9)
       (Shared.classify_article example_env "Company X" (texts ["fine"]) true
          fine_article).
Proof.
  assert (H : answers example_env fine_article "negative" (Float64.lit 0.9)).
  { exists {| res_label := Some (text_of_string "negative");
              res_score := Some (Float64.lit 0.9) |}.
    split; [vm_compute; reflexivity|split; reflexivity]. }
  split; [exact H|].
  exact (proj1 (proj2 (proj2 C3_label_confidence_classification))
           example_env (text_of_string "Company X") (texts ["fine"]) true
           fine_article (text_of_string "negative") (Float64.lit 0.9) H).
Defined.

(** ** Similarity against an empty name *)

Lemma scan_rows_no_positions (a : text) (blo bhi : nat) (rows : list nat)
  (j2len : Difflib.dict) (best : Difflib.Match) :
  Difflib.scan_rows a [] blo bhi rows j2len best = best.
Proof.
  revert j2len. induction rows as [|i rows IH]; intros j2len; simpl; [reflexivity|].
  apply IH.
Qed.

Lemma extend_right_empty (a : text) (test : ascii -> bool) (ahi turns : nat)
  (m : Difflib.Match) :
  Difflib.extend_right a [] test ahi 0 turns m = m.
Proof.
  destruct turns as [|turns]; simpl; [reflexivity|].
  now rewrite andb_false_r.
Qed.

Lemma find_longest_match_empty (a : text) (ahi : nat) :
  Difflib.find_longest_match a [] 0 ahi 0 0
  = {| Difflib.m_a := 0; Difflib.m_b := 0; Difflib.m_size := 0 |}.
Proof.
  unfold Difflib.find_longest_match. cbv zeta.
  rewrite scan_rows_no_positions. cbn [Difflib.m_a Difflib.extend_left].
  rewrite !extend_right_empty. reflexivity.
Qed.

Lemma matches_empty_r (a : text) : Difflib.matches a [] = 0%nat.
Proof.
  unfold Difflib.matches, Difflib.get_matching_blocks.
  replace (2 * length a + 1)%nat with (S (2 * length a)) by lia.
  cbn [Difflib.blocks_loop length]. rewrite find_longest_match_empty.
  cbn [Difflib.m_size Nat.ltb Nat.leb].
  now destruct (2 * length a)%nat.
Qed.

(** Against the empty text every non-empty text scores 0, and the empty
    text scores 1. *)
Lemma ratio_empty_r (a : text) :
  Difflib.ratio a [] = if PyStr.truthy a then 0 else 1.
Proof.
  unfold Difflib.ratio. rewrite matches_empty_r.
  destruct a as [|c a]; [reflexivity|].
  cbn [PyStr.truthy length Nat.add]. reflexivity.
Qed.

Lemma in_kept (threshold : Q) (score : text -> Q) (candidates : list text) (s : text) :
  In s (map sanctioned_name (kept threshold score candidates))
  <-> In s candidates /\ Float64.geb (score s) threshold = true.
Proof.
  unfold kept. rewrite map_map. cbn [sanctioned_name]. rewrite map_id.
  apply filter_In.
Qed.

Lemma in_match_loop (threshold : Q) (prepare : text -> text) (query : text)
  (candidates : list text) (s : text) :
  In s (map sanctioned_name (match_loop threshold prepare query candidates))
  <-> In s candidates
      /\ Float64.geb (Difflib.ratio (prepare query) (prepare s)) threshold = true.
Proof.
  rewrite <- (in_kept threshold (fun s => Difflib.ratio (prepare query) (prepare s))).
  unfold match_loop. cbv zeta.
  rewrite (flat_map_kept threshold (fun s => Difflib.ratio (prepare query) (prepare s))).
  split; apply Permutation_in, Permutation_map.
  - apply sorted_perm.
  - apply Permutation_sym, sorted_perm.
Qed.

Lemma empty_candidate_matched (threshold : Q) (prepare : text -> text)
  (query s : text) (candidates : list text) :
  Float64.geb 0 threshold = false ->
  Float64.geb 1 threshold = true ->
  prepare s = [] -> In s candidates ->
  (In s (map sanctioned_name (match_loop threshold prepare query candidates))
   <-> prepare query = []).
Proof.
  intros H0 H1 Hs Hin. rewrite in_match_loop, Hs, ratio_empty_r.
  destruct (prepare query) as [|c q]; cbn [PyStr.truthy].
  - split; auto.
  - rewrite H0. split; [intros [_ H]; discriminate|intros H; discriminate].
Qed.

Lemma V9_matches_loop (name : text) (names : list text) :
  V9.matches name names = match_loop (Float64.lit 0.6) V9.normalize_name name names.
Proof. unfold V9.matches. apply matches_guard. Qed.

Lemma V8_matches_loop (name : text) (names : list text) :
  V8.matches name names = match_loop (Float64.lit 0.6) V8.normalize_name name names.
Proof. unfold V8.matches. apply matches_guard. Qed.

Lemma threshold_0_6_above_0 : Float64.geb 0 (Float64.lit 0.6) = false.
Proof. vm_compute. reflexivity. Qed.

Lemma threshold_0_6_below_1 : Float64.geb 1 (Float64.lit 0.6) = true.
Proof. vm_compute. reflexivity. Qed.

(** C4, as the claim states it, fails: the candidate [Inc] normalizes to the
    empty text and is matched, with full score, by the query [Ltd], which
    normalizes to the empty text as well. *)
Lemma C4_counterexample :
  ~ (forall (name s : text) (names : list text),
        V9.normalize_name s = [] ->
        ~ In s (map sanctioned_name (V9.matches name names))).
Proof.
  intros H.
  apply (H (text_of_string "Ltd") (text_of_string "Inc") (texts ["Inc"])).
  - vm_compute. reflexivity.
  - vm_compute. left. reflexivity.
Qed.

(** C4, amended. There is no guard on empty normalized names.  A candidate
    whose normalized form is empty is matched exactly when the normalized
    query is empty too (the score is then 1.0); against every query with a
    non-empty normalized form it scores 0 and yields no match. *)
Theorem C4_empty_normalized_candidate :
  (forall (name s : text) (names : list text),
      V9.normalize_name s = [] -> In s names ->
      (In s (map sanctioned_name (V9.matches name names))
       <-> V9.normalize_name name = []))
  /\ (forall (name s : text) (names : list text),
        V8.normalize_name s = [] -> In s names ->
        (In s (map sanctioned_name (V8.matches name names))
         <-> V8.normalize_name name = [])).
Proof.
  split; intros name s names Hs Hin.
  - rewrite V9_matches_loop.
    apply empty_candidate_matched; [exact threshold_0_6_above_0|exact threshold_0_6_below_1|exact Hs|exact Hin].
  - rewrite V8_matches_loop.
    apply empty_candidate_matched; [exact threshold_0_6_above_0|exact threshold_0_6_below_1|exact Hs|exact Hin].
Qed.

Lemma C4_witness :
  ~ In (text_of_string "Inc")
      (map sanctioned_name
         (V9.matches "Acme Ltd" (texts ["ACME LTD"; "Inc"; "Beta Corp"]))).
Proof.
  assert (Hs : V9.normalize_name "Inc" = []) by (vm_compute; reflexivity).
  assert (Hin : In (text_of_string "Inc") (texts ["ACME LTD"; "Inc"; "Beta Corp"]))
    by (right; left; reflexivity).
  assert (Hq : V9.normalize_name "Acme Ltd" <> []) by (vm_compute; discriminate).
  intros H. apply Hq.
  exact (proj1 (proj1 C4_empty_normalized_candidate _ _ _ Hs Hin) H).
Defined.

(** ** Failure of the classifier on one article *)

Lemma error_label_not_negative (model_choice : text) :
  Shared.is_negative model_choice "ERROR" = false.
Proof.
  unfold Shared.is_negative. cbv zeta.
  assert (E1 : PyStr.contains "neg" (PyStr.lower "ERROR") = false)
    by (vm_compute; reflexivity).
  assert (E2 : PyStr.contains "negative" (PyStr.lower "ERROR") = false)
    by (vm_compute; reflexivity).
  assert (E3 : PyStr.startswith "LABEL_" (PyStr.upper "ERROR") = false)
    by (vm_compute; reflexivity).
  rewrite E1, E2, E3, andb_false_r. reflexivity.
Qed.

Lemma run_model_raised (e : env) (txt : text) :
  sentiment_model e (PyStr.slice_to 1024 txt) = None ->
  Shared.run_model e txt = (text_of_string "ERROR", 0).
Proof. unfold Shared.run_model. now intros ->. Qed.

Lemma classify_article_raised (e : env) (name : text) (keywords : list text)
  (hs : bool) (art : article) :
  sentiment_model e (PyStr.slice_to 1024 (art_title art +++ " " +++ art_desc art)) = None ->
  Shared.classify_article e name keywords hs art = [].
Proof.
  intros H. unfold Shared.classify_article. cbv zeta.
  rewrite (run_model_raised e _ H), error_label_not_negative.
  now destruct (negb (PyStr.truthy _)).
Qed.

Lemma V9_classify_raised (e : env) (hs : bool) (art : article) :
  sentiment_model e (PyStr.slice_to 1024 (art_title art +++ " " +++ art_desc art)) = None ->
  V9.classify_article e hs art = [].
Proof.
  intros H. unfold V9.classify_article. cbv zeta.
  rewrite (run_model_raised e _ H), error_label_not_negative.
  now destruct (negb (PyStr.truthy _)).
Qed.

Lemma flat_map_skip (A B : Type) (f : A -> list B) (pre post : list A) (x : A) :
  f x = [] -> flat_map f (pre ++ x :: post) = flat_map f pre ++ flat_map f post.
Proof. intros H. rewrite flat_map_app. simpl. now rewrite H. Qed.

(** C5. When the classifier raises on an article, the article gets the
    label [ERROR] with score 0, which is not negative, and yields no
    result; the loop goes on, so the results of the batch are those of the
    articles before it followed by those of the articles after it. *)
Theorem C5_classifier_failure_isolated :
  forall (e : env) (art : article),
    sentiment_model e
      (PyStr.slice_to 1024 (art_title art +++ " " +++ art_desc art)) = None ->
    Shared.run_model e (art_title art +++ " " +++ art_desc art)
    = (text_of_string "ERROR", 0)
    /\ Shared.is_negative (model_choice e) "ERROR" = false
    /\ (forall name keywords from_date to_date hs pre post,
          V1.articles e name keywords from_date to_date = pre ++ art :: post ->
          V1.search_all e name keywords from_date to_date hs
          = flat_map (Shared.classify_article e name (V1.all_keywords e keywords) hs) pre
            ++ flat_map (Shared.classify_article e name (V1.all_keywords e keywords) hs) post)
    /\ (forall name keywords from_date to_date hs pre post,
          V8.articles e name keywords from_date to_date = pre ++ art :: post ->
          V8.news_stage e name keywords from_date to_date hs
          = flat_map (Shared.classify_article e name (V8.all_keywords e keywords) hs) pre
            ++ flat_map (Shared.classify_article e name (V8.all_keywords e keywords) hs) post)
    /\ (forall name from_date to_date hs pre post,
          V9.articles e name from_date to_date = pre ++ art :: post ->
          V9.news_stage e name from_date to_date hs
          = flat_map (V9.classify_article e hs) pre
            ++ flat_map (V9.classify_article e hs) post).
Proof.
  intros e art H.
  split; [now apply run_model_raised|].
  split; [apply error_label_not_negative|].
  split; [|split].
  - intros name keywords from_date to_date hs pre post Harts.
    unfold V1.search_all. rewrite Harts.
    apply flat_map_skip. now apply classify_article_raised.
  - intros name keywords from_date to_date hs pre post Harts.
    unfold V8.news_stage. rewrite Harts.
    apply flat_map_skip. now apply classify_article_raised.
  - intros name from_date to_date hs pre post Harts.
    unfold V9.news_stage. rewrite Harts.
    apply flat_map_skip. now apply V9_classify_raised.
Qed.

(** In the example environment the classifier raises on the first of the
    two articles; the second one is still classified and reported. *)
Lemma C5_witness :
  V9.news_stage example_env "Company X" "2018-01-01" "2025-01-01" false
  = flat_map (V9.classify_article example_env false) []
    ++ flat_map (V9.classify_article example_env false) [fine_article].
Proof.
  assert (H : sentiment_model example_env
                (PyStr.slice_to 1024
                   (art_title probe_article +++ " " +++ art_desc probe_article))
              = None) by (vm_compute; reflexivity).
  exact (proj2 (proj2 (proj2 (proj2
           (C5_classifier_failure_isolated example_env probe_article H))))
           (text_of_string "Company X") (text_of_string "2018-01-01")
           (text_of_string "2025-01-01") false [] [fine_article] eq_refl).
Defined.

Example C5_example_results :
  map title (V9.news_stage example_env "Company X" "2018-01-01" "2025-01-01" false)
  = [text_of_string "Regulator fines Company X"].
Proof. vm_compute. reflexivity. Qed.

(** ** A blank query name *)

(** C9, as the claim states it, fails in [V9]: for the empty name the whole
    search is empty, although the news stage run on the fetched articles
    would report one. *)
Lemma C9_counterexample :
  ~ (forall (e : env) (name : text) (extra_keywords : list text)
            (from_date to_date : text) (hs : bool),
        PyStr.strip name = [] ->
        V9.search_all e name extra_keywords from_date to_date hs
        = V9.news_stage e name from_date to_date hs).
Proof.
  intros H.
  specialize (H example_env [] [] [] [] false eq_refl).
  vm_compute in H. discriminate H.
Qed.

(** C9, amended. [V9] answers every empty or whitespace-only name with the
    empty result list: neither stage runs.  [V8] skips the sanctions stage
    for the empty name and still classifies the news fetched for a query
    made of the keywords alone; [V1] and [V5], whose [search_all] holds no
    sanctions stage, do not open the sanctions section for the empty
    name. *)
Theorem C9_blank_query_name :
  (forall (e : env) (name : text) (extra_keywords : list text)
          (from_date to_date : text) (hs : bool),
      PyStr.strip name = [] ->
      V9.search_all e name extra_keywords from_date to_date hs = [])
  /\ (forall (e : env) (keywords : list text) (from_date to_date : text) (hs : bool),
        V8.sanctions_stage e [] = []
        /\ V8.search_all e [] keywords from_date to_date hs
           = V8.news_stage e [] keywords from_date to_date hs
        /\ V8.query e [] keywords = PyStr.join " " (V8.all_keywords e keywords))
  /\ (forall e : env,
        V1.sanctions_section e [] = None /\ V5.sanctions_section e [] = None).
Proof.
  split; [|split].
  - intros e name extra_keywords from_date to_date hs H.
    unfold V9.search_all. rewrite H. cbn [PyStr.truthy negb].
    now rewrite orb_true_r.
  - intros e keywords from_date to_date hs. repeat split.
  - intros e. split; reflexivity.
Qed.

Lemma C9_witness :
  V9.search_all example_env "   " [] "2018-01-01" "2025-01-01" false = [].
Proof.
  assert (H : PyStr.strip "   " = []) by (vm_compute; reflexivity).
  exact (proj1 C9_blank_query_name example_env (text_of_string "   ") []
           (text_of_string "2018-01-01") (text_of_string "2025-01-01") false H).
Defined.

(** A whitespace-only name is not the empty name for [V8]: its sanctions
    stage runs, with the empty normalized query. *)
Example V8_whitespace_name_is_matched :
  map title (V8.sanctions_stage example_env " ")
  = [text_of_string "Sanctions match: Inc"].
Proof. vm_compute. reflexivity. Qed.

(** ** Results derived from the sanctions lists *)

Lemma flat_map_filter (A B : Type) (p : B -> bool) (f g : A -> list B) (l : list A) :
  (forall x, f x = filter p (g x)) ->
  flat_map f l = filter p (flat_map g l).
Proof.
  intros H. induction l as [|x l IH]; [reflexivity|].
  cbn [flat_map]. now rewrite filter_app, H, IH.
Qed.

Lemma classify_article_high (e : env) (name : text) (keywords : list text)
  (art : article) :
  Shared.classify_article e name keywords true art
  = filter is_high (Shared.classify_article e name keywords false art).
Proof.
  unfold Shared.classify_article. cbv zeta.
  destruct (negb (PyStr.truthy (PyStr.strip _))); [reflexivity|].
  destruct (Shared.run_model e _) as [label score].
  destruct (negb (Shared.is_negative (model_choice e) label)); [reflexivity|].
  cbn [andb filter is_high severity_of].
  now destruct (Shared.severity_of_score score).
Qed.

Lemma V5_classify_article_high (e : env) (name : text) (keywords : list text)
  (art : article) :
  V5.classify_article e name keywords true art
  = filter is_high (V5.classify_article e name keywords false art).
Proof.
  unfold V5.classify_article. cbv zeta.
  destruct (V5.categorize_severity _) eqn:E;
    cbn [severity_eqb andb negb filter is_high severity_of]; rewrite ?E; reflexivity.
Qed.

Lemma V9_classify_article_high (e : env) (art : article) :
  V9.classify_article e true art = filter is_high (V9.classify_article e false art).
Proof.
  unfold V9.classify_article. cbv zeta.
  destruct (negb (PyStr.truthy (PyStr.strip _))); [reflexivity|].
  destruct (Shared.run_model e _) as [label score].
  destruct (negb (Shared.is_negative (model_choice e) label)); [reflexivity|].
  cbn [andb filter is_high severity_of].
  now destruct (Shared.severity_of_score score).
Qed.

Lemma sanctions_results_high (ms : list sanctions_match) :
  filter is_high (map Shared.sanctions_result ms) = map Shared.sanctions_result ms.
Proof.
  induction ms as [|m ms IH]; [reflexivity|].
  cbn [map filter]. now rewrite IH.
Qed.

(** The nearest integer, and the even one of two that are equally near. *)
Lemma round_half_even_near (num den : Z) :
  (0 < den)%Z ->
  ((2 * Float64.round_half_even num den - 1) * den <= 2 * num
   <= (2 * Float64.round_half_even num den + 1) * den)%Z
  /\ ((2 * num = (2 * Float64.round_half_even num den - 1) * den
       \/ 2 * num = (2 * Float64.round_half_even num den + 1) * den)%Z ->
      Z.even (Float64.round_half_even num den) = true).
Proof.
  intros Hd. unfold Float64.round_half_even. cbv zeta.
  pose proof (Z.div_mod num den ltac:(lia)) as E.
  pose proof (Z.mod_pos_bound num den Hd) as B.
  destruct (Z.compare_spec (2 * (num mod den)) den) as [H|H|H].
  - destruct (Z.even (num / den)) eqn:Ev.
    + split; [nia|]. intros _. exact Ev.
    + split; [nia|]. intros _.
      replace (num / den + 1)%Z with (Z.succ (num / den)) by lia.
      rewrite Z.even_succ, <- Z.negb_even, Ev. reflexivity.
  - split; [nia|]. intros [T|T]; exfalso; nia.
  - split; [nia|]. intros [T|T]; exfalso; nia.
Qed.

Lemma round2_two_decimals (x : Q) : two_decimals x (Float64.round2 x).
Proof.
  exists (Float64.hundredths x). split; [reflexivity|].
  destruct (@round_half_even_near (Qnum x * 100) (Zpos (Qden x)) eq_refl) as [[H1 H2] H3].
  fold (Float64.hundredths x) in H1, H2, H3.
  split; [split|].
  - unfold Qle. cbn [Qnum Qden]. lia.
  - unfold Qle. cbn [Qnum Qden]. lia.
  - intros [T|T]; apply H3; unfold Qeq in T; cbn [Qnum Qden] in T; lia.
Qed.

Lemma in_match_loop_row (threshold : Q) (prepare : text -> text) (name : text)
  (names : list text) (r : result) :
  In r (map Shared.sanctions_result (match_loop threshold prepare name names)) ->
  exists s : text,
    In s names
    /\ threshold <= Difflib.ratio (prepare name) (prepare s)
    /\ sanctions_row prepare name s r.
Proof.
  intros Hr. apply in_map_iff in Hr. destruct Hr as [m [<- Hm]].
  unfold match_loop in Hm. cbv zeta in Hm.
  rewrite (flat_map_kept threshold
             (fun s => Difflib.ratio (prepare name) (prepare s))) in Hm.
  apply (Permutation_in _ (sorted_perm _ _ _)) in Hm.
  unfold kept in Hm. apply in_map_iff in Hm. destruct Hm as [s [<- Hs]].
  apply filter_In in Hs. destruct Hs as [Hin Hge].
  exists s. split; [exact Hin|]. split.
  - unfold Float64.geb in Hge. now apply Qle_bool_iff in Hge.
  - unfold sanctions_row, Shared.sanctions_result.
    cbn [title source severity_of model_label date url score sanctioned_name similarity].
    repeat split. apply round2_two_decimals.
Qed.

Lemma V9_sanctions_names_same (e e' : env) :
  same_lists e e' -> V9.sanctions_names e = V9.sanctions_names e'.
Proof.
  intros (H1 & H2 & H3 & H4). unfold V9.sanctions_names. cbv zeta.
  now rewrite H1, H2, H3, !H4.
Qed.

Lemma V8_sanctions_names_same (e e' : env) :
  same_lists e e' -> V8.sanctions_names e = V8.sanctions_names e'.
Proof.
  intros (H1 & H2 & H3 & H4). unfold V8.sanctions_names. cbv zeta.
  now rewrite H1, H2, H3, !H4.
Qed.

Lemma V9_search_all_stages (e : env) (name : text) (extra_keywords : list text)
  (from_date to_date : text) (hs : bool) :
  PyStr.strip name <> [] ->
  V9.search_all e name extra_keywords from_date to_date hs
  = V9.sanctions_stage e name ++ V9.news_stage e name from_date to_date hs.
Proof.
  intros Hn. unfold V9.search_all.
  assert (H1 : PyStr.truthy (PyStr.strip name) = true).
  { destruct (PyStr.strip name); [congruence|reflexivity]. }
  assert (H2 : PyStr.truthy name = true).
  { destruct name; [|reflexivity]. exfalso. apply Hn. reflexivity. }
  now rewrite H1, H2.
Qed.

(** C10. In [V8] and [V9] every sanctions result of the merged list stands
    for a candidate of the lists whose similarity to the name is at least
    0.6; it has the title of that candidate, severity High, model label
    [SANCTIONS_MATCH], empty date and empty url, and its score is that
    similarity rounded to two decimals: the nearest whole number of
    hundredths, the even one of two equally near, read as a double.  The
    sanctions results do not pass through the classifier: two runs that read
    the same lists give the same sanctions results whatever their
    classifiers and their news sources answer.  The high-severity switch
    leaves them alone: with the switch on, the merged list is every
    sanctions result followed by the news results of severity High, so a
    sanctions result is in the list whatever the switch says.  [V9] returns
    nothing at all for a blank name. *)
Theorem C10_sanctions_results :
  (forall (e : env) (name : text) (r : result),
      In r (V9.sanctions_stage e name) ->
      exists s : text,
        In s (V9.sanctions_names e)
        /\ Float64.lit 0.6
           <= Difflib.ratio (V9.normalize_name name) (V9.normalize_name s)
        /\ sanctions_row V9.normalize_name name s r)
  /\ (forall (e : env) (name : text) (r : result),
        In r (V8.sanctions_stage e name) ->
        exists s : text,
          In s (V8.sanctions_names e)
          /\ Float64.lit 0.6
             <= Difflib.ratio (V8.normalize_name name) (V8.normalize_name s)
          /\ sanctions_row V8.normalize_name name s r)
  /\ (forall (e e' : env) (name : text),
        same_lists e e' ->
        V9.sanctions_stage e name = V9.sanctions_stage e' name
        /\ V8.sanctions_stage e name = V8.sanctions_stage e' name)
  /\ (forall (e : env) (name : text) (extra_keywords : list text)
            (from_date to_date : text),
        PyStr.strip name <> [] ->
        V9.search_all e name extra_keywords from_date to_date true
        = V9.sanctions_stage e name
          ++ filter is_high (V9.news_stage e name from_date to_date false)
        /\ forall (hs : bool) (r : result),
             In r (V9.sanctions_stage e name) ->
             In r (V9.search_all e name extra_keywords from_date to_date hs)
             /\ is_high r = true)
  /\ (forall (e : env) (name : text) (keywords : list text)
            (from_date to_date : text),
        V8.search_all e name keywords from_date to_date true
        = V8.sanctions_stage e name
          ++ filter is_high (V8.news_stage e name keywords from_date to_date false)
        /\ forall (hs : bool) (r : result),
             In r (V8.sanctions_stage e name) ->
             In r (V8.search_all e name keywords from_date to_date hs)
             /\ is_high r = true)
  /\ (forall (e : env) (name : text) (extra_keywords : list text)
            (from_date to_date : text) (hs : bool),
        PyStr.strip name = [] ->
        V9.search_all e name extra_keywords from_date to_date hs = []).
Proof.
  split; [|split; [|split; [|split; [|split]]]].
  - intros e name r Hr. unfold V9.sanctions_stage in Hr.
    rewrite V9_matches_loop in Hr. exact (in_match_loop_row _ _ _ _ _ Hr).
  - intros e name r Hr. unfold V8.sanctions_stage in Hr.
    destruct (PyStr.truthy name); [|contradiction].
    rewrite V8_matches_loop in Hr. exact (in_match_loop_row _ _ _ _ _ Hr).
  - intros e e' name H. split.
    + unfold V9.sanctions_stage. now rewrite (V9_sanctions_names_same H).
    + unfold V8.sanctions_stage. now rewrite (V8_sanctions_names_same H).
  - intros e name extra_keywords from_date to_date Hn. split.
    + rewrite (V9_search_all_stages e name extra_keywords from_date to_date true Hn).
      f_equal. unfold V9.news_stage. apply flat_map_filter. intros art.
      apply V9_classify_article_high.
    + intros hs r Hr. split.
      * rewrite (V9_search_all_stages e name extra_keywords from_date to_date hs Hn).
        apply in_or_app. now left.
      * unfold V9.sanctions_stage in Hr. apply in_map_iff in Hr.
        destruct Hr as [m [<- _]]. reflexivity.
  - intros e name keywords from_date to_date. split.
    + unfold V8.search_all. f_equal. unfold V8.news_stage.
      apply flat_map_filter. intros art. apply classify_article_high.
    + intros hs r Hr. split.
      * unfold V8.search_all. apply in_or_app. now left.
      * unfold V8.sanctions_stage in Hr.
        destruct (PyStr.truthy name); [|contradiction].
        apply in_map_iff in Hr. destruct Hr as [m [<- _]]. reflexivity.
  - intros e name extra_keywords from_date to_date hs Hn. unfold V9.search_all.
    rewrite Hn. cbn [PyStr.truthy negb]. now rewrite orb_true_r.
Qed.

Lemma C10_witness :
  In (Shared.sanctions_result {| sanctioned_name := "ACME LTD"; similarity := 1 |})
    (V9.sanctions_stage example_env "Acme Ltd")
  /\ exists s : text,
       In s (V9.sanctions_names example_env)
       /\ Float64.lit 0.6
          <= Difflib.ratio (V9.normalize_name "Acme Ltd") (V9.normalize_name s)
       /\ sanctions_row V9.normalize_name "Acme Ltd" s
            (Shared.sanctions_result {| sanctioned_name := "ACME LTD"; similarity := 1 |}).
Proof.
  assert (H : In (Shared.sanctions_result
                    {| sanctioned_name := "ACME LTD"; similarity := 1 |})
                (V9.sanctions_stage example_env "Acme Ltd"))
    by (vm_compute; left; reflexivity).
  split; [exact H|].
  exact (proj1 C10_sanctions_results example_env "Acme Ltd" _ H).
Defined.

(** With the high-severity filter on, the sanctions match of the example is
    still reported, in front of the one High news result. *)
Example C10_example_high_severity_only :
  map (fun r => (title r, severity_of r, score r))
    (V9.search_all example_env "Acme Ltd" [] "2018-01-01" "2025-01-01" true)
  = [ (text_of_string "Sanctions match: ACME LTD", High, 1);
      (text_of_string "Regulator fines Company X", High, Float64.lit 0.9) ].
Proof. vm_compute. reflexivity. Qed.

(** ** The highlighter *)

Lemma longest_first_ordered (e : env) (keywords : list text) :
  Permutation (longest_first e keywords) (set_order e keywords)
  /\ StronglySorted (fun a b : text => (length b <= length a)%nat)
       (longest_first e keywords).
Proof.
  unfold longest_first. split; [apply sorted_perm|].
  eapply StronglySorted_ind with
    (P := fun l => StronglySorted (fun a b : text => (length b <= length a)%nat) l);
    [constructor| |apply sorted_sorted].
  - intros a l _ IH Ha. constructor; [exact IH|].
    eapply Forall_impl; [|exact Ha].
    intros b Hb. unfold in_order in Hb. apply Z.ltb_ge in Hb. lia.
  - intros a b H. apply Z.ltb_lt in H. apply Z.ltb_ge. lia.
  - intros a b c H1 H2. apply Z.ltb_ge in H1, H2. apply Z.ltb_ge. lia.
Qed.

Lemma longest_first_two (e : env) (keywords : list text) (short long : text) :
  Permutation (set_order e keywords) [short; long] ->
  (length short < length long)%nat ->
  longest_first e keywords = [long; short].
Proof.
  intros H Hlen. apply Permutation_sym, Permutation_length_2_inv in H.
  unfold longest_first, Py.sorted.
  destruct H as [-> | ->]; cbn [fold_right Py.insert].
  - assert (E : (- Z.of_nat (length long) <? - Z.of_nat (length short))%Z = true)
      by (apply Z.ltb_lt; lia).
    now rewrite E.
  - assert (E : (- Z.of_nat (length short) <? - Z.of_nat (length long))%Z = false)
      by (apply Z.ltb_ge; lia).
    now rewrite E.
Qed.

Lemma laundering_example (e : env) :
  Permutation (set_order e laundering_keywords) laundering_keywords ->
  V5.color_highlight_terms e "money laundering scheme" "" laundering_keywords
  = nested_marking.
Proof.
  intros H. apply Permutation_sym, Permutation_length_2_inv in H.
  unfold V5.color_highlight_terms, longest_first.
  destruct H as [-> | ->]; vm_compute; reflexivity.
Qed.

Lemma laund_example (e : env) :
  Permutation (set_order e laund_keywords) laund_keywords ->
  V5.color_highlight_terms e "money laundering scheme" "" laund_keywords
  = keyword_span +++ "money laundering" +++ span_end +++ " scheme".
Proof.
  intros H. apply Permutation_sym, Permutation_length_2_inv in H.
  unfold V5.color_highlight_terms, longest_first.
  destruct H as [-> | ->]; vm_compute; reflexivity.
Qed.

(** Where the literal stands nowhere, the substitution changes nothing. *)
Lemma match_word_literal (kw : text) (prev : option ascii) (s : text) :
  Re.match_literal kw s = None -> Re.match_word kw prev s = None.
Proof.
  intros H. unfold Re.match_word. rewrite H.
  now destruct (Re.boundary prev (hd_error s)).
Qed.

Lemma occurs_head (kw s : text) :
  occurs kw s = false -> Re.match_literal kw s = None.
Proof.
  destruct s as [|c s]; cbn [occurs];
    destruct (Re.match_literal kw _); [discriminate|reflexivity|discriminate|reflexivity].
Qed.

Lemma occurs_tail (kw : text) (c : ascii) (s : text) :
  occurs kw (c :: s) = false -> occurs kw s = false.
Proof.
  cbn [occurs]. now destruct (Re.match_literal kw (c :: s)).
Qed.

Lemma sub_word_scan_absent (kw : text) (wrap : text -> text)
  (prev : option ascii) (s : text) :
  occurs kw s = false -> Re.sub_word_scan kw wrap 0 prev s = s.
Proof.
  revert prev. induction s as [|c s IH]; intros prev H.
  - cbn [Re.sub_word_scan].
    now rewrite (match_word_literal kw prev [] (occurs_head kw [] H)).
  - cbn [Re.sub_word_scan].
    rewrite (match_word_literal kw prev (c :: s) (occurs_head kw (c :: s) H)).
    f_equal. apply IH. exact (occurs_tail kw c s H).
Qed.

Lemma sub_word_absent (kw : text) (wrap : text -> text) (s : text) :
  occurs kw s = false -> Re.sub_word kw wrap s = s.
Proof. apply sub_word_scan_absent. Qed.

(** The characters of a match are jumped over. *)
Lemma sub_word_scan_skip (kw : text) (wrap : text -> text) (m : text)
  (prev : option ascii) (post : text) :
  Re.sub_word_scan kw wrap (length m) prev (m ++ post)
  = Re.sub_word_scan kw wrap 0 (char_before prev m) post.
Proof.
  revert prev. induction m as [|c m IH]; intros prev; [reflexivity|].
  cbn [length app Re.sub_word_scan]. apply IH.
Qed.

(** The leftmost match is replaced, the text before it is kept, and the
    search goes on behind it. *)
Lemma sub_word_scan_first (kw : text) (wrap : text -> text)
  (prev : option ascii) (pre m post : text) :
  first_at kw prev pre m post = true ->
  Re.sub_word_scan kw wrap 0 prev (pre ++ m ++ post)
  = pre ++ wrap m ++ Re.sub_word_scan kw wrap 0 (char_before None m) post.
Proof.
  revert prev. induction pre as [|c pre IH]; intros prev H.
  - cbn [first_at] in H. destruct m as [|x m]; [discriminate|].
    cbn [app] in *. cbn [Re.sub_word_scan].
    destruct (Re.match_word kw prev (x :: m ++ post)) as [m'|]; [|discriminate].
    apply text_eqb_eq in H. subst m'.
    cbn [length Nat.sub]. rewrite Nat.sub_0_r.
    now rewrite sub_word_scan_skip.
  - cbn [first_at] in H. cbn [app] in *. cbn [Re.sub_word_scan].
    destruct (Re.match_word kw prev (c :: pre ++ m ++ post)); [discriminate|].
    f_equal. now apply IH.
Qed.

(** A second span inside a marked one. *)
Lemma sub_word_inside_span (kw before inside_l m inside_r after : text) :
  first_at kw None (before ++ keyword_span ++ inside_l) m
    (inside_r ++ span_end ++ after) = true ->
  Re.sub_word kw (V5.wrap keyword_span)
    (before ++ keyword_span ++ inside_l ++ m ++ inside_r ++ span_end ++ after)
  = before ++ keyword_span ++ inside_l
    ++ keyword_span ++ m ++ span_end
    ++ Re.sub_word_scan kw (V5.wrap keyword_span) 0 (char_before None m)
         (inside_r ++ span_end ++ after).
Proof.
  intros H. unfold Re.sub_word.
  replace (before ++ keyword_span ++ inside_l ++ m ++ inside_r ++ span_end ++ after)
    with ((before ++ keyword_span ++ inside_l) ++ m ++ inside_r ++ span_end ++ after)
    by now rewrite <- !app_assoc.
  rewrite (sub_word_scan_first kw (V5.wrap keyword_span) None _ m _ H).
  unfold V5.wrap. now rewrite <- !app_assoc.
Qed.

Lemma nested_span (e : env) (keywords : list text)
  (short long a l m r b : text) :
  Permutation (set_order e keywords) [short; long] ->
  (length short < length long)%nat ->
  first_at long None a (l ++ m ++ r) b = true ->
  occurs long b = false ->
  first_at short None (a ++ keyword_span ++ l) m (r ++ span_end ++ b) = true ->
  occurs short (r ++ span_end ++ b) = false ->
  V5.color_highlight_terms e (a ++ l ++ m ++ r ++ b) "" keywords
  = a ++ keyword_span ++ l ++ keyword_span ++ m ++ span_end ++ r ++ span_end ++ b.
Proof.
  intros Hp Hlen Hlong Hb Hshort Hrest.
  unfold V5.color_highlight_terms. cbv zeta.
  change (PyStr.truthy (text_of_string "")) with false. cbv iota.
  rewrite (longest_first_two e keywords Hp Hlen). cbn [fold_left].
  assert (E1 : Re.sub_word long (V5.wrap keyword_span) (a ++ l ++ m ++ r ++ b)
               = a ++ keyword_span ++ l ++ m ++ r ++ span_end ++ b).
  { unfold Re.sub_word.
    replace (a ++ l ++ m ++ r ++ b) with (a ++ (l ++ m ++ r) ++ b)
      by now rewrite <- !app_assoc.
    rewrite (sub_word_scan_first long (V5.wrap keyword_span) None a _ b Hlong).
    rewrite (sub_word_scan_absent long (V5.wrap keyword_span) _ b Hb).
    unfold V5.wrap. now rewrite <- !app_assoc. }
  rewrite E1.
  rewrite (sub_word_inside_span short a l m r b Hshort).
  now rewrite (sub_word_scan_absent short (V5.wrap keyword_span) _ _ Hrest).
Qed.

(** C6, as the claim states it, fails: in the output for the example the
    marker is opened twice, the second time inside the first span. *)
Lemma C6_counterexample :
  ~ (forall e : env,
        Permutation (set_order e laundering_keywords) laundering_keywords ->
        count_sub "<span"
          (V5.color_highlight_terms e "money laundering scheme" "" laundering_keywords)
        = 1%nat).
Proof.
  intros H.
  assert (Hp : Permutation (set_order example_env laundering_keywords)
                 laundering_keywords) by (vm_compute; apply Permutation_refl).
  specialize (H example_env Hp).
  rewrite (laundering_example example_env Hp) in H.
  vm_compute in H. discriminate H.
Qed.

(** C6, amended. The keywords are substituted one after the other, longest
    first, each substitution running over the output of the ones before it,
    markers included: no marked span is protected.  A keyword whose leftmost
    match, a whole word found without regard to letter case, lies inside a
    span marked before is marked there again, inside that span.  For two
    keywords this gives the nested marking in general: when the longer one
    is found once in the text, and the shorter one is found first inside
    that match and not behind it, the output is the span of the longer
    keyword with the span of the shorter one inside.  For the keywords
    [laundering] and [money laundering] and the text [money laundering
    scheme], whatever the iteration order of the set, the output is one span
    around [money laundering] that holds a second span around [laundering].
    A keyword that stands in the span only as part of a word is not marked:
    for [laund] and [money laundering] the output is the one span around
    [money laundering]. *)
Theorem C6_highlighter_longest_first :
  (forall (e : env) (keywords : list text),
      Permutation (longest_first e keywords) (set_order e keywords)
      /\ StronglySorted (fun a b : text => (length b <= length a)%nat)
           (longest_first e keywords))
  /\ (forall kw before inside_l m inside_r after : text,
        first_at kw None (before ++ keyword_span ++ inside_l) m
          (inside_r ++ span_end ++ after) = true ->
        Re.sub_word kw (V5.wrap keyword_span)
          (before ++ keyword_span ++ inside_l ++ m ++ inside_r ++ span_end ++ after)
        = before ++ keyword_span ++ inside_l
          ++ keyword_span ++ m ++ span_end
          ++ Re.sub_word_scan kw (V5.wrap keyword_span) 0 (char_before None m)
               (inside_r ++ span_end ++ after))
  /\ (forall (e : env) (keywords : list text) (short long a l m r b : text),
        Permutation (set_order e keywords) [short; long] ->
        (length short < length long)%nat ->
        first_at long None a (l ++ m ++ r) b = true ->
        occurs long b = false ->
        first_at short None (a ++ keyword_span ++ l) m (r ++ span_end ++ b) = true ->
        occurs short (r ++ span_end ++ b) = false ->
        V5.color_highlight_terms e (a ++ l ++ m ++ r ++ b) "" keywords
        = a ++ keyword_span ++ l ++ keyword_span ++ m ++ span_end
          ++ r ++ span_end ++ b)
  /\ (forall e : env,
        Permutation (set_order e laundering_keywords) laundering_keywords ->
        V5.color_highlight_terms e "money laundering scheme" "" laundering_keywords
        = keyword_span +++ "money " +++ keyword_span +++ "laundering" +++ span_end
          +++ span_end +++ " scheme")
  /\ (forall e : env,
        Permutation (set_order e laund_keywords) laund_keywords ->
        V5.color_highlight_terms e "money laundering scheme" "" laund_keywords
        = keyword_span +++ "money laundering" +++ span_end +++ " scheme").
Proof.
  split; [exact longest_first_ordered|].
  split; [exact sub_word_inside_span|].
  split; [exact nested_span|].
  split; [exact laundering_example|exact laund_example].
Qed.

Lemma C6_witness :
  V5.color_highlight_terms example_env "money laundering scheme" ""
    laundering_keywords
  = keyword_span +++ "money " +++ keyword_span +++ "laundering" +++ span_end
    +++ span_end +++ " scheme".
Proof.
  refine (proj1 (proj2 (proj2 C6_highlighter_longest_first)) example_env
            laundering_keywords "laundering" "money laundering"
            [] (text_of_string "money ") (text_of_string "laundering") []
            (text_of_string " scheme") _ _ _ _ _ _).
  - vm_compute. apply Permutation_refl.
  - vm_compute. lia.
  - vm_compute. reflexivity.
  - vm_compute. reflexivity.
  - vm_compute. reflexivity.
  - vm_compute. reflexivity.
Defined.

(** In [V1] and [V8] the template holds a doubled backslash: the matched
    text is replaced by a backslash and the digit 1. *)
Example V1_highlight_loses_the_match :
  V1.color_highlight_terms example_env "money laundering scheme" ""
    laundering_keywords
  = keyword_span +++ "\1" +++ span_end +++ " scheme".
Proof. vm_compute. reflexivity. Qed.

(** ** Normalized names *)

Section ForallPreserved.

Variable P : ascii -> Prop.

Lemma Forall_lstrip (s : text) : Forall P s -> Forall P (PyStr.lstrip s).
Proof.
  induction 1 as [|c s Hc Hs IH]; simpl; [constructor|].
  destruct (PyStr.is_space c); [exact IH|now constructor].
Qed.

Lemma Forall_strip (s : text) : Forall P s -> Forall P (PyStr.strip s).
Proof.
  intros H. unfold PyStr.strip, PyStr.rstrip.
  apply Forall_rev, Forall_lstrip, Forall_rev, Forall_lstrip, H.
Qed.

Hypothesis P_space : P Re.space.

Lemma Forall_sub_spaces_scan (b : bool) (s : text) :
  Forall P s -> Forall P (Re.sub_spaces_scan b s).
Proof.
  intros H. revert b. induction H as [|c s Hc Hs IH]; intros b; simpl; [constructor|].
  destruct (PyStr.is_space c); [destruct b|]; auto.
Qed.

Lemma Forall_replace_scan (old : text) (skip : nat) (s : text) :
  Forall P s -> Forall P (PyStr.replace_scan old [Re.space] skip s).
Proof.
  intros H. revert skip. induction H as [|c s Hc Hs IH]; intros skip; [constructor|].
  cbn [PyStr.replace_scan]. destruct skip as [|k]; [|apply IH].
  destruct (PyStr.startswith old (c :: s)).
  - constructor; [exact P_space|apply IH].
  - constructor; [exact Hc|apply IH].
Qed.

Lemma Forall_replace_tokens (tokens : list text) (s : text) :
  Forall (fun t => t <> []) tokens ->
  Forall P s ->
  Forall P (fold_left (fun n t => PyStr.replace t " " n) tokens s).
Proof.
  intros Ht. revert s. induction Ht as [|t tokens Hne Ht IH]; intros s Hs; simpl.
  - exact Hs.
  - apply IH. destruct t as [|x t]; [congruence|].
    apply (Forall_replace_scan (x :: t) 0 Hs).
Qed.

End ForallPreserved.

Lemma space_is_space : PyStr.is_space Re.space = true.
Proof. reflexivity. Qed.

Lemma not_space_neq (c : ascii) : PyStr.is_space c = false -> Ascii.eqb c Re.space = false.
Proof.
  intros H. destruct (Ascii.eqb c Re.space) eqn:E; [|reflexivity].
  apply Ascii.eqb_eq in E. subst c. discriminate.
Qed.

(** After [[^a-z0-9\s]] is replaced and the whitespace collapsed, only
    lowercase letters, digits and spaces remain. *)
Lemma sub_spaces_plain (b : bool) (s : text) :
  Forall (fun c => (PyStr.is_az c || PyStr.is_digit c || PyStr.is_space c)%bool = true) s ->
  Forall (fun c => plain_char c = true) (Re.sub_spaces_scan b s).
Proof.
  intros H. revert b. induction H as [|c s Hc Hs IH]; intros b; simpl; [constructor|].
  destruct (PyStr.is_space c) eqn:E.
  - destruct b; [apply IH|]. constructor; [reflexivity|apply IH].
  - constructor; [|apply IH]. unfold plain_char.
    rewrite orb_false_r in Hc. now rewrite Hc.
Qed.

Lemma sub_non_alnum_class (n : text) :
  Forall (fun c => (PyStr.is_az c || PyStr.is_digit c || PyStr.is_space c)%bool = true)
    (Re.sub_non_alnum n).
Proof.
  unfold Re.sub_non_alnum. induction n as [|c n IH]; simpl; constructor; [|exact IH].
  destruct (PyStr.is_az c || PyStr.is_digit c || PyStr.is_space c)%bool eqn:E;
    [exact E|reflexivity].
Qed.

Lemma single_spaced_cons (c : ascii) (s : text) :
  single_spaced (c :: s)
  = (negb (Ascii.eqb c " " && PyStr.startswith [Re.space] s) && single_spaced s)%bool.
Proof.
  destruct s as [|d s].
  - cbn [single_spaced PyStr.startswith]. now rewrite andb_false_r.
  - change (single_spaced (c :: d :: s))
      with (negb (Ascii.eqb c " " && Ascii.eqb d " ") && single_spaced (d :: s))%bool.
    cbn [PyStr.startswith]. unfold PyStr.eqb_char.
    rewrite andb_true_r, (Ascii.eqb_sym Re.space d). reflexivity.
Qed.

Lemma scan_in_run_head (s : text) :
  PyStr.startswith [Re.space] (Re.sub_spaces_scan true s) = false.
Proof.
  induction s as [|c s IH]; [reflexivity|].
  cbn [Re.sub_spaces_scan]. destruct (PyStr.is_space c) eqn:E; [exact IH|].
  cbn [PyStr.startswith]. unfold PyStr.eqb_char.
  rewrite Ascii.eqb_sym, (not_space_neq _ E). reflexivity.
Qed.

Lemma scan_single_spaced (b : bool) (s : text) :
  single_spaced (Re.sub_spaces_scan b s) = true.
Proof.
  revert b. induction s as [|c s IH]; intros b; [reflexivity|].
  cbn [Re.sub_spaces_scan]. destruct (PyStr.is_space c) eqn:E.
  - destruct b; [apply IH|].
    rewrite single_spaced_cons, scan_in_run_head, IH, andb_false_r. reflexivity.
  - rewrite single_spaced_cons, IH.
    change (Ascii.eqb c " ") with (Ascii.eqb c Re.space).
    rewrite (not_space_neq _ E). reflexivity.
Qed.

Lemma single_spaced_app_r (d s : text) :
  single_spaced (d ++ s) = true -> single_spaced s = true.
Proof.
  induction d as [|c d IH]; [auto|].
  simpl app. rewrite single_spaced_cons. intros H.
  apply andb_true_iff in H. apply IH, H.
Qed.

Lemma single_spaced_app_l (p d : text) :
  single_spaced (p ++ d) = true -> single_spaced p = true.
Proof.
  induction p as [|c p IH]; [reflexivity|].
  simpl app. rewrite !single_spaced_cons. intros H.
  apply andb_true_iff in H. destruct H as [H1 H2].
  rewrite (IH H2), andb_true_r.
  destruct p as [|x p]; [now rewrite andb_false_r|exact H1].
Qed.

Lemma lstrip_suffix (s : text) : exists d, s = d ++ PyStr.lstrip s.
Proof.
  induction s as [|c s [d IH]]; simpl.
  - now exists [].
  - destruct (PyStr.is_space c).
    + exists (c :: d). simpl. now f_equal.
    + now exists [].
Qed.

Lemma rstrip_prefix (s : text) : exists d, s = PyStr.rstrip s ++ d.
Proof.
  unfold PyStr.rstrip. destruct (lstrip_suffix (rev s)) as [d H].
  exists (rev d). rewrite <- rev_app_distr, <- H. now rewrite rev_involutive.
Qed.

Lemma strip_single_spaced (s : text) :
  single_spaced s = true -> single_spaced (PyStr.strip s) = true.
Proof.
  intros H. unfold PyStr.strip.
  destruct (rstrip_prefix (PyStr.lstrip s)) as [d Hd].
  destruct (lstrip_suffix s) as [d' Hd'].
  rewrite Hd' in H. apply single_spaced_app_r in H.
  rewrite Hd in H. now apply single_spaced_app_l in H.
Qed.

Lemma lstrip_head (s : text) : starts_blank (PyStr.lstrip s) = false.
Proof.
  induction s as [|c s IH]; [reflexivity|].
  cbn [PyStr.lstrip]. destruct (PyStr.is_space c) eqn:E; [exact IH|exact E].
Qed.

Lemma lstrip_fixed (s : text) : starts_blank s = false -> PyStr.lstrip s = s.
Proof. destruct s as [|c s]; [reflexivity|]. cbn. now intros ->. Qed.

Lemma rstrip_fixed (s : text) : starts_blank (rev s) = false -> PyStr.rstrip s = s.
Proof.
  intros H. unfold PyStr.rstrip. rewrite (lstrip_fixed _ H). apply rev_involutive.
Qed.

Lemma rstrip_last (s : text) : starts_blank (rev (PyStr.rstrip s)) = false.
Proof. unfold PyStr.rstrip. rewrite rev_involutive. apply lstrip_head. Qed.

Lemma rstrip_head (s : text) :
  starts_blank s = false -> starts_blank (PyStr.rstrip s) = false.
Proof.
  intros H. destruct (rstrip_prefix s) as [d Hd].
  destruct (PyStr.rstrip s) as [|c r]; [reflexivity|].
  rewrite Hd in H. exact H.
Qed.

Lemma strip_head (s : text) : starts_blank (PyStr.strip s) = false.
Proof. unfold PyStr.strip. apply rstrip_head, lstrip_head. Qed.

Lemma strip_last (s : text) : starts_blank (rev (PyStr.strip s)) = false.
Proof. unfold PyStr.strip. apply rstrip_last. Qed.

Lemma strip_fixed (s : text) :
  starts_blank s = false -> starts_blank (rev s) = false -> PyStr.strip s = s.
Proof.
  intros H1 H2. unfold PyStr.strip. rewrite (lstrip_fixed _ H1). now apply rstrip_fixed.
Qed.

Lemma strip_idempotent (s : text) : PyStr.strip (PyStr.strip s) = PyStr.strip s.
Proof. apply strip_fixed; [apply strip_head|apply strip_last]. Qed.

Lemma starts_space_blank (s : text) :
  starts_blank s = false -> PyStr.startswith [Re.space] s = false.
Proof.
  destruct s as [|c s]; [reflexivity|].
  cbn [starts_blank PyStr.startswith]. intros H. unfold PyStr.eqb_char.
  rewrite Ascii.eqb_sym, (not_space_neq _ H). reflexivity.
Qed.

Lemma strip_trimmed (s : text) : trimmed (PyStr.strip s) = true.
Proof.
  unfold trimmed.
  change (text_of_string " ") with [Re.space].
  rewrite (starts_space_blank _ (strip_head s)), (starts_space_blank _ (strip_last s)).
  reflexivity.
Qed.

Lemma V9_tokens_nonempty : Forall (fun t : text => t <> []) V9.remove_tokens.
Proof. repeat constructor; discriminate. Qed.

Lemma V8_tokens_nonempty : Forall (fun t : text => t <> []) V8.remove_tokens.
Proof. repeat constructor; discriminate. Qed.

(** The output of [normalize_name] in [V9] holds lowercase letters, digits
    and spaces only, no two spaces in a row, and no space at either end. *)
Lemma V9_normalize_name_plain (n : text) :
  Forall (fun c => plain_char c = true) (V9.normalize_name n)
  /\ single_spaced (V9.normalize_name n) = true
  /\ trimmed (V9.normalize_name n) = true.
Proof.
  unfold V9.normalize_name.
  destruct (negb (PyStr.truthy n)); [repeat split; constructor|].
  cbv zeta. unfold Re.sub_spaces. split; [|split].
  - apply Forall_strip, sub_spaces_plain, sub_non_alnum_class.
  - apply strip_single_spaced, scan_single_spaced.
  - apply strip_trimmed.
Qed.

(** *** Occurrences of a token *)

Lemma contains_cons (t : text) (c : ascii) (s : text) :
  PyStr.contains t (c :: s) = (PyStr.startswith t (c :: s) || PyStr.contains t s)%bool.
Proof. reflexivity. Qed.

Lemma contains_nil (t : text) : PyStr.contains t [] = PyStr.startswith t [].
Proof. cbn [PyStr.contains]. apply orb_false_r. Qed.

Lemma startswith_cons (x : ascii) (t : text) (c : ascii) (s : text) :
  PyStr.startswith (x :: t) (c :: s) = (Ascii.eqb x c && PyStr.startswith t s)%bool.
Proof. reflexivity. Qed.

(** A text free of whitespace that starts the result of one of the
    substitutions starts its argument as well. *)
Section BlankFree.

Variable t : text.
Hypothesis t_blank_free : Forall (fun c => PyStr.is_space c = false) t.
Hypothesis t_nonempty : t <> [].

Lemma blank_free_head (s : text) (c : ascii) :
  PyStr.is_space c = true -> PyStr.startswith t (c :: s) = false.
Proof.
  intros Hc. destruct t as [|x t']; [congruence|].
  rewrite startswith_cons. inversion t_blank_free as [|? ? Hx _]; subst.
  destruct (Ascii.eqb x c) eqn:E; [|reflexivity].
  apply Ascii.eqb_eq in E. subst. congruence.
Qed.

Lemma contains_skip_blank (s : text) (c : ascii) :
  PyStr.is_space c = true -> PyStr.contains t (c :: s) = PyStr.contains t s.
Proof. intros Hc. now rewrite contains_cons, blank_free_head. Qed.

End BlankFree.

Lemma startswith_sub_non_alnum (t s : text) :
  Forall (fun c => PyStr.is_space c = false) t ->
  PyStr.startswith t (Re.sub_non_alnum s) = true -> PyStr.startswith t s = true.
Proof.
  intros Ht. revert s. induction Ht as [|x t Hx Ht IH]; intros s; [reflexivity|].
  destruct s as [|c s]; [intros H; exact H|].
  unfold Re.sub_non_alnum. cbn [map]. fold (Re.sub_non_alnum s).
  rewrite !startswith_cons, !andb_true_iff. intros [H1 H2].
  split; [|now apply IH].
  destruct (PyStr.is_az c || PyStr.is_digit c || PyStr.is_space c)%bool; [exact H1|].
  apply Ascii.eqb_eq in H1. subst x. discriminate.
Qed.

Lemma contains_sub_non_alnum (t s : text) :
  Forall (fun c => PyStr.is_space c = false) t ->
  PyStr.contains t (Re.sub_non_alnum s) = true -> PyStr.contains t s = true.
Proof.
  intros Ht. induction s as [|c s IH].
  - intros H. exact H.
  - change (Re.sub_non_alnum (c :: s))
      with ((if (PyStr.is_az c || PyStr.is_digit c || PyStr.is_space c)%bool
             then c else Re.space) :: Re.sub_non_alnum s).
    rewrite !contains_cons, !orb_true_iff. intros [H|H].
    + left. now apply (@startswith_sub_non_alnum t (c :: s) Ht).
    + right. now apply IH.
Qed.

Lemma startswith_scan (t s : text) :
  Forall (fun c => PyStr.is_space c = false) t ->
  PyStr.startswith t (Re.sub_spaces_scan false s) = true -> PyStr.startswith t s = true.
Proof.
  intros Ht. revert s. induction Ht as [|x t Hx Ht IH]; intros s; [reflexivity|].
  destruct s as [|c s]; [intros H; exact H|].
  cbn [Re.sub_spaces_scan]. destruct (PyStr.is_space c) eqn:E.
  - rewrite startswith_cons, andb_true_iff. intros [H1 _].
    apply Ascii.eqb_eq in H1. subst x. discriminate.
  - rewrite !startswith_cons, !andb_true_iff. intros [H1 H2]. split; [exact H1|].
    now apply IH.
Qed.

Lemma contains_scan (t : text) (b : bool) (s : text) :
  Forall (fun c => PyStr.is_space c = false) t -> t <> [] ->
  PyStr.contains t (Re.sub_spaces_scan b s) = true -> PyStr.contains t s = true.
Proof.
  intros Ht Hne. revert b. induction s as [|c s IH]; intros b.
  - intros H. exact H.
  - cbn [Re.sub_spaces_scan]. destruct (PyStr.is_space c) eqn:E.
    + rewrite (@contains_skip_blank t Ht Hne s c E).
      destruct b; [apply IH|].
      rewrite (@contains_skip_blank t Ht Hne _ Re.space space_is_space). apply IH.
    + rewrite !contains_cons, !orb_true_iff. intros [H|H].
      * left. apply (@startswith_scan t (c :: s) Ht).
        cbn [Re.sub_spaces_scan]. now rewrite E.
      * right. now apply IH in H.
Qed.

Lemma startswith_app_l (t p d : text) :
  PyStr.startswith t p = true -> PyStr.startswith t (p ++ d) = true.
Proof.
  revert p. induction t as [|x t IH]; intros p; [reflexivity|].
  destruct p as [|c p]; [intros; discriminate|].
  cbn [app]. rewrite !startswith_cons, !andb_true_iff. intros [H1 H2].
  split; [exact H1|now apply IH].
Qed.

Lemma contains_app_l (t p d : text) :
  t <> [] -> PyStr.contains t p = true -> PyStr.contains t (p ++ d) = true.
Proof.
  intros Hne. induction p as [|c p IH].
  - rewrite contains_nil. destruct t; [congruence|intros; discriminate].
  - cbn [app]. rewrite !contains_cons, !orb_true_iff. intros [H|H].
    + left. now apply (@startswith_app_l t (c :: p) d).
    + right. now apply IH.
Qed.

Lemma contains_app_r (t d s : text) :
  PyStr.contains t s = true -> PyStr.contains t (d ++ s) = true.
Proof.
  intros H. induction d as [|c d IH]; [exact H|].
  cbn [app]. rewrite contains_cons, IH. apply orb_true_r.
Qed.

Lemma contains_strip (t s : text) :
  t <> [] -> PyStr.contains t (PyStr.strip s) = true -> PyStr.contains t s = true.
Proof.
  intros Hne H. unfold PyStr.strip in H.
  destruct (rstrip_prefix (PyStr.lstrip s)) as [d Hd].
  destruct (lstrip_suffix s) as [d' Hd'].
  rewrite Hd'. apply contains_app_r. rewrite Hd. now apply contains_app_l.
Qed.

Lemma startswith_replace (t old s : text) :
  Forall (fun c => PyStr.is_space c = false) t ->
  PyStr.startswith t (PyStr.replace_scan old [Re.space] 0 s) = true ->
  PyStr.startswith t s = true.
Proof.
  intros Ht. revert s. induction Ht as [|x t Hx Ht IH]; intros s; [reflexivity|].
  destruct s as [|c s]; [intros H; exact H|].
  cbn [PyStr.replace_scan]. destruct (PyStr.startswith old (c :: s)).
  - cbn [app]. rewrite startswith_cons, andb_true_iff. intros [H1 _].
    apply Ascii.eqb_eq in H1. subst x. discriminate.
  - rewrite !startswith_cons, !andb_true_iff. intros [H1 H2]. split; [exact H1|].
    now apply IH.
Qed.

Lemma contains_replace (t old : text) (skip : nat) (s : text) :
  Forall (fun c => PyStr.is_space c = false) t -> t <> [] ->
  PyStr.contains t (PyStr.replace_scan old [Re.space] skip s) = true ->
  PyStr.contains t s = true.
Proof.
  intros Ht Hne. revert skip. induction s as [|c s IH]; intros skip.
  - intros H. exact H.
  - cbn [PyStr.replace_scan]. destruct skip as [|k].
    + destruct (PyStr.startswith old (c :: s)) eqn:E.
      * cbn [app]. rewrite (@contains_skip_blank t Ht Hne _ Re.space space_is_space).
        intros H. apply IH in H. rewrite contains_cons, H. apply orb_true_r.
      * rewrite !contains_cons, !orb_true_iff. intros [H|H].
        -- left. apply (@startswith_replace t old (c :: s) Ht).
           cbn [PyStr.replace_scan]. now rewrite E.
        -- right. now apply IH in H.
    + intros H. apply IH in H. rewrite contains_cons, H. apply orb_true_r.
Qed.

(** Replacing a token leaves no occurrence of it. *)
Lemma replace_removes (t : text) (skip : nat) (s : text) :
  Forall (fun c => PyStr.is_space c = false) t -> t <> [] ->
  PyStr.contains t (PyStr.replace_scan t [Re.space] skip s) = false.
Proof.
  intros Ht Hne. revert skip. induction s as [|c s IH]; intros skip.
  - cbn [PyStr.replace_scan]. rewrite contains_nil.
    destruct t; [congruence|reflexivity].
  - cbn [PyStr.replace_scan]. destruct skip as [|k]; [|apply IH].
    destruct (PyStr.startswith t (c :: s)) eqn:E.
    + cbn [app]. rewrite (@contains_skip_blank t Ht Hne _ Re.space space_is_space).
      apply IH.
    + rewrite contains_cons, IH, orb_false_r.
      destruct (PyStr.startswith t (c :: PyStr.replace_scan t [Re.space] 0 s)) eqn:E2;
        [|reflexivity].
      rewrite <- E. symmetry. apply (@startswith_replace t t (c :: s) Ht).
      cbn [PyStr.replace_scan]. now rewrite E.
Qed.

(** Where a token does not occur, replacing it changes nothing. *)
Lemma replace_fixed (t new s : text) :
  PyStr.contains t s = false -> PyStr.replace_scan t new 0 s = s.
Proof.
  induction s as [|c s IH]; [reflexivity|].
  rewrite contains_cons, orb_false_iff. intros [H1 H2].
  cbn [PyStr.replace_scan]. rewrite H1. f_equal. now apply IH.
Qed.

Lemma contains_suffix (p q s : text) :
  PyStr.contains (p ++ q) s = true -> PyStr.contains q s = true.
Proof.
  revert s. induction p as [|x p IH]; intros s; [auto|].
  induction s as [|c s IHs].
  - rewrite contains_nil. intros; discriminate.
  - rewrite contains_cons. cbn [app]. rewrite startswith_cons.
    rewrite orb_true_iff, andb_true_iff. intros [[_ H]|H].
    + rewrite contains_cons. apply orb_true_iff. right. apply IH.
      destruct s as [|d s].
      * rewrite contains_nil. exact H.
      * rewrite contains_cons, H. reflexivity.
    + rewrite contains_cons. apply orb_true_iff. right. now apply IHs.
Qed.

Lemma replace_token (t s : text) :
  t <> [] -> PyStr.replace t " " s = PyStr.replace_scan t [Re.space] 0 s.
Proof. destruct t; [congruence|reflexivity]. Qed.

Lemma tokens_keep_absent (tokens : list text) (t s : text) :
  Forall (fun c => PyStr.is_space c = false) t -> t <> [] ->
  Forall (fun u : text => u <> []) tokens ->
  PyStr.contains t s = false ->
  PyStr.contains t (fold_left (fun n u => PyStr.replace u " " n) tokens s) = false.
Proof.
  intros Ht Hne Hu. revert s. induction Hu as [|u tokens Hune Hu IH]; intros s Hs.
  - exact Hs.
  - cbn [fold_left]. apply IH. rewrite (replace_token s Hune).
    destruct (PyStr.contains t (PyStr.replace_scan u [Re.space] 0 s)) eqn:E;
      [|reflexivity].
    apply (contains_replace u 0 s Ht Hne) in E. congruence.
Qed.

Lemma tokens_remove (tokens : list text) (t s : text) :
  Forall (fun c => PyStr.is_space c = false) t -> t <> [] ->
  Forall (fun u : text => u <> []) tokens ->
  In t tokens ->
  PyStr.contains t (fold_left (fun n u => PyStr.replace u " " n) tokens s) = false.
Proof.
  intros Ht Hne Hu. revert s. induction Hu as [|u tokens Hune Hu IH]; intros s Hin.
  - destruct Hin.
  - cbn [fold_left]. destruct Hin as [->|Hin]; [|now apply IH].
    apply tokens_keep_absent; try assumption.
    rewrite (replace_token s Hne). now apply replace_removes.
Qed.

Lemma tokens_fixed (tokens : list text) (s : text) :
  Forall (fun u : text => u <> []) tokens ->
  Forall (fun u => PyStr.contains u s = false) tokens ->
  fold_left (fun n u => PyStr.replace u " " n) tokens s = s.
Proof.
  intros Hu Hs. induction Hu as [|u tokens Hune Hu IH]; [reflexivity|].
  inversion Hs as [|? ? H1 H2]; subst. cbn [fold_left].
  rewrite (replace_token s Hune), (@replace_fixed u [Re.space] s H1). now apply IH.
Qed.

(** Facts about single characters, checked on each of the 256. *)
Ltac each_char c :=
  destruct c as [[] [] [] [] [] [] [] []]; vm_compute;
  intros; first [reflexivity | discriminate].

Lemma plain_lower (c : ascii) : plain_char c = true -> PyStr.lower_char c = c.
Proof. each_char c. Qed.

Lemma plain_class (c : ascii) :
  plain_char c = true ->
  (PyStr.is_az c || PyStr.is_digit c || PyStr.is_space c)%bool = true.
Proof. each_char c. Qed.

Lemma plain_blank (c : ascii) :
  plain_char c = true -> PyStr.is_space c = true -> c = Re.space.
Proof. each_char c. Qed.

Lemma lower_lower (c : ascii) : PyStr.lower_char (PyStr.lower_char c) = PyStr.lower_char c.
Proof. each_char c. Qed.

Lemma scan_only_spaces (b : bool) (s : text) :
  Forall (fun c => PyStr.is_space c = true -> c = Re.space) (Re.sub_spaces_scan b s).
Proof.
  revert b. induction s as [|c s IH]; intros b; [constructor|].
  cbn [Re.sub_spaces_scan]. destruct (PyStr.is_space c) eqn:E.
  - destruct b; [apply IH|]. constructor; [reflexivity|apply IH].
  - constructor; [congruence|apply IH].
Qed.

Lemma sub_spaces_fixed (s : text) :
  Forall (fun c => PyStr.is_space c = true -> c = Re.space) s ->
  single_spaced s = true ->
  Re.sub_spaces s = s.
Proof.
  unfold Re.sub_spaces. intros H. induction H as [|c s Hc Hs IH]; [reflexivity|].
  rewrite single_spaced_cons, andb_true_iff. intros [H1 H2].
  cbn [Re.sub_spaces_scan]. destruct (PyStr.is_space c) eqn:E.
  - rewrite (Hc eq_refl) in *. f_equal.
    change (Ascii.eqb Re.space " ") with true in H1. rewrite andb_true_l in H1.
    apply negb_true_iff in H1.
    destruct s as [|d s]; [reflexivity|].
    cbn [Re.sub_spaces_scan]. destruct (PyStr.is_space d) eqn:Ed.
    + inversion Hs as [|? ? Hd _]; subst. rewrite (Hd Ed) in H1. discriminate.
    + specialize (IH H2). cbn [Re.sub_spaces_scan] in IH. rewrite Ed in IH. exact IH.
  - f_equal. now apply IH.
Qed.

Lemma sub_non_alnum_fixed (s : text) :
  Forall (fun c => plain_char c = true) s -> Re.sub_non_alnum s = s.
Proof.
  unfold Re.sub_non_alnum. induction 1 as [|c s Hc Hs IH]; [reflexivity|].
  cbn [map]. rewrite (plain_class _ Hc), IH. reflexivity.
Qed.

Lemma lower_fixed (s : text) :
  Forall (fun c => PyStr.lower_char c = c) s -> PyStr.lower s = s.
Proof.
  unfold PyStr.lower. induction 1 as [|c s Hc Hs IH]; [reflexivity|].
  cbn [map]. now rewrite Hc, IH.
Qed.

(** A text in normal form is left alone by [normalize_name]. *)
Lemma V9_normal_form_fixed (s : text) :
  Forall (fun c => plain_char c = true) s ->
  single_spaced s = true ->
  PyStr.strip s = s ->
  Forall (fun u => PyStr.contains u s = false) V9.remove_tokens ->
  V9.normalize_name s = s.
Proof.
  intros Hp Hs Ht Hn. unfold V9.normalize_name.
  destruct s as [|c s]; [reflexivity|]. cbn [PyStr.truthy negb]. cbv zeta.
  rewrite lower_fixed
    by (eapply Forall_impl; [|exact Hp]; intros a Ha; now apply plain_lower).
  rewrite (@tokens_fixed V9.remove_tokens _ V9_tokens_nonempty Hn).
  rewrite (sub_non_alnum_fixed Hp).
  rewrite sub_spaces_fixed; [exact Ht| |exact Hs].
  eapply Forall_impl; [|exact Hp]. intros a Ha. now apply plain_blank.
Qed.

Lemma V8_normal_form_fixed (s : text) :
  Forall (fun c => PyStr.lower_char c = c) s ->
  Forall (fun c => PyStr.is_space c = true -> c = Re.space) s ->
  single_spaced s = true ->
  PyStr.strip s = s ->
  Forall (fun u => PyStr.contains u s = false) V8.remove_tokens ->
  V8.normalize_name s = s.
Proof.
  intros Hl Hb Hs Ht Hn. unfold V8.normalize_name.
  destruct s as [|c s]; [reflexivity|]. cbn [PyStr.truthy negb]. cbv zeta.
  rewrite (lower_fixed Hl), (@tokens_fixed V8.remove_tokens _ V8_tokens_nonempty Hn).
  rewrite (sub_spaces_fixed Hb Hs). exact Ht.
Qed.

Lemma contains_nonempty_nil (t : text) : t <> [] -> PyStr.contains t [] = false.
Proof. destruct t; [congruence|reflexivity]. Qed.

Lemma V9_token_absent (n t : text) :
  In t V9.remove_tokens ->
  Forall (fun c => PyStr.is_space c = false) t -> t <> [] ->
  PyStr.contains t (V9.normalize_name n) = false.
Proof.
  intros Hin Ht Hne. unfold V9.normalize_name.
  destruct (negb (PyStr.truthy n)); [now apply contains_nonempty_nil|].
  cbv zeta.
  destruct (PyStr.contains t _) eqn:E; [|reflexivity].
  apply (contains_strip _ Hne) in E. unfold Re.sub_spaces in E.
  apply (contains_scan false _ Ht Hne) in E.
  apply (contains_sub_non_alnum _ Ht) in E.
  rewrite (@tokens_remove V9.remove_tokens t (PyStr.lower n) Ht Hne
             V9_tokens_nonempty Hin) in E.
  discriminate E.
Qed.

Lemma V8_token_absent (n t : text) :
  In t V8.remove_tokens ->
  Forall (fun c => PyStr.is_space c = false) t -> t <> [] ->
  PyStr.contains t (V8.normalize_name n) = false.
Proof.
  intros Hin Ht Hne. unfold V8.normalize_name.
  destruct (negb (PyStr.truthy n)); [now apply contains_nonempty_nil|].
  cbv zeta.
  destruct (PyStr.contains t _) eqn:E; [|reflexivity].
  apply (contains_strip _ Hne) in E. unfold Re.sub_spaces in E.
  apply (contains_scan false _ Ht Hne) in E.
  rewrite (@tokens_remove V8.remove_tokens t (PyStr.lower n) Ht Hne
             V8_tokens_nonempty Hin) in E.
  discriminate E.
Qed.

(** Side conditions on a concrete token. *)
Ltac token_side :=
  first [ discriminate
        | solve [repeat constructor]
        | solve [repeat (first [left; reflexivity | right])] ].

Lemma V9_no_token (n : text) :
  Forall (fun u => PyStr.contains u (V9.normalize_name n) = false) V9.remove_tokens.
Proof.
  unfold V9.remove_tokens at 1, texts. cbn [map].
  constructor.
  - destruct (PyStr.contains "public joint stock company" (V9.normalize_name n)) eqn:E;
      [|reflexivity].
    change (text_of_string "public joint stock company")
      with (text_of_string "public joint stock " ++ text_of_string "company") in E.
    apply contains_suffix in E.
    rewrite V9_token_absent in E; [discriminate E|token_side..].
  - repeat (constructor; [apply V9_token_absent; token_side|]). constructor.
Qed.

Lemma V8_no_token (n : text) :
  Forall (fun u => PyStr.contains u (V8.normalize_name n) = false) V8.remove_tokens.
Proof.
  unfold V8.remove_tokens at 1, texts. cbn [map].
  constructor.
  - destruct (PyStr.contains "public joint stock company" (V8.normalize_name n)) eqn:E;
      [|reflexivity].
    change (text_of_string "public joint stock company")
      with (text_of_string "public joint stock " ++ text_of_string "company") in E.
    apply contains_suffix in E.
    rewrite V8_token_absent in E; [discriminate E|token_side..].
  - repeat (constructor; [apply V8_token_absent; token_side|]). constructor.
Qed.

Lemma V9_strip_fixed (n : text) :
  PyStr.strip (V9.normalize_name n) = V9.normalize_name n.
Proof.
  unfold V9.normalize_name. destruct (negb (PyStr.truthy n)); [reflexivity|].
  apply strip_idempotent.
Qed.

(** [normalize_name] of [V9] is idempotent. *)
Lemma V9_normalize_name_idempotent (n : text) :
  V9.normalize_name (V9.normalize_name n) = V9.normalize_name n.
Proof.
  destruct (V9_normalize_name_plain n) as (Hp & Hs & _).
  apply V9_normal_form_fixed;
    [exact Hp|exact Hs|apply V9_strip_fixed|apply V9_no_token].
Qed.

Lemma V8_normalize_name_facts (n : text) :
  Forall (fun c => PyStr.lower_char c = c) (V8.normalize_name n)
  /\ Forall (fun c => PyStr.is_space c = true -> c = Re.space) (V8.normalize_name n)
  /\ single_spaced (V8.normalize_name n) = true
  /\ PyStr.strip (V8.normalize_name n) = V8.normalize_name n.
Proof.
  unfold V8.normalize_name.
  destruct (negb (PyStr.truthy n)); [repeat split; constructor|].
  cbv zeta. unfold Re.sub_spaces. repeat split.
  - apply Forall_strip, Forall_sub_spaces_scan; [reflexivity|].
    apply Forall_replace_tokens; [reflexivity|exact V8_tokens_nonempty|].
    unfold PyStr.lower. apply Forall_forall. intros c Hc.
    apply in_map_iff in Hc. destruct Hc as [a [<- _]]. apply lower_lower.
  - apply Forall_strip, scan_only_spaces.
  - apply strip_single_spaced, scan_single_spaced.
  - apply strip_idempotent.
Qed.

(** [normalize_name] of [V8] is idempotent. *)
Lemma V8_normalize_name_idempotent (n : text) :
  V8.normalize_name (V8.normalize_name n) = V8.normalize_name n.
Proof.
  destruct (V8_normalize_name_facts n) as (Hl & Hb & Hs & Ht).
  apply V8_normal_form_fixed; [exact Hl|exact Hb|exact Hs|exact Ht|apply V8_no_token].
Qed.

(** In [V9] the letter case and the punctuation of the example do not
    matter. *)
Example V9_normalize_name_example :
  V9.normalize_name "ACME, Ltd." = V9.normalize_name "acme ltd"
  /\ V9.normalize_name "acme ltd" = text_of_string "acme".
Proof. vm_compute. split; reflexivity. Qed.

(** C7 in [V8]: [normalize_name] lacks the substitution that [V9] applies to
    every character outside [a-z0-9\s]; the name [O'Neil & Sons (UK)]
    keeps its apostrophe, ampersand and parentheses. *)
Theorem C7_v8_keeps_other_characters :
  V8.normalize_name "O'Neil & Sons (UK)" = text_of_string "o'neil & sons (uk)"
  /\ forallb plain_char (V8.normalize_name "O'Neil & Sons (UK)") = false
  /\ forallb plain_char (V9.normalize_name "O'Neil & Sons (UK)") = true.
Proof. vm_compute. repeat split. Qed.

(** C8 in [V8]: for the same reason the point of [ACME, Ltd.] survives, and
    the two names of the example normalize differently. *)
Theorem C8_v8_example_differs :
  V8.normalize_name "ACME, Ltd." = text_of_string "acme ."
  /\ V8.normalize_name "acme ltd" = text_of_string "acme"
  /\ V8.normalize_name "ACME, Ltd." <> V8.normalize_name "acme ltd".
Proof. vm_compute. repeat split. discriminate. Qed.

(** * Further properties of the code *)

(** ** The high-severity switch *)

(** X1. In every variant the high-severity view is the full view with the
    results of other severities removed: the switch drops rows, it neither
    reorders nor alters the rows it keeps, and sanctions rows all stay. *)
Theorem X1_high_severity_view (e : env) (name : text) (keywords : list text)
  (from_date to_date : text) :
  V5.search_all e name keywords from_date to_date true
  = filter is_high (V5.search_all e name keywords from_date to_date false)
  /\ V1.search_all e name keywords from_date to_date true
     = filter is_high (V1.search_all e name keywords from_date to_date false)
  /\ V8.search_all e name keywords from_date to_date true
     = filter is_high (V8.search_all e name keywords from_date to_date false)
  /\ V9.search_all e name keywords from_date to_date true
     = filter is_high (V9.search_all e name keywords from_date to_date false).
Proof.
  split; [|split; [|split]].
  - unfold V5.search_all. apply flat_map_filter. intros art.
    apply V5_classify_article_high.
  - unfold V1.search_all. apply flat_map_filter. intros art.
    apply classify_article_high.
  - unfold V8.search_all, V8.news_stage, V8.sanctions_stage.
    rewrite filter_app. f_equal.
    + destruct (PyStr.truthy name); [|reflexivity].
      symmetry. apply sanctions_results_high.
    + apply flat_map_filter. intros art. apply classify_article_high.
  - unfold V9.search_all, V9.news_stage, V9.sanctions_stage.
    destruct (_ || _)%bool; [reflexivity|].
    rewrite filter_app. f_equal.
    + symmetry. apply sanctions_results_high.
    + apply flat_map_filter. intros art. apply V9_classify_article_high.
Qed.

(** ** The news rows and the fetched articles *)

Lemma rows_of_articles (f : article -> list result) (l : list article) :
  (forall a, f a = [] \/ exists r, f a = [r] /\ copied_fields r = article_fields a) ->
  map copied_fields (flat_map f l) = map article_fields (filter (reported f) l).
Proof.
  intros H. induction l as [|a l IH]; [reflexivity|].
  cbn [flat_map filter]. rewrite map_app, IH. unfold reported at 2.
  destruct (H a) as [E|(r & E & Hr)]; rewrite E; [reflexivity|].
  cbn [map app]. now rewrite Hr.
Qed.

Lemma classify_article_row (e : env) (name : text) (keywords : list text)
  (hs : bool) (a : article) :
  Shared.classify_article e name keywords hs a = []
  \/ exists r, Shared.classify_article e name keywords hs a = [r]
               /\ copied_fields r = article_fields a.
Proof.
  unfold Shared.classify_article. cbv zeta.
  destruct (negb (PyStr.truthy (PyStr.strip _))); [now left|].
  destruct (Shared.run_model e _) as [label score].
  destruct (negb (Shared.is_negative (model_choice e) label)); [now left|].
  destruct (hs && _)%bool; [now left|].
  right. eexists. split; reflexivity.
Qed.

Lemma V5_classify_article_row (e : env) (name : text) (keywords : list text)
  (hs : bool) (a : article) :
  V5.classify_article e name keywords hs a = []
  \/ exists r, V5.classify_article e name keywords hs a = [r]
               /\ copied_fields r = article_fields a.
Proof.
  unfold V5.classify_article. cbv zeta.
  destruct (severity_eqb _ NotNegative); [now left|].
  destruct (hs && _)%bool; [now left|].
  right. eexists. split; reflexivity.
Qed.

Lemma V9_classify_article_row (e : env) (hs : bool) (a : article) :
  V9.classify_article e hs a = []
  \/ exists r, V9.classify_article e hs a = [r]
               /\ copied_fields r = article_fields a.
Proof.
  unfold V9.classify_article. cbv zeta.
  destruct (negb (PyStr.truthy (PyStr.strip _))); [now left|].
  destruct (Shared.run_model e _) as [label score].
  destruct (negb (Shared.is_negative (model_choice e) label)); [now left|].
  destruct (hs && _)%bool; [now left|].
  right. eexists. split; reflexivity.
Qed.

(** X2. The news rows are the fetched articles that the loop body reports,
    in fetch order (NewsData, then NewsAPI, then GNews), one row per
    reported article, each with the source, the date and the link of its
    article: no row is invented, repeated or moved. *)
Theorem X2_news_rows_follow_articles (e : env) (name : text) (keywords : list text)
  (from_date to_date : text) (high_severity : bool) :
  map copied_fields (V5.search_all e name keywords from_date to_date high_severity)
  = map article_fields
      (filter (reported (V5.classify_article e name (V5.all_keywords e keywords)
                           high_severity))
         (V5.articles e name keywords from_date to_date))
  /\ map copied_fields (V1.search_all e name keywords from_date to_date high_severity)
     = map article_fields
         (filter (reported (Shared.classify_article e name (V1.all_keywords e keywords)
                              high_severity))
            (V1.articles e name keywords from_date to_date))
  /\ map copied_fields (V8.news_stage e name keywords from_date to_date high_severity)
     = map article_fields
         (filter (reported (Shared.classify_article e name (V8.all_keywords e keywords)
                              high_severity))
            (V8.articles e name keywords from_date to_date))
  /\ map copied_fields (V9.news_stage e name from_date to_date high_severity)
     = map article_fields
         (filter (reported (V9.classify_article e high_severity))
            (V9.articles e name from_date to_date)).
Proof.
  split; [|split; [|split]]; apply rows_of_articles; intros a.
  - apply V5_classify_article_row.
  - apply classify_article_row.
  - apply classify_article_row.
  - apply V9_classify_article_row.
Qed.

(** ** More on normalized names *)

(** X3. In [V9] a normalized name holds only lowercase letters, digits and
    single spaces, and neither starts nor ends with a space, whatever the
    input. *)
Theorem X3_v9_normalized_shape (n : text) :
  Forall (fun c => plain_char c = true) (V9.normalize_name n)
  /\ single_spaced (V9.normalize_name n) = true
  /\ trimmed (V9.normalize_name n) = true.
Proof. apply V9_normalize_name_plain. Qed.

(** X4. What [V8] does guarantee of a normalized name: no character has a
    lowercase form other than itself, the only whitespace is the single
    space, no two spaces follow each other, and the ends are stripped. *)
Theorem X4_v8_normalized_shape (n : text) :
  Forall (fun c => PyStr.lower_char c = c) (V8.normalize_name n)
  /\ Forall (fun c => PyStr.is_space c = true -> c = Re.space) (V8.normalize_name n)
  /\ single_spaced (V8.normalize_name n) = true
  /\ PyStr.strip (V8.normalize_name n) = V8.normalize_name n.
Proof. apply V8_normalize_name_facts. Qed.

(** X5. [normalize_name] is idempotent in both variants that have it. *)
Theorem X5_normalize_name_idempotent (n : text) :
  V9.normalize_name (V9.normalize_name n) = V9.normalize_name n
  /\ V8.normalize_name (V8.normalize_name n) = V8.normalize_name n.
Proof.
  split; [apply V9_normalize_name_idempotent|apply V8_normalize_name_idempotent].
Qed.

(** X6. No token of the removal list occurs in a normalized name: the
    replacement of a later token never puts an earlier one together again,
    and neither do the regular expressions nor [strip]. *)
Theorem X6_no_token_left (n : text) :
  Forall (fun t => PyStr.contains t (V9.normalize_name n) = false) V9.remove_tokens
  /\ Forall (fun t => PyStr.contains t (V8.normalize_name n) = false) V8.remove_tokens.
Proof. split; [apply V9_no_token|apply V8_no_token]. Qed.

Lemma lower_eq_nil (a b : text) :
  PyStr.lower a = PyStr.lower b -> PyStr.truthy a = PyStr.truthy b.
Proof.
  unfold PyStr.lower. destruct a, b; cbn [map]; intros H;
    first [reflexivity | discriminate].
Qed.

(** X7. Names that differ in letter case only have the same normalized
    form, so they score alike against every candidate. *)
Theorem X7_normalize_name_ignores_case (a b : text) :
  PyStr.lower a = PyStr.lower b ->
  V9.normalize_name a = V9.normalize_name b
  /\ V8.normalize_name a = V8.normalize_name b.
Proof.
  intros H. unfold V9.normalize_name, V8.normalize_name. cbv zeta.
  now rewrite (lower_eq_nil _ _ H), H.
Qed.

Lemma X7_witness :
  PyStr.lower "ACME Ltd" = PyStr.lower "acme LTD"
  /\ V9.normalize_name "ACME Ltd" = V9.normalize_name "acme LTD"
  /\ V8.normalize_name "ACME Ltd" = V8.normalize_name "acme LTD".
Proof.
  split; [reflexivity|].
  apply (@X7_normalize_name_ignores_case "ACME Ltd" "acme LTD"). reflexivity.
Defined.

Lemma blank_lower (c : ascii) : PyStr.is_space c = true -> PyStr.lower_char c = c.
Proof. each_char c. Qed.

Lemma lstrip_blank (s : text) :
  Forall (fun c => PyStr.is_space c = true) s -> PyStr.lstrip s = [].
Proof.
  induction 1 as [|c s Hc Hs IH]; [reflexivity|].
  cbn [PyStr.lstrip]. now rewrite Hc.
Qed.

Lemma strip_blank (s : text) :
  Forall (fun c => PyStr.is_space c = true) s -> PyStr.strip s = [].
Proof. intros H. unfold PyStr.strip. now rewrite (lstrip_blank H). Qed.

Lemma contains_blank (u s : text) :
  u <> [] -> starts_blank u = false ->
  Forall (fun c => PyStr.is_space c = true) s ->
  PyStr.contains u s = false.
Proof.
  intros Hne Hu Hs. destruct u as [|x u]; [congruence|]. cbn [starts_blank] in Hu.
  induction Hs as [|c s Hc Hs IH]; [reflexivity|].
  rewrite contains_cons, IH, startswith_cons, orb_false_r.
  destruct (Ascii.eqb x c) eqn:E; [|reflexivity].
  apply Ascii.eqb_eq in E. subst c. congruence.
Qed.

Lemma sub_non_alnum_class_fixed (s : text) :
  Forall (fun c => (PyStr.is_az c || PyStr.is_digit c || PyStr.is_space c)%bool = true) s ->
  Re.sub_non_alnum s = s.
Proof.
  unfold Re.sub_non_alnum. induction 1 as [|c s Hc Hs IH]; [reflexivity|].
  cbn [map]. now rewrite Hc, IH.
Qed.

Lemma V9_tokens_start : Forall (fun u : text => u <> [] /\ starts_blank u = false)
                          V9.remove_tokens.
Proof. repeat constructor; discriminate. Qed.

Lemma V8_tokens_start : Forall (fun u : text => u <> [] /\ starts_blank u = false)
                          V8.remove_tokens.
Proof. repeat constructor; discriminate. Qed.

Lemma tokens_fixed_blank (tokens : list text) (s : text) :
  Forall (fun u : text => u <> [] /\ starts_blank u = false) tokens ->
  Forall (fun c => PyStr.is_space c = true) s ->
  fold_left (fun n u => PyStr.replace u " " n) tokens s = s.
Proof.
  intros Ht Hs. apply tokens_fixed.
  - eapply Forall_impl; [|exact Ht]. now intros u [H _].
  - eapply Forall_impl; [|exact Ht]. intros u [H1 H2]. now apply contains_blank.
Qed.

(** X8. A name made of whitespace only normalizes to the empty string, in
    both variants: it is then scored as the empty query. *)
Theorem X8_blank_name_normalizes_to_empty (n : text) :
  Forall (fun c => PyStr.is_space c = true) n ->
  V9.normalize_name n = [] /\ V8.normalize_name n = [].
Proof.
  intros H. unfold V9.normalize_name, V8.normalize_name. cbv zeta.
  destruct (negb (PyStr.truthy n)); [now split|].
  assert (Hl : PyStr.lower n = n).
  { apply lower_fixed. eapply Forall_impl; [|exact H]. apply blank_lower. }
  rewrite Hl, (tokens_fixed_blank V9_tokens_start H),
    (tokens_fixed_blank V8_tokens_start H).
  rewrite sub_non_alnum_class_fixed.
  - split; apply strip_blank; unfold Re.sub_spaces;
      apply Forall_sub_spaces_scan; auto using space_is_space.
  - eapply Forall_impl; [|exact H]. intros c Hc. cbv beta. rewrite Hc.
    now rewrite orb_true_r.
Qed.

Lemma X8_witness :
  Forall (fun c => PyStr.is_space c = true) (text_of_string "   ")
  /\ V9.normalize_name "   " = [] /\ V8.normalize_name "   " = [].
Proof.
  assert (H : Forall (fun c => PyStr.is_space c = true) (text_of_string "   "))
    by (repeat constructor).
  split; [exact H|]. exact (X8_blank_name_normalizes_to_empty H).
Defined.

(** ** The keyword box *)

Lemma split_comma_free (p : text) : comma_free p -> Page.split_comma p = [p].
Proof.
  induction 1 as [|c p Hc Hp IH]; [reflexivity|].
  cbn [Page.split_comma]. unfold PyStr.eqb_char.
  apply Ascii.eqb_neq in Hc. now rewrite Hc, IH.
Qed.

Lemma split_comma_app (p rest : text) :
  comma_free p ->
  Page.split_comma (p ++ ","%char :: rest) = p :: Page.split_comma rest.
Proof.
  induction 1 as [|c p Hc Hp IH]; [reflexivity|].
  cbn [app Page.split_comma]. unfold PyStr.eqb_char.
  apply Ascii.eqb_neq in Hc. now rewrite Hc, IH.
Qed.

Lemma split_comma_pieces (s : text) : Forall comma_free (Page.split_comma s).
Proof.
  induction s as [|c s IH]; [repeat constructor|].
  cbn [Page.split_comma]. unfold PyStr.eqb_char.
  destruct (Ascii.eqb c ",") eqn:E.
  - constructor; [constructor|exact IH].
  - apply Ascii.eqb_neq in E.
    destruct (Page.split_comma s) as [|p ps]; [repeat constructor; exact E|].
    inversion IH; subst. constructor; [now constructor|assumption].
Qed.

Lemma truthy_true (s : text) : PyStr.truthy s = true <-> s <> [].
Proof. destruct s; cbn; split; congruence. Qed.

Lemma lstrip_nil (s : text) : PyStr.lstrip s = [] -> blank s.
Proof.
  induction s as [|c s IH]; [constructor|].
  cbn [PyStr.lstrip]. destruct (PyStr.is_space c) eqn:E; [|discriminate].
  intros H. constructor; [exact E|exact (IH H)].
Qed.

Lemma strip_nil (s : text) : PyStr.strip s = [] <-> blank s.
Proof.
  split; [|apply strip_blank].
  unfold PyStr.strip, PyStr.rstrip. intros H.
  apply (f_equal (@rev ascii)) in H. rewrite rev_involutive in H. cbn [rev] in H.
  apply lstrip_nil in H. apply Forall_rev in H. rewrite rev_involutive in H.
  pose proof (lstrip_head s) as Hh.
  destruct (PyStr.lstrip s) as [|c r] eqn:E; [now apply lstrip_nil|].
  inversion H; subst. cbn [starts_blank] in Hh. congruence.
Qed.

Lemma lstrip_pad (pre s : text) : blank pre -> PyStr.lstrip (pre ++ s) = PyStr.lstrip s.
Proof.
  induction 1 as [|c pre Hc Hp IH]; [reflexivity|].
  cbn [app PyStr.lstrip]. now rewrite Hc.
Qed.

Lemma strip_pad (pre k post : text) :
  blank pre -> blank post -> k <> [] -> PyStr.strip k = k ->
  PyStr.strip (pre ++ k ++ post) = k.
Proof.
  intros Hpre Hpost Hne Hk.
  assert (H1 : starts_blank k = false) by (rewrite <- Hk; apply strip_head).
  assert (H2 : starts_blank (rev k) = false) by (rewrite <- Hk; apply strip_last).
  unfold PyStr.strip. rewrite (lstrip_pad _ Hpre), lstrip_fixed.
  - unfold PyStr.rstrip. rewrite rev_app_distr, lstrip_pad by now apply Forall_rev.
    rewrite (lstrip_fixed _ H2). apply rev_involutive.
  - destruct k; [congruence|exact H1].
Qed.

(** X9. Every keyword read from the keyword box is non-empty, carries no
    whitespace at its ends and holds no comma; and no keyword at all is read
    exactly when the box holds nothing but commas and whitespace. *)
Theorem X9_parsed_keywords_are_clean (keywords_input : text) :
  Forall clean_keyword (Page.parse_keywords keywords_input)
  /\ (Page.parse_keywords keywords_input = []
      <-> Forall (fun c => c = ","%char \/ PyStr.is_space c = true) keywords_input).
Proof.
  split.
  - unfold Page.parse_keywords. apply Forall_flat_map.
    eapply Forall_impl; [|apply split_comma_pieces].
    intros k Hk. destruct (PyStr.truthy (PyStr.strip k)) eqn:E; [|constructor].
    constructor; [|constructor]. split; [|split].
    + now apply truthy_true.
    + apply strip_idempotent.
    + now apply Forall_strip.
  - unfold Page.parse_keywords.
    induction keywords_input as [|c s IH]; [split; [constructor|reflexivity]|].
    cbn [Page.split_comma]. unfold PyStr.eqb_char.
    destruct (Ascii.eqb c ",") eqn:E.
    + apply Ascii.eqb_eq in E. subst c. cbn [flat_map].
      change (PyStr.truthy (PyStr.strip [])) with false. cbn [app].
      rewrite IH. split; intros H; [constructor; auto|now inversion H].
    + apply Ascii.eqb_neq in E.
      pose proof (split_comma_pieces s) as Hp.
      destruct (Page.split_comma s) as [|p ps]; cbn [flat_map] in *.
      * split; intros H.
        -- destruct (PyStr.truthy (PyStr.strip [c])) eqn:Et; [discriminate|].
           constructor; [|apply IH; reflexivity].
           right. assert (Hb : blank [c]).
           { apply strip_nil. destruct (PyStr.strip [c]); [reflexivity|discriminate]. }
           now inversion Hb.
        -- inversion H as [|? ? [Hc|Hc] Hs]; subst; [congruence|].
           rewrite (proj2 (strip_nil [c])); [reflexivity|now repeat constructor].
      * assert (Hcp : PyStr.strip (c :: p) = []
                      <-> PyStr.is_space c = true /\ PyStr.strip p = []).
        { rewrite !strip_nil. split; intros H.
          - now inversion H.
          - destruct H. now constructor. }
        split; intros H.
        -- apply app_eq_nil in H. destruct H as [H1 H2].
           assert (Hs : PyStr.strip (c :: p) = []).
           { destruct (PyStr.strip (c :: p)); [reflexivity|discriminate]. }
           apply Hcp in Hs. destruct Hs as [Hc Hs].
           constructor; [now right|]. apply IH. now rewrite Hs, H2.
        -- inversion H as [|? ? [Hc|Hc] Hs]; subst; [congruence|].
           apply IH in Hs. apply app_eq_nil in Hs. destruct Hs as [H1 H2].
           assert (Hs : PyStr.strip p = []).
           { destruct (PyStr.strip p); [reflexivity|discriminate]. }
           rewrite (proj2 Hcp (conj Hc Hs)), H2. reflexivity.
Qed.

Lemma parse_keywords_piece (p rest : text) :
  comma_free p ->
  Page.parse_keywords (p ++ ","%char :: rest)
  = (if PyStr.truthy (PyStr.strip p) then [PyStr.strip p] else [])
    ++ Page.parse_keywords rest.
Proof.
  intros H. unfold Page.parse_keywords. now rewrite (split_comma_app _ H).
Qed.

Lemma blank_comma_free (s : text) : blank s -> comma_free s.
Proof.
  intros H. eapply Forall_impl; [|exact H].
  intros c Hc ->. discriminate.
Qed.

(** X10. Round trip through the keyword box: clean keywords joined by
    commas, with any whitespace around the commas and at the two ends of the
    box, are read back exactly, in order and with their repetitions. *)
Theorem X10_keywords_round_trip (pad1 pad2 pre post : text) (ks : list text) :
  blank pad1 -> blank pad2 -> blank pre -> blank post ->
  Forall clean_keyword ks ->
  Page.parse_keywords (pre ++ PyStr.join (pad1 ++ ","%char :: pad2) ks ++ post) = ks.
Proof.
  intros H1 H2 Hpre Hpost Hks. revert pre Hpre.
  induction Hks as [|k ks (Hne & Hk & Hc) Hks IH]; intros pre Hpre.
  - cbn [PyStr.join app]. unfold Page.parse_keywords.
    rewrite split_comma_free by (apply blank_comma_free, Forall_app; auto).
    cbn [flat_map]. rewrite (proj2 (strip_nil _)) by (apply Forall_app; auto).
    reflexivity.
  - destruct ks as [|k2 ks].
    + cbn [PyStr.join]. unfold Page.parse_keywords.
      rewrite split_comma_free.
      * cbn [flat_map]. rewrite (strip_pad Hpre Hpost Hne Hk).
        rewrite (proj2 (truthy_true k) Hne). reflexivity.
      * apply Forall_app. split; [now apply blank_comma_free|].
        apply Forall_app. split; [exact Hc|now apply blank_comma_free].
    + change (PyStr.join (pad1 ++ ","%char :: pad2) (k :: k2 :: ks))
        with (k ++ (pad1 ++ ","%char :: pad2)
                ++ PyStr.join (pad1 ++ ","%char :: pad2) (k2 :: ks)).
      replace (pre ++ (k ++ (pad1 ++ ","%char :: pad2)
                 ++ PyStr.join (pad1 ++ ","%char :: pad2) (k2 :: ks)) ++ post)
        with ((pre ++ k ++ pad1) ++ ","%char
                :: (pad2 ++ PyStr.join (pad1 ++ ","%char :: pad2) (k2 :: ks) ++ post))
        by (rewrite <- ?app_assoc; cbn [app]; rewrite <- ?app_assoc; reflexivity).
      rewrite parse_keywords_piece.
      * rewrite (strip_pad Hpre H1 Hne Hk), (proj2 (truthy_true k) Hne).
        cbn [app]. f_equal. now apply IH.
      * apply Forall_app. split; [now apply blank_comma_free|].
        apply Forall_app. split; [exact Hc|now apply blank_comma_free].
Qed.


Lemma X10_witness :
  blank (text_of_string " ")
  /\ Forall clean_keyword (texts ["fraud"; "tax evasion"; "bribery"])
  /\ Page.parse_keywords "fraud , tax evasion , bribery "
     = texts ["fraud"; "tax evasion"; "bribery"].
Proof.
  assert (Hb : blank (text_of_string " ")) by (repeat constructor).
  assert (Hn : blank []) by constructor.
  assert (Hk : Forall clean_keyword (texts ["fraud"; "tax evasion"; "bribery"])).
  { repeat constructor; try discriminate;
      repeat (constructor; try discriminate). }
  split; [exact Hb|]. split; [exact Hk|].
  exact (@X10_keywords_round_trip " " " " [] " " _ Hb Hb Hn Hb Hk).
Defined.

(** ** The order of the rows on the page *)

Lemma str_ltb_nil (a : text) : Page.str_ltb a [] = false.
Proof. now destruct a. Qed.

Lemma str_ltb_irrefl (a : text) : Page.str_ltb a a = false.
Proof.
  induction a as [|x a IH]; [reflexivity|].
  cbn [Page.str_ltb]. now rewrite N.ltb_irrefl.
Qed.

Lemma str_ltb_asym (a b : text) : Page.str_ltb a b = true -> Page.str_ltb b a = false.
Proof.
  revert b. induction a as [|x a IH]; intros [|y b] H; try reflexivity;
    [discriminate|].
  cbn [Page.str_ltb] in *.
  destruct (N.ltb_spec (PyStr.code x) (PyStr.code y));
    destruct (N.ltb_spec (PyStr.code y) (PyStr.code x));
    try lia; try discriminate; auto.
Qed.

Lemma str_ltb_negtrans (a b c : text) :
  Page.str_ltb b a = false -> Page.str_ltb c b = false -> Page.str_ltb c a = false.
Proof.
  revert b c. induction a as [|x a IH]; intros b c H1 H2; [apply str_ltb_nil|].
  destruct b as [|y b]; [discriminate|].
  destruct c as [|z c]; [discriminate|].
  cbn [Page.str_ltb] in *.
  destruct (N.ltb_spec (PyStr.code y) (PyStr.code x)); [discriminate|].
  destruct (N.ltb_spec (PyStr.code z) (PyStr.code y)); [discriminate|].
  destruct (N.ltb_spec (PyStr.code z) (PyStr.code x)); [lia|].
  destruct (N.ltb_spec (PyStr.code x) (PyStr.code z)); [reflexivity|].
  destruct (N.ltb_spec (PyStr.code x) (PyStr.code y)); [lia|].
  destruct (N.ltb_spec (PyStr.code y) (PyStr.code z)); [lia|].
  eauto.
Qed.

Lemma str_eqb_eq (a b : text) : PyStr.eqb a b = true <-> a = b.
Proof. apply text_eqb_eq. Qed.

Lemma StronglySorted_app (A : Type) (R : A -> A -> Prop) (l1 l2 : list A) :
  StronglySorted R l1 -> StronglySorted R l2 ->
  (forall x y, In x l1 -> In y l2 -> R x y) ->
  StronglySorted R (l1 ++ l2).
Proof.
  intros H1 H2 H. induction H1 as [|x l1 H1 IH Hx]; [exact H2|].
  cbn [app]. constructor.
  - apply IH. intros a b Ha Hb. apply H; [now right|exact Hb].
  - apply Forall_app. split; [exact Hx|].
    apply Forall_forall. intros y Hy. apply H; [now left|exact Hy].
Qed.

Lemma StronglySorted_rev (A : Type) (R : A -> A -> Prop) (l : list A) :
  StronglySorted R l -> StronglySorted (fun x y => R y x) (rev l).
Proof.
  induction 1 as [|x l Hl IH Hx]; [constructor|].
  cbn [rev]. apply StronglySorted_app; [exact IH|repeat constructor|].
  intros a b Ha [<-|[]]. apply In_rev in Ha.
  rewrite Forall_forall in Hx. now apply Hx.
Qed.

Section ReverseSort.

Variables (A K : Type) (ltb : K -> K -> bool) (key : A -> K).

Lemma sort_reverse_perm (l : list A) : Permutation (Page.sort_reverse ltb key l) l.
Proof.
  unfold Page.sort_reverse.
  apply perm_trans with (Py.sorted ltb key (rev l)).
  - apply Permutation_sym, Permutation_rev.
  - apply perm_trans with (rev l); [apply sorted_perm|].
    apply Permutation_sym, Permutation_rev.
Qed.

Lemma sort_reverse_filter (p : A -> bool) (l : list A) :
  (forall a b, p a = true -> p b = true -> ltb (key a) (key b) = false) ->
  filter p (Page.sort_reverse ltb key l) = filter p l.
Proof.
  intros H. unfold Page.sort_reverse.
  now rewrite filter_rev, sorted_filter, filter_rev, rev_involutive.
Qed.

Lemma sort_reverse_sorted (l : list A) :
  (forall a b, ltb a b = true -> ltb b a = false) ->
  (forall a b c, ltb b a = false -> ltb c b = false -> ltb c a = false) ->
  StronglySorted (fun x y => ltb (key x) (key y) = false) (Page.sort_reverse ltb key l).
Proof.
  intros H1 H2. unfold Page.sort_reverse.
  apply (StronglySorted_rev (R := fun x y => ltb (key y) (key x) = false)).
  apply sorted_sorted; assumption.
Qed.

End ReverseSort.

Lemma sorted_by_text_ascending (key : result -> text) (results : list result) :
  sorted_by_text false key results (Py.sorted Page.str_ltb key results).
Proof.
  split; [apply sorted_perm|]. split.
  - apply sorted_sorted; [apply str_ltb_asym|apply str_ltb_negtrans].
  - intros k. apply sorted_filter. intros a b Ha Hb.
    apply str_eqb_eq in Ha, Hb. rewrite Ha, Hb. apply str_ltb_irrefl.
Qed.

Lemma sorted_by_text_descending (key : result -> text) (results : list result) :
  sorted_by_text true key results (Page.sort_reverse Page.str_ltb key results).
Proof.
  split; [apply sort_reverse_perm|]. split.
  - apply sort_reverse_sorted; [apply str_ltb_asym|apply str_ltb_negtrans].
  - intros k. apply sort_reverse_filter. intros a b Ha Hb.
    apply str_eqb_eq in Ha, Hb. rewrite Ha, Hb. apply str_ltb_irrefl.
Qed.

(** X11. The three orders every variant offers.  [Newest First] lists the
    rows by descending date string, [Oldest First] by ascending date string
    and [Source (A-Z)] by ascending lowercased source; each keeps exactly the
    rows it was given, and rows with equal keys keep the order in which
    [search_all] returned them.  The chain of [V9] agrees with the chain of
    the other variants on the three options. *)
Theorem X11_date_and_source_orders (results : list result) :
  sorted_by_text true date results (Page.sort_results "Newest First" results)
  /\ sorted_by_text false date results (Page.sort_results "Oldest First" results)
  /\ sorted_by_text false (fun r => PyStr.lower (source r)) results
       (Page.sort_results "Source (A-Z)" results)
  /\ Page.sort_results_v9 "Newest First" results
     = Page.sort_results "Newest First" results
  /\ Page.sort_results_v9 "Oldest First" results
     = Page.sort_results "Oldest First" results
  /\ Page.sort_results_v9 "Source (A-Z)" results
     = Page.sort_results "Source (A-Z)" results.
Proof.
  assert (E1 : Page.sort_results "Newest First" results
               = Page.sort_reverse Page.str_ltb date results) by reflexivity.
  assert (E2 : Page.sort_results "Oldest First" results
               = Py.sorted Page.str_ltb date results) by reflexivity.
  assert (E3 : Page.sort_results "Source (A-Z)" results
               = Py.sorted Page.str_ltb (fun r => PyStr.lower (source r)) results)
    by reflexivity.
  rewrite E1, E2, E3.
  split; [apply sorted_by_text_descending|].
  split; [apply sorted_by_text_ascending|].
  split; [apply sorted_by_text_ascending|].
  repeat split.
Qed.

Lemma sorted_Forall (A K : Type) (ltb : K -> K -> bool) (key : A -> K)
  (P : A -> Prop) (l : list A) :
  Forall P l -> Forall P (Py.sorted ltb key l).
Proof.
  induction 1 as [|x l Hx Hl IH]; [constructor|].
  cbn [Py.sorted fold_right]. now apply insert_Forall.
Qed.

Lemma sorted_unordered (A K : Type) (ltb : K -> K -> bool) (key : A -> K) (l : list A) :
  (forall x y, In x l -> In y l -> ltb (key y) (key x) = false) ->
  Py.sorted ltb key l = l.
Proof.
  induction l as [|x l IH]; intros H; [reflexivity|].
  cbn [Py.sorted fold_right]. fold (Py.sorted ltb key l).
  rewrite IH by (intros a b Ha Hb; apply H; now right).
  destruct l as [|y l]; [reflexivity|].
  cbn [Py.insert]. rewrite H; [reflexivity|now left|right; now left].
Qed.

Lemma filter_Forall (A : Type) (p : A -> bool) (l : list A) :
  Forall (fun x => p x = true) (filter p l).
Proof. apply Forall_forall. intros x Hx. now apply filter_In in Hx. Qed.

Lemma sanctions_first_key_ltb (y x : result) :
  Page.tuple_ltb (Page.sanctions_first_key y) (Page.sanctions_first_key x)
  = match is_sanctions_row y, is_sanctions_row x with
    | true, false => true
    | false, true => false
    | _, _ => Page.str_ltb (date y) (date x)
    end.
Proof.
  unfold Page.tuple_ltb, Page.sanctions_first_key, is_sanctions_row. cbn [fst snd].
  now destruct (PyStr.eqb (source y) _), (PyStr.eqb (source x) _).
Qed.

Lemma insert_among_news (x : result) (B : list result) :
  is_sanctions_row x = false ->
  Forall (fun r => is_sanctions_row r = false) B ->
  Py.insert Page.tuple_ltb Page.sanctions_first_key x B
  = Py.insert Page.str_ltb date x B.
Proof.
  intros Hx HB. induction HB as [|y B Hy HB IH]; [reflexivity|].
  cbn [Py.insert]. rewrite sanctions_first_key_ltb, Hx, Hy. now rewrite IH.
Qed.

Lemma insert_news_row (x : result) (A B : list result) :
  is_sanctions_row x = false ->
  Forall (fun r => is_sanctions_row r = true) A ->
  Forall (fun r => is_sanctions_row r = false) B ->
  Py.insert Page.tuple_ltb Page.sanctions_first_key x (A ++ B)
  = A ++ Py.insert Page.str_ltb date x B.
Proof.
  intros Hx HA HB. induction HA as [|y A Hy HA IH].
  - now apply insert_among_news.
  - cbn [app Py.insert]. rewrite sanctions_first_key_ltb, Hx, Hy. now rewrite IH.
Qed.

Lemma insert_sanctions_row (x : result) (A B : list result) :
  is_sanctions_row x = true ->
  Forall (fun r => is_sanctions_row r = true) A ->
  Forall (fun r => is_sanctions_row r = false) B ->
  Py.insert Page.tuple_ltb Page.sanctions_first_key x (A ++ B)
  = Py.insert Page.str_ltb date x A ++ B.
Proof.
  intros Hx HA HB. induction HA as [|y A Hy HA IH].
  - destruct HB as [|y B Hy HB]; [reflexivity|].
    cbn [app Py.insert]. now rewrite sanctions_first_key_ltb, Hx, Hy.
  - cbn [app Py.insert]. rewrite sanctions_first_key_ltb, Hx, Hy, IH.
    now destruct (Page.str_ltb (date y) (date x)).
Qed.

Lemma found_news_filter (results : list result) :
  Forall (fun r => is_sanctions_row r = false) (Page.found_news results).
Proof.
  apply Forall_forall. intros x Hx. apply filter_In in Hx.
  now apply negb_true_iff.
Qed.

Lemma sanctions_first_split (results : list result) :
  Py.sorted Page.tuple_ltb Page.sanctions_first_key results
  = Py.sorted Page.str_ltb date (filter is_sanctions_row results)
    ++ Py.sorted Page.str_ltb date (Page.found_news results).
Proof.
  induction results as [|x l IH]; [reflexivity|].
  cbn [Py.sorted fold_right]. fold (Py.sorted Page.tuple_ltb Page.sanctions_first_key l).
  rewrite IH. unfold Page.found_news. cbn [filter].
  fold (is_sanctions_row x). fold (Page.found_news l).
  destruct (is_sanctions_row x) eqn:E; cbn [negb].
  - apply insert_sanctions_row; [exact E| |].
    + apply sorted_Forall, filter_Forall.
    + apply sorted_Forall, found_news_filter.
  - apply insert_news_row; [exact E| |].
    + apply sorted_Forall, filter_Forall.
    + apply sorted_Forall, found_news_filter.
Qed.

Lemma sanctions_first_chain (results : list result) :
  Page.sort_results_v9 "Sanctions First" results
  = Py.sorted Page.str_ltb date (filter is_sanctions_row results)
    ++ Py.sorted Page.str_ltb date (Page.found_news results).
Proof.
  assert (E : Page.sort_results_v9 "Sanctions First" results
              = Py.sorted Page.tuple_ltb Page.sanctions_first_key results)
    by reflexivity.
  rewrite E. apply sanctions_first_split.
Qed.

(** X12. [Sanctions First], the default order of [V9], lists every row
    derived from the sanctions lists before every news row; inside each of
    the two groups the rows stand by ascending date string, rows of equal
    date in the order [search_all] returned them. *)
Theorem X12_sanctions_first_order (results : list result) :
  Page.sort_results_v9 "Sanctions First" results
  = Py.sorted Page.str_ltb date (filter is_sanctions_row results)
    ++ Py.sorted Page.str_ltb date (Page.found_news results).
Proof. apply sanctions_first_chain. Qed.

Lemma V9_news_rows_not_sanctions (e : env) (hs : bool) (l : list article) :
  Forall (fun a => PyStr.eqb (art_source a) "SanctionsLists" = false) l ->
  Forall (fun r => is_sanctions_row r = false) (flat_map (V9.classify_article e hs) l).
Proof.
  intros H. apply Forall_flat_map. eapply Forall_impl; [|exact H].
  intros a Ha. destruct (V9_classify_article_row e hs a) as [E|(r & E & Hr)];
    rewrite E; [constructor|].
  constructor; [|constructor]. unfold is_sanctions_row.
  unfold copied_fields, article_fields in Hr. injection Hr as Hs _ _.
  rewrite Hs. exact Ha.
Qed.

Lemma filter_all (A : Type) (p : A -> bool) (l : list A) :
  Forall (fun x => p x = true) l -> filter p l = l.
Proof.
  induction 1 as [|x l Hx Hl IH]; [reflexivity|]. cbn [filter]. now rewrite Hx, IH.
Qed.

Lemma filter_none (A : Type) (p : A -> bool) (l : list A) :
  Forall (fun x => p x = false) l -> filter p l = [].
Proof.
  induction 1 as [|x l Hx Hl IH]; [reflexivity|]. cbn [filter]. now rewrite Hx, IH.
Qed.

Lemma found_news_app (a b : list result) :
  Page.found_news (a ++ b) = Page.found_news a ++ Page.found_news b.
Proof. apply filter_app. Qed.

Lemma found_news_all (l : list result) :
  Forall (fun r => is_sanctions_row r = false) l -> Page.found_news l = l.
Proof.
  intros H. apply filter_all. eapply Forall_impl; [|exact H].
  intros r Hr. unfold is_sanctions_row in Hr. now rewrite Hr.
Qed.

Lemma found_news_none (l : list result) :
  Forall (fun r => is_sanctions_row r = true) l -> Page.found_news l = [].
Proof.
  intros H. apply filter_none. eapply Forall_impl; [|exact H].
  intros r Hr. unfold is_sanctions_row in Hr. now rewrite Hr.
Qed.

(** X13. With the default order of [V9] on the rows of [search_all], for a
    name that is not blank and news sources that do not call themselves
    [SanctionsLists]: the page opens with the sanctions matches exactly as
    the matcher ranked them, followed by the news rows by ascending date
    string; the news listing and the export hold the news rows alone. *)
Theorem X13_v9_default_page_order (e : env) (name : text) (extra_keywords : list text)
  (from_date to_date : text) (high_severity : bool) :
  PyStr.truthy (PyStr.strip name) = true ->
  Forall (fun a => PyStr.eqb (art_source a) "SanctionsLists" = false)
    (V9.articles e name from_date to_date) ->
  Page.sort_results_v9 "Sanctions First"
    (V9.search_all e name extra_keywords from_date to_date high_severity)
  = V9.sanctions_stage e name
    ++ Py.sorted Page.str_ltb date (V9.news_stage e name from_date to_date high_severity)
  /\ Page.found_news
       (Page.sort_results_v9 "Sanctions First"
          (V9.search_all e name extra_keywords from_date to_date high_severity))
     = Py.sorted Page.str_ltb date (V9.news_stage e name from_date to_date high_severity).
Proof.
  intros Hname Hsrc.
  assert (Hn : PyStr.truthy name = true) by (destruct name; [discriminate|reflexivity]).
  assert (Hsan : Forall (fun r => is_sanctions_row r = true) (V9.sanctions_stage e name)).
  { unfold V9.sanctions_stage. apply Forall_forall. intros r Hr.
    apply in_map_iff in Hr. destruct Hr as (m & <- & _). reflexivity. }
  assert (Hnews : Forall (fun r => is_sanctions_row r = false)
                    (V9.news_stage e name from_date to_date high_severity))
    by (apply V9_news_rows_not_sanctions, Hsrc).
  assert (Hnews' : Forall (fun r => negb (is_sanctions_row r) = true)
                     (V9.news_stage e name from_date to_date high_severity)).
  { eapply Forall_impl; [|exact Hnews]. intros r Hr. cbv beta. now rewrite Hr. }
  assert (Hsan' : Forall (fun r => negb (is_sanctions_row r) = false)
                    (V9.sanctions_stage e name)).
  { eapply Forall_impl; [|exact Hsan]. intros r Hr. cbv beta. now rewrite Hr. }
  assert (E : Page.sort_results_v9 "Sanctions First"
                (V9.search_all e name extra_keywords from_date to_date high_severity)
              = V9.sanctions_stage e name
                ++ Py.sorted Page.str_ltb date
                     (V9.news_stage e name from_date to_date high_severity)).
  { rewrite sanctions_first_chain. unfold V9.search_all.
    rewrite Hn, Hname. cbn [negb orb].
    rewrite found_news_app, filter_app, (filter_all _ Hsan), (filter_none _ Hnews),
      (found_news_none Hsan), (found_news_all Hnews), app_nil_r. cbn [app].
    f_equal. apply sorted_unordered. intros x y Hx Hy.
    unfold V9.sanctions_stage in Hx, Hy.
    apply in_map_iff in Hx, Hy. destruct Hx as (? & <- & _), Hy as (? & <- & _).
    reflexivity. }
  split; [exact E|].
  rewrite E, found_news_app, (found_news_none Hsan). cbn [app].
  apply found_news_all, sorted_Forall. exact Hnews.
Qed.

Lemma X13_witness :
  PyStr.truthy (PyStr.strip "Acme Ltd") = true
  /\ Forall (fun a => PyStr.eqb (art_source a) "SanctionsLists" = false)
       (V9.articles example_env "Acme Ltd" "2017-01-01" "2024-01-01")
  /\ Page.sort_results_v9 "Sanctions First"
       (V9.search_all example_env "Acme Ltd" [] "2017-01-01" "2024-01-01" false)
     = V9.sanctions_stage example_env "Acme Ltd"
       ++ Py.sorted Page.str_ltb date
            (V9.news_stage example_env "Acme Ltd" "2017-01-01" "2024-01-01" false)
  /\ Page.found_news
       (Page.sort_results_v9 "Sanctions First"
          (V9.search_all example_env "Acme Ltd" [] "2017-01-01" "2024-01-01" false))
     = Py.sorted Page.str_ltb date
         (V9.news_stage example_env "Acme Ltd" "2017-01-01" "2024-01-01" false).
Proof.
  assert (H1 : PyStr.truthy (PyStr.strip "Acme Ltd") = true) by reflexivity.
  assert (H2 : Forall (fun a => PyStr.eqb (art_source a) "SanctionsLists" = false)
                 (V9.articles example_env "Acme Ltd" "2017-01-01" "2024-01-01"))
    by (repeat constructor).
  split; [exact H1|]. split; [exact H2|].
  exact (@X13_v9_default_page_order example_env "Acme Ltd" [] "2017-01-01" "2024-01-01"
           false H1 H2).
Defined.

(** ** The paginated fetcher *)

Section Pages.

Local Open Scope nat_scope.

Variable get : nat -> nat -> OpenSanctions.page.
Variables limit max_items : nat.

Lemma pages_loop_turns (turns extra offset : nat) (names : list OpenSanctions.json) :
  0 < limit -> max_items - offset < turns ->
  OpenSanctions.pages_loop get limit max_items (turns + extra) offset names
  = OpenSanctions.pages_loop get limit max_items turns offset names
  /\ OpenSanctions.pages_loop get limit max_items turns offset names
     <> OpenSanctions.StillRunning.
Proof.
  intros Hl. revert offset names.
  induction turns as [|turns IH]; intros offset names Ht; [lia|].
  cbn [Nat.add OpenSanctions.pages_loop].
  destruct (get limit offset) as [| |results]; try (split; [reflexivity|discriminate]).
  destruct (negb (length results =? 0)); [|split; [reflexivity|discriminate]].
  destruct (max_items <=? offset + limit) eqn:E; [split; [reflexivity|discriminate]|].
  apply Nat.leb_gt in E. apply IH. lia.
Qed.

Lemma pages_loop_reaches (offset : nat) (names : list OpenSanctions.json) :
  0 < limit ->
  reaches get limit max_items offset names ->
  exists turns,
    OpenSanctions.pages_loop get limit max_items (S max_items) 0 []
    = OpenSanctions.pages_loop get limit max_items (S turns) offset names
    /\ max_items - offset < S turns.
Proof.
  intros Hl H. induction H as [|offset names results H IH Hget Hne Hlt].
  - exists max_items. split; [reflexivity|lia].
  - destruct IH as (turns & E & Ht).
    destruct turns as [|turns]; [lia|].
    exists turns. split; [|lia].
    rewrite E. cbn [OpenSanctions.pages_loop]. rewrite Hget.
    destruct results as [|r results]; [congruence|].
    cbn [length Nat.eqb negb].
    apply Nat.leb_gt in Hlt. now rewrite Hlt.
Qed.

Lemma pages_loop_ext (get' : nat -> nat -> OpenSanctions.page)
  (turns k : nat) (names : list OpenSanctions.json) :
  (forall i, i = 0 \/ i * limit < max_items -> get limit (i * limit) = get' limit (i * limit)) ->
  k = 0 \/ k * limit < max_items ->
  OpenSanctions.pages_loop get limit max_items turns (k * limit) names
  = OpenSanctions.pages_loop get' limit max_items turns (k * limit) names.
Proof.
  intros H. revert k names. induction turns as [|turns IH]; intros k names Hk;
    [reflexivity|].
  cbn [OpenSanctions.pages_loop]. rewrite <- (H k Hk).
  destruct (get limit (k * limit)) as [| |results]; try reflexivity.
  destruct (negb (length results =? 0)); [|reflexivity].
  destruct (max_items <=? k * limit + limit) eqn:E; [reflexivity|].
  apply Nat.leb_gt in E.
  replace (k * limit + limit) with (S k * limit) in * by lia.
  apply IH. now right.
Qed.

(** Only values that count as true are appended. *)
Lemma reaches_truthy (offset : nat) (names : list OpenSanctions.json) :
  reaches get limit max_items offset names ->
  Forall (fun nm => OpenSanctions.truthy_value nm = true) names.
Proof.
  induction 1 as [|offset names results H IH Hget Hne Hlt]; [constructor|].
  apply Forall_app. split; [exact IH|].
  unfold OpenSanctions.named. apply Forall_forall. intros nm Hin.
  now apply filter_In in Hin.
Qed.

End Pages.

Lemma filter_truthy_value (names : list OpenSanctions.json) :
  Forall (fun nm => OpenSanctions.truthy_value nm = true) names ->
  filter OpenSanctions.truthy_value names = names.
Proof.
  induction 1 as [|nm names H Hs IH]; [reflexivity|].
  cbn [filter]. now rewrite H, IH.
Qed.

Lemma forallb_hashable (names : list OpenSanctions.json) :
  (forallb OpenSanctions.hashable names = true
   <-> Forall (fun nm => OpenSanctions.hashable nm = true) names)
  /\ (forallb OpenSanctions.hashable names = false
      <-> Exists (fun nm => OpenSanctions.hashable nm = false) names).
Proof.
  induction names as [|nm names [IH1 IH2]].
  - split; split; try reflexivity; try constructor; try discriminate.
    intros H. inversion H.
  - cbn [forallb]. destruct (OpenSanctions.hashable nm) eqn:E; cbn [andb]; split; split.
    + intros H. constructor; [exact E|now apply IH1].
    + intros H. inversion H; subst. now apply IH1.
    + intros H. apply Exists_cons_tl. now apply IH2.
    + intros H. inversion H; subst; [congruence|now apply IH2].
    + discriminate.
    + intros H. inversion H; subst. congruence.
    + intros _. now apply Exists_cons_hd.
    + reflexivity.
Qed.

(** The value of the last two lines of [fetch_opensanctions_all] for names
    that all count as true. *)
Lemma distinct_finished (order : list OpenSanctions.json -> list OpenSanctions.json)
  (names : list OpenSanctions.json) :
  Forall (fun nm => OpenSanctions.truthy_value nm = true) names ->
  finished order names
    (match OpenSanctions.distinct order names with
     | Some l => Some l
     | None => Some []
     end).
Proof.
  intros Ht. unfold OpenSanctions.distinct. cbv zeta.
  rewrite (filter_truthy_value Ht).
  destruct (forallb_hashable names) as [H1 H2].
  destruct (forallb OpenSanctions.hashable names) eqn:E; split; intros H.
  - reflexivity.
  - apply H2 in H. discriminate.
  - apply H1 in H. discriminate.
  - reflexivity.
Qed.

(** X14. With a positive [limit] the loop of [fetch_opensanctions_all]
    comes to an end whatever the server answers: [max_items + 1] turns
    always suffice, and further turns change nothing. *)
Theorem X14_paging_ends (order : list OpenSanctions.json -> list OpenSanctions.json)
  (get : nat -> nat -> OpenSanctions.page) (limit max_items : nat) :
  (0 < limit)%nat ->
  OpenSanctions.fetch_opensanctions_all order get limit max_items <> None
  /\ forall extra : nat,
       OpenSanctions.pages_loop get limit max_items (S max_items + extra) 0 []
       = OpenSanctions.pages_loop get limit max_items (S max_items) 0 [].
Proof.
  intros Hl.
  assert (Ht : (max_items - 0 < S max_items)%nat) by lia.
  split.
  - unfold OpenSanctions.fetch_opensanctions_all.
    destruct (@pages_loop_turns get limit max_items (S max_items) 0 0 [] Hl Ht)
      as [_ H].
    destruct (OpenSanctions.pages_loop get limit max_items (S max_items) 0 []);
      [congruence|discriminate|].
    destruct (OpenSanctions.distinct order names); discriminate.
  - intros extra.
    apply (@pages_loop_turns get limit max_items (S max_items) extra 0 [] Hl Ht).
Qed.

Lemma X14_witness :
  (0 < 1000)%nat
  /\ OpenSanctions.fetch_opensanctions_all (fun names => names)
       (fun _ _ => OpenSanctions.Results [OpenSanctions.JString "Gazprom"]) 1000 3000
     <> None
  /\ forall extra : nat,
       OpenSanctions.pages_loop
         (fun _ _ => OpenSanctions.Results [OpenSanctions.JString "Gazprom"])
         1000 3000 (S 3000 + extra) 0 []
       = OpenSanctions.pages_loop
           (fun _ _ => OpenSanctions.Results [OpenSanctions.JString "Gazprom"])
           1000 3000 (S 3000) 0 [].
Proof.
  assert (H : (0 < 1000)%nat) by lia.
  split; [exact H|].
  exact (@X14_paging_ends (fun names => names)
           (fun _ _ => OpenSanctions.Results [OpenSanctions.JString "Gazprom"])
           1000 3000 H).
Defined.

(** X15. With [limit = 0] and a positive [max_items] the offset never
    moves: if the first page holds a result, the loop asks for that page
    again and again and [fetch_opensanctions_all] does not return. *)
Theorem X15_zero_limit_never_returns
  (order : list OpenSanctions.json -> list OpenSanctions.json)
  (get : nat -> nat -> OpenSanctions.page)
  (max_items : nat) (results : list OpenSanctions.json) :
  (0 < max_items)%nat ->
  get 0%nat 0%nat = OpenSanctions.Results results ->
  results <> [] ->
  (forall (turns : nat) (names : list OpenSanctions.json),
      OpenSanctions.pages_loop get 0 max_items turns 0 names
      = OpenSanctions.StillRunning)
  /\ OpenSanctions.fetch_opensanctions_all order get 0 max_items = None.
Proof.
  intros Hm Hget Hne.
  assert (H : forall (turns : nat) (names : list OpenSanctions.json),
             OpenSanctions.pages_loop get 0 max_items turns 0 names
             = OpenSanctions.StillRunning).
  { induction turns as [|turns IH]; intros names; [reflexivity|].
    cbn [OpenSanctions.pages_loop]. rewrite Hget.
    destruct results as [|r results]; [congruence|].
    cbn [length Nat.eqb negb Nat.add].
    destruct (max_items <=? 0)%nat eqn:E; [apply Nat.leb_le in E; lia|].
    apply IH. }
  split; [exact H|].
  unfold OpenSanctions.fetch_opensanctions_all. now rewrite H.
Qed.

Lemma X15_witness :
  (0 < 3000)%nat
  /\ (forall (turns : nat) (names : list OpenSanctions.json),
         OpenSanctions.pages_loop
           (fun _ _ => OpenSanctions.Results [OpenSanctions.JString "Gazprom"])
           0 3000 turns 0 names
         = OpenSanctions.StillRunning)
  /\ OpenSanctions.fetch_opensanctions_all (fun names => names)
       (fun _ _ => OpenSanctions.Results [OpenSanctions.JString "Gazprom"]) 0 3000
     = None.
Proof.
  assert (H : (0 < 3000)%nat) by lia.
  split; [exact H|].
  apply (@X15_zero_limit_never_returns (fun names => names)
           (fun _ _ => OpenSanctions.Results [OpenSanctions.JString "Gazprom"])
           3000 [OpenSanctions.JString "Gazprom"] H eq_refl).
  discriminate.
Defined.

(** X16. What [fetch_opensanctions_all] returns, read off the turn at
    which the loop stops.  The loop has reached an offset with the names of
    all earlier pages appended; a name is any value of the answer that
    counts as true, a string, a number or a list.  If the request there
    raises, the function returns the empty list: the names of the earlier
    pages are lost.  If the answer is refused or holds no result, the loop is
    left with the names collected so far; if the page holds results and the
    next offset reaches [max_items], its names are the last ones added.
    Once the loop is left the names are put in a set: when each of them can
    be hashed the function returns them as [order] lists the set, and when
    one of them is a list or a dict the TypeError is caught like any other
    exception and the function returns the empty list. *)
Theorem X16_paging_result (order : list OpenSanctions.json -> list OpenSanctions.json)
  (get : nat -> nat -> OpenSanctions.page)
  (limit max_items offset : nat) (names : list OpenSanctions.json) :
  (0 < limit)%nat ->
  reaches get limit max_items offset names ->
  Forall (fun nm => OpenSanctions.truthy_value nm = true) names
  /\ match get limit offset with
     | OpenSanctions.Raises =>
         OpenSanctions.fetch_opensanctions_all order get limit max_items = Some []
     | OpenSanctions.Refused =>
         finished order names
           (OpenSanctions.fetch_opensanctions_all order get limit max_items)
     | OpenSanctions.Results [] =>
         finished order names
           (OpenSanctions.fetch_opensanctions_all order get limit max_items)
     | OpenSanctions.Results results =>
         (max_items <= offset + limit)%nat ->
         finished order (names ++ filter OpenSanctions.truthy_value results)
           (OpenSanctions.fetch_opensanctions_all order get limit max_items)
     end.
Proof.
  intros Hl H.
  pose proof (reaches_truthy H) as Ht.
  split; [exact Ht|].
  destruct (pages_loop_reaches Hl H) as (turns & E & _).
  unfold OpenSanctions.fetch_opensanctions_all. rewrite E.
  cbn [OpenSanctions.pages_loop].
  destruct (get limit offset) as [| |results]; [reflexivity| |].
  - now apply distinct_finished.
  - destruct results as [|r results]; [now apply distinct_finished|].
    cbn [length Nat.eqb negb]. intros Hm.
    apply Nat.leb_le in Hm. rewrite Hm.
    apply distinct_finished. apply Forall_app. split; [exact Ht|].
    apply Forall_forall. intros nm Hin. now apply filter_In in Hin.
Qed.

Lemma X16_witness :
  (0 < 1000)%nat
  /\ reaches
       (fun _ offset =>
          if (offset =? 0)%nat
          then OpenSanctions.Results
                 [OpenSanctions.JArray [OpenSanctions.JString "Gazprom"];
                  OpenSanctions.JNull]
          else OpenSanctions.Refused)
       1000 3000 1000 [OpenSanctions.JArray [OpenSanctions.JString "Gazprom"]]
  /\ OpenSanctions.fetch_opensanctions_all (fun names => names)
       (fun _ offset =>
          if (offset =? 0)%nat
          then OpenSanctions.Results
                 [OpenSanctions.JArray [OpenSanctions.JString "Gazprom"];
                  OpenSanctions.JNull]
          else OpenSanctions.Refused)
       1000 3000
     = Some [].
Proof.
  assert (H : (0 < 1000)%nat) by lia.
  assert (R : reaches
                (fun _ offset =>
                   if (offset =? 0)%nat
                   then OpenSanctions.Results
                          [OpenSanctions.JArray [OpenSanctions.JString "Gazprom"];
                           OpenSanctions.JNull]
                   else OpenSanctions.Refused)
                1000 3000 1000
                [OpenSanctions.JArray [OpenSanctions.JString "Gazprom"]]).
  { apply (@reaches_next _ 1000 3000 0 []
             [OpenSanctions.JArray [OpenSanctions.JString "Gazprom"];
              OpenSanctions.JNull]).
    - constructor.
    - reflexivity.
    - discriminate.
    - lia. }
  split; [exact H|]. split; [exact R|].
  apply (proj2 (@X16_paging_result (fun names => names) _ 1000 3000 1000 _ H R)).
  apply Exists_cons_hd. reflexivity.
Defined.

(** X17. [fetch_opensanctions_all] looks at the pages at the offsets [0],
    [limit], [2 * limit], ... below [max_items] and at no other: two servers
    that agree on these pages give the same result.  With the arguments of
    [V9], 1000 and 3000, these are the three offsets 0, 1000 and 2000. *)
Theorem X17_paging_requests (order : list OpenSanctions.json -> list OpenSanctions.json)
  (get get' : nat -> nat -> OpenSanctions.page)
  (limit max_items : nat) :
  (forall i : nat, i = 0%nat \/ (i * limit < max_items)%nat ->
                   get limit (i * limit)%nat = get' limit (i * limit)%nat) ->
  OpenSanctions.fetch_opensanctions_all order get limit max_items
  = OpenSanctions.fetch_opensanctions_all order get' limit max_items.
Proof.
  intros H. unfold OpenSanctions.fetch_opensanctions_all.
  change 0%nat with (0 * limit)%nat.
  rewrite (@pages_loop_ext get limit max_items get' (S max_items) 0 [] H); [reflexivity|].
  now left.
Qed.

Lemma X17_witness :
  (forall i : nat, i = 0%nat \/ (i * 1000 < 3000)%nat ->
     (fun _ _ : nat => OpenSanctions.Results [OpenSanctions.JString "Gazprom"])
       1000%nat (i * 1000)%nat
     = (fun (_ : nat) offset =>
          if (offset <? 3000)%nat
          then OpenSanctions.Results [OpenSanctions.JString "Gazprom"]
          else OpenSanctions.Raises) 1000%nat (i * 1000)%nat)
  /\ OpenSanctions.fetch_opensanctions_all (fun names => names)
       (fun _ _ => OpenSanctions.Results [OpenSanctions.JString "Gazprom"]) 1000 3000
     = OpenSanctions.fetch_opensanctions_all (fun names => names)
         (fun _ offset =>
            if (offset <? 3000)%nat
            then OpenSanctions.Results [OpenSanctions.JString "Gazprom"]
            else OpenSanctions.Raises) 1000 3000.
Proof.
  assert (H : forall i : nat, i = 0%nat \/ (i * 1000 < 3000)%nat ->
     (fun _ _ : nat => OpenSanctions.Results [OpenSanctions.JString "Gazprom"])
       1000%nat (i * 1000)%nat
     = (fun (_ : nat) offset =>
          if (offset <? 3000)%nat
          then OpenSanctions.Results [OpenSanctions.JString "Gazprom"]
          else OpenSanctions.Raises) 1000%nat (i * 1000)%nat).
  { intros i [->|Hi]; [reflexivity|].
    cbv beta. apply Nat.ltb_lt in Hi. now rewrite Hi. }
  split; [exact H|].
  exact (@X17_paging_requests (fun names => names) _ _ 1000 3000 H).
Defined.

(** ** The similarity ratio lies between 0 and 1 *)

Section BlockBounds.

Local Open Scope nat_scope.

Variables a b : text.

Lemma scan_row_bounds_b (i blo bhi : nat) (j2len : Difflib.dict) (js : list nat)
  (newj2len : Difflib.dict) (best : Difflib.Match) :
  (forall j, Difflib.dict_get j2len j <= j + 1 - blo) ->
  (forall j, Difflib.dict_get newj2len j <= j + 1 - blo) ->
  blo <= Difflib.m_b best ->
  Difflib.m_b best + Difflib.m_size best <= bhi ->
  (forall j, Difflib.dict_get (fst (Difflib.scan_row i blo bhi j2len js newj2len best)) j
             <= j + 1 - blo)
  /\ blo <= Difflib.m_b (snd (Difflib.scan_row i blo bhi j2len js newj2len best))
  /\ Difflib.m_b (snd (Difflib.scan_row i blo bhi j2len js newj2len best))
     + Difflib.m_size (snd (Difflib.scan_row i blo bhi j2len js newj2len best))
     <= bhi.
Proof.
  intros Hold. revert newj2len best.
  induction js as [|j js IH]; intros newj2len best Hnew Hb Hsum.
  - cbn [Difflib.scan_row fst snd]. auto.
  - cbn [Difflib.scan_row]. destruct (j <? blo) eqn:E1; [now apply IH|].
    destruct (bhi <=? j) eqn:E2; [cbn [fst snd]; auto|].
    apply Nat.ltb_ge in E1. apply Nat.leb_gt in E2.
    assert (Hk : Difflib.prev_len j2len j + 1 <= j + 1 - blo).
    { unfold Difflib.prev_len. destruct j as [|j']; [lia|].
      specialize (Hold j'). lia. }
    apply IH.
    + intros j'. rewrite dict_get_cons. destruct (j =? j') eqn:E.
      * apply Nat.eqb_eq in E. subst j'. exact Hk.
      * apply Hnew.
    + destruct (Difflib.m_size best <? Difflib.prev_len j2len j + 1);
        cbn [Difflib.m_b]; [lia|exact Hb].
    + destruct (Difflib.m_size best <? Difflib.prev_len j2len j + 1);
        cbn [Difflib.m_b Difflib.m_size]; [lia|exact Hsum].
Qed.

Lemma scan_rows_bounds_b (blo bhi : nat) (rows : list nat) (j2len : Difflib.dict)
  (best : Difflib.Match) :
  (forall j, Difflib.dict_get j2len j <= j + 1 - blo) ->
  blo <= Difflib.m_b best ->
  Difflib.m_b best + Difflib.m_size best <= bhi ->
  blo <= Difflib.m_b (Difflib.scan_rows a b blo bhi rows j2len best)
  /\ Difflib.m_b (Difflib.scan_rows a b blo bhi rows j2len best)
     + Difflib.m_size (Difflib.scan_rows a b blo bhi rows j2len best)
     <= bhi.
Proof.
  revert j2len best. induction rows as [|i rows IH]; intros j2len best Hold Hb Hsum.
  - cbn [Difflib.scan_rows]. auto.
  - cbn [Difflib.scan_rows].
    pose proof (@scan_row_bounds_b i blo bhi j2len
                  (Difflib.b2j b (nth i a Difflib.dflt)) [] best Hold) as H.
    destruct (Difflib.scan_row i blo bhi j2len
                (Difflib.b2j b (nth i a Difflib.dflt)) [] best) as [new best'].
    cbn [fst snd] in H.
    destruct H as (Hnew & Hb' & Hsum'); [intros j; cbn; lia|exact Hb|exact Hsum|].
    now apply IH.
Qed.

Lemma extend_left_bounds_b (test : ascii -> bool) (alo blo bound turns : nat)
  (m : Difflib.Match) :
  blo <= Difflib.m_b m ->
  Difflib.m_b m + Difflib.m_size m <= bound ->
  blo <= Difflib.m_b (Difflib.extend_left a b test alo blo turns m)
  /\ Difflib.m_b (Difflib.extend_left a b test alo blo turns m)
     + Difflib.m_size (Difflib.extend_left a b test alo blo turns m) <= bound.
Proof.
  revert m. induction turns as [|turns IH]; intros m Hb Hsum; [cbn; auto|].
  cbn [Difflib.extend_left].
  destruct (alo <? Difflib.m_a m); cbn [andb]; [|auto].
  destruct (blo <? Difflib.m_b m) eqn:E; cbn [andb]; [|auto].
  destruct (_ && _)%bool; [|auto].
  apply Nat.ltb_lt in E. apply IH; cbn [Difflib.m_b Difflib.m_size]; lia.
Qed.

Lemma extend_right_bounds_b (test : ascii -> bool) (blo ahi bhi turns : nat)
  (m : Difflib.Match) :
  blo <= Difflib.m_b m ->
  Difflib.m_b m + Difflib.m_size m <= bhi ->
  blo <= Difflib.m_b (Difflib.extend_right a b test ahi bhi turns m)
  /\ Difflib.m_b (Difflib.extend_right a b test ahi bhi turns m)
     + Difflib.m_size (Difflib.extend_right a b test ahi bhi turns m) <= bhi.
Proof.
  revert m. induction turns as [|turns IH]; intros m Hb Hsum; [cbn; auto|].
  cbn [Difflib.extend_right].
  destruct (Difflib.m_a m + Difflib.m_size m <? ahi); cbn [andb]; [|auto].
  destruct (Difflib.m_b m + Difflib.m_size m <? bhi) eqn:E; cbn [andb]; [|auto].
  destruct (_ && _)%bool; [|auto].
  apply Nat.ltb_lt in E. apply IH; cbn [Difflib.m_b Difflib.m_size]; lia.
Qed.

(** The longest block lies inside the range of [b] it was searched in. *)
Lemma find_longest_match_bounds_b (alo ahi blo bhi : nat) :
  blo <= bhi ->
  blo <= Difflib.m_b (Difflib.find_longest_match a b alo ahi blo bhi)
  /\ Difflib.m_b (Difflib.find_longest_match a b alo ahi blo bhi)
     + Difflib.m_size (Difflib.find_longest_match a b alo ahi blo bhi) <= bhi.
Proof.
  intros H. unfold Difflib.find_longest_match. cbv zeta.
  destruct (@scan_rows_bounds_b blo bhi (seq alo (ahi - alo)) []
              {| Difflib.m_a := alo; Difflib.m_b := blo; Difflib.m_size := 0 |})
    as [H1 H2]; cbn [Difflib.m_b Difflib.m_size]; try lia.
  { intros j. cbn. lia. }
  set (m1 := Difflib.scan_rows a b blo bhi (seq alo (ahi - alo)) [] _) in *.
  destruct (@extend_left_bounds_b (fun c => negb (Difflib.isbjunk c)) alo blo bhi
              (Difflib.m_a m1) m1 H1 H2) as [H3 H4].
  set (m2 := Difflib.extend_left a b _ alo blo (Difflib.m_a m1) m1) in *.
  destruct (@extend_right_bounds_b (fun c => negb (Difflib.isbjunk c)) blo ahi bhi ahi
              m2 H3 H4) as [H5 H6].
  set (m3 := Difflib.extend_right a b _ ahi bhi ahi m2) in *.
  destruct (@extend_left_bounds_b Difflib.isbjunk alo blo bhi
              (Difflib.m_a m3) m3 H5 H6) as [H7 H8].
  now apply extend_right_bounds_b.
Qed.

Lemma total_size_app (l1 l2 : list Difflib.Match) :
  total_size (l1 ++ l2) = total_size l1 + total_size l2.
Proof.
  induction l1 as [|x l1 IH]; [reflexivity|].
  cbn [app total_size fold_right]. fold (total_size (l1 ++ l2)). fold (total_size l1).
  lia.
Qed.

Lemma total_size_snoc (l : list Difflib.Match) (x : Difflib.Match) :
  total_size (l ++ [x]) = total_size l + Difflib.m_size x.
Proof.
  rewrite total_size_app. cbn [total_size fold_right]. lia.
Qed.

Lemma queue_room_a_cons (alo ahi blo bhi : nat) (queue : list (nat * nat * nat * nat)) :
  queue_room_a ((alo, ahi, blo, bhi) :: queue) = ahi - alo + queue_room_a queue.
Proof. reflexivity. Qed.

Lemma queue_room_b_cons (alo ahi blo bhi : nat) (queue : list (nat * nat * nat * nat)) :
  queue_room_b ((alo, ahi, blo, bhi) :: queue) = bhi - blo + queue_room_b queue.
Proof. reflexivity. Qed.

(** The blocks never match more characters than the ranges of the work
    list hold, in [a] and in [b]. *)
Lemma blocks_loop_room (turns : nat) (queue : list (nat * nat * nat * nat))
  (blocks : list Difflib.Match) :
  queue_ok queue -> queue_ok_b queue ->
  total_size (Difflib.blocks_loop a b turns queue blocks)
    <= total_size blocks + queue_room_a queue
  /\ total_size (Difflib.blocks_loop a b turns queue blocks)
    <= total_size blocks + queue_room_b queue.
Proof.
  revert queue blocks. induction turns as [|turns IH]; intros queue blocks Hok Hokb.
  - cbn [Difflib.blocks_loop]. lia.
  - cbn [Difflib.blocks_loop].
    destruct queue as [|[[[alo ahi] blo] bhi] queue]; [lia|].
    inversion Hok as [|? ? Hr Hq]; subst.
    inversion Hokb as [|? ? Hrb Hqb]; subst.
    rewrite queue_room_a_cons, queue_room_b_cons.
    destruct (@find_longest_match_bounds a b alo ahi blo bhi Hr) as [H1 H2].
    destruct (@find_longest_match_bounds_b alo ahi blo bhi Hrb) as [H3 H4].
    set (x := Difflib.find_longest_match a b alo ahi blo bhi) in *.
    destruct (0 <? Difflib.m_size x) eqn:Ek.
    + apply Nat.ltb_lt in Ek.
      destruct (alo <? Difflib.m_a x) eqn:E1;
      destruct (blo <? Difflib.m_b x) eqn:E2;
      destruct (Difflib.m_a x + Difflib.m_size x <? ahi) eqn:E3;
      destruct (Difflib.m_b x + Difflib.m_size x <? bhi) eqn:E4;
      cbn [andb];
      match goal with
      | |- context [Difflib.blocks_loop a b turns ?q ?bl] =>
          destruct (IH q bl) as [IHa IHb];
            [ repeat constructor; auto; lia
            | repeat constructor; auto; lia
            | rewrite total_size_snoc in IHa, IHb;
              rewrite ?queue_room_a_cons in IHa; rewrite ?queue_room_b_cons in IHb;
              lia ]
      end.
    + destruct (IH queue blocks Hq Hqb). lia.
Qed.

Lemma matches_le : Difflib.matches a b <= length a /\ Difflib.matches a b <= length b.
Proof.
  unfold Difflib.matches, Difflib.get_matching_blocks.
  destruct (@blocks_loop_room (2 * length a + 1) [(0, length a, 0, length b)] [])
    as [H1 H2].
  - repeat constructor. lia.
  - repeat constructor. lia.
  - unfold total_size in H1, H2. cbn [queue_room_a queue_room_b fold_right] in H1, H2.
    lia.
Qed.

End BlockBounds.

Lemma round_half_even_le (num den k : Z) :
  (0 < den)%Z -> (num <= k * den)%Z -> (Float64.round_half_even num den <= k)%Z.
Proof.
  intros Hd H. unfold Float64.round_half_even. cbv zeta.
  pose proof (Z.div_mod num den ltac:(lia)) as E.
  pose proof (Z.mod_pos_bound num den Hd) as B.
  destruct (Z.compare_spec (2 * (num mod den)) den);
    [destruct (Z.even (num / den))| |]; nia.
Qed.

Lemma round_half_even_ge (num den k : Z) :
  (0 < den)%Z -> ((2 * k - 1) * den < 2 * num)%Z ->
  (k <= Float64.round_half_even num den)%Z.
Proof.
  intros Hd H. unfold Float64.round_half_even. cbv zeta.
  pose proof (Z.div_mod num den ltac:(lia)) as E.
  pose proof (Z.mod_pos_bound num den Hd) as B.
  destruct (Z.compare_spec (2 * (num mod den)) den);
    [destruct (Z.even (num / den))| |]; nia.
Qed.

Lemma ilog2_le_0 (n d : Z) : (0 < n <= d)%Z -> (Float64.ilog2 n d <= 0)%Z.
Proof.
  intros H. unfold Float64.ilog2. cbv zeta.
  pose proof (Z.log2_le_mono n d ltac:(lia)).
  destruct (_ <=? _)%Z; lia.
Qed.

(** A quotient between 0 and 1 rounds to a double between 0 and 1. *)
Lemma rnd_pos_unit (n d : Z) :
  (0 < n <= d)%Z -> (0 <= Float64.rnd_pos n d <= 1)%Q.
Proof.
  intros H. unfold Float64.rnd_pos. cbv zeta.
  pose proof (ilog2_le_0 H) as He.
  set (sh := Z.min (52 - Float64.ilog2 n d) 1074).
  assert (Hsh : (0 <= sh)%Z) by (unfold sh; lia).
  rewrite (Z.max_r 0 sh) by lia. rewrite (Z.max_l 0 (- sh)) by lia.
  change (2 ^ 0)%Z with 1%Z. rewrite !Z.mul_1_r.
  assert (Hup : (0 < 2 ^ sh)%Z) by (apply Z.pow_pos_nonneg; lia).
  assert (Hm1 : (Float64.round_half_even (n * 2 ^ sh) d <= 2 ^ sh)%Z)
    by (apply round_half_even_le; nia).
  assert (Hm0 : (0 <= Float64.round_half_even (n * 2 ^ sh) d)%Z)
    by (apply round_half_even_ge; nia).
  rewrite Qred_correct. unfold Qle. cbn [Qnum Qden].
  rewrite Z2Pos.id by exact Hup. lia.
Qed.

Lemma rnd_unit (q : Q) : (0 <= q <= 1)%Q -> (0 <= Float64.rnd q <= 1)%Q.
Proof.
  intros [H0 H1]. unfold Float64.rnd. unfold Qle in H0, H1. cbn [Qnum Qden] in H0, H1.
  destruct (Qnum q) as [|n|n] eqn:E.
  - split; [apply Qle_refl|discriminate].
  - apply rnd_pos_unit. lia.
  - lia.
Qed.

Lemma calculate_ratio_unit (m l : nat) :
  (2 * m <= l)%nat -> (0 <= Difflib.calculate_ratio m l <= 1)%Q.
Proof.
  intros H. unfold Difflib.calculate_ratio.
  destruct (0 <? l)%nat eqn:E; [|split; discriminate].
  apply Nat.ltb_lt in E. unfold Float64.div, Float64.of_int. apply rnd_unit.
  assert (Hl : (0 < inject_Z (Z.of_nat l))%Q).
  { unfold Qlt. cbn [Qnum Qden inject_Z]. lia. }
  split.
  - apply Qle_shift_div_l; [exact Hl|].
    unfold Qle. cbn [Qnum Qden inject_Z Qmult]. lia.
  - apply Qle_shift_div_r; [exact Hl|].
    unfold Qle. cbn [Qnum Qden inject_Z Qmult]. lia.
Qed.

Lemma ratio_unit (a b : text) : (0 <= Difflib.ratio a b <= 1)%Q.
Proof.
  unfold Difflib.ratio. apply calculate_ratio_unit.
  destruct (matches_le a b). lia.
Qed.

(** X18. The similarity ratio of any two texts is a number between 0 and
    1; the blocks it counts never match more characters than either text
    holds. *)
Theorem X18_ratio_between_0_and_1 (a b : text) :
  (0 <= Difflib.ratio a b <= 1)%Q
  /\ (0 <= V9.fuzzy_match a b <= 1)%Q
  /\ (0 <= V8.fuzzy_match a b <= 1)%Q
  /\ (Difflib.matches a b <= length a)%nat
  /\ (Difflib.matches a b <= length b)%nat.
Proof.
  pose proof (ratio_unit a b) as H. pose proof (matches_le a b) as [H1 H2].
  unfold V9.fuzzy_match, V8.fuzzy_match. auto.
Qed.

(** ** The similarity shown for a match *)

Lemma hundredths_le_100 (x : Q) : (x <= 1)%Q -> (Float64.hundredths x <= 100)%Z.
Proof.
  intros H. unfold Float64.hundredths. apply round_half_even_le; [reflexivity|].
  unfold Qle in H. cbn [Qnum Qden] in H. lia.
Qed.

Lemma hundredths_ge (k : Z) (x : Q) :
  (Qmake (2 * k - 1) 200 < x)%Q -> (k <= Float64.hundredths x)%Z.
Proof.
  intros H. unfold Float64.hundredths. apply round_half_even_ge; [reflexivity|].
  unfold Qlt in H. cbn [Qnum Qden] in H. lia.
Qed.

Lemma two_decimals_range (lo : nat) (threshold : Q) (k : Z) :
  forallb (fun i => Qle_bool threshold (Float64.rnd (Qmake (Z.of_nat i) 100))
                    && Qle_bool (Float64.rnd (Qmake (Z.of_nat i) 100)) 1)%bool
    (seq lo (101 - lo)) = true ->
  (Z.of_nat lo <= k <= 100)%Z ->
  (threshold <= Float64.rnd (Qmake k 100) <= 1)%Q.
Proof.
  intros H Hk. rewrite forallb_forall in H.
  specialize (H (Z.to_nat k)). rewrite Z2Nat.id in H by lia.
  assert (Hin : In (Z.to_nat k) (seq lo (101 - lo))) by (apply in_seq; lia).
  apply H in Hin. apply andb_true_iff in Hin. destruct Hin as [H1 H2].
  now apply Qle_bool_iff in H1, H2.
Qed.

Lemma in_match_loop_inv (threshold : Q) (prepare : text -> text) (query : text)
  (candidates : list text) (m : sanctions_match) :
  In m (match_loop threshold prepare query candidates) ->
  exists s, In s candidates
            /\ Float64.geb (Difflib.ratio (prepare query) (prepare s)) threshold = true
            /\ m = {| sanctioned_name := s;
                      similarity := Float64.round2
                                      (Difflib.ratio (prepare query) (prepare s)) |}.
Proof.
  intros Hm. unfold match_loop in Hm. cbv zeta in Hm.
  rewrite (flat_map_kept threshold
             (fun s => Difflib.ratio (prepare query) (prepare s))) in Hm.
  apply (Permutation_in _ (sorted_perm _ _ _)) in Hm.
  unfold kept in Hm. apply in_map_iff in Hm. destruct Hm as [s [<- Hs]].
  apply filter_In in Hs. exists s. repeat split; apply Hs.
Qed.

Lemma match_loop_similarity (lo : nat) (threshold : Q) (prepare : text -> text)
  (query : text) (candidates : list text) (m : sanctions_match) :
  (Qmake (2 * Z.of_nat lo - 1) 200 < threshold)%Q ->
  forallb (fun i => Qle_bool threshold (Float64.rnd (Qmake (Z.of_nat i) 100))
                    && Qle_bool (Float64.rnd (Qmake (Z.of_nat i) 100)) 1)%bool
    (seq lo (101 - lo)) = true ->
  In m (match_loop threshold prepare query candidates) ->
  exists k : Z,
    (Z.of_nat lo <= k <= 100)%Z
    /\ similarity m = Float64.lit (Qmake k 100)
    /\ (threshold <= similarity m <= 1)%Q.
Proof.
  intros Hlo Hcheck Hm.
  destruct (@in_match_loop_inv _ _ _ _ _ Hm) as (s & _ & Hge & ->).
  cbn [similarity]. set (x := Difflib.ratio (prepare query) (prepare s)) in *.
  assert (Hk : (Z.of_nat lo <= Float64.hundredths x <= 100)%Z).
  { split.
    - apply hundredths_ge. eapply Qlt_le_trans; [exact Hlo|].
      unfold Float64.geb in Hge. now apply Qle_bool_iff in Hge.
    - apply hundredths_le_100. apply ratio_unit. }
  exists (Float64.hundredths x). split; [exact Hk|]. split; [reflexivity|].
  unfold Float64.round2. now apply (@two_decimals_range lo).
Qed.

Lemma check_60 :
  forallb (fun i => Qle_bool (Float64.lit 0.6) (Float64.rnd (Qmake (Z.of_nat i) 100))
                    && Qle_bool (Float64.rnd (Qmake (Z.of_nat i) 100)) 1)%bool
    (seq 60 (101 - 60)) = true.
Proof. vm_compute. reflexivity. Qed.

Lemma check_80 :
  forallb (fun i => Qle_bool (Float64.lit 0.8) (Float64.rnd (Qmake (Z.of_nat i) 100))
                    && Qle_bool (Float64.rnd (Qmake (Z.of_nat i) 100)) 1)%bool
    (seq 80 (101 - 80)) = true.
Proof. vm_compute. reflexivity. Qed.

Lemma above_0_595 : (Qmake (2 * Z.of_nat 60 - 1) 200 < Float64.lit 0.6)%Q.
Proof. vm_compute. reflexivity. Qed.

Lemma above_0_795 : (Qmake (2 * Z.of_nat 80 - 1) 200 < Float64.lit 0.8)%Q.
Proof. vm_compute. reflexivity. Qed.

Lemma matches_example_acme :
  V9.matches "Acme Ltd" (texts ["ACME LTD"; "Beta Corp"])
  = [ {| sanctioned_name := "ACME LTD"; similarity := 1 |} ].
Proof. vm_compute. reflexivity. Qed.

Lemma search_sanctions_example :
  Shared.search_sanctions example_env "acme ltd"
  = [ {| sanctioned_name := "ACME LTD"; similarity := 1 |} ].
Proof. vm_compute. reflexivity. Qed.

(** X19. Every match of the inclusive matcher of [V8] and [V9] shows a
    similarity that is a whole number of hundredths from 0.60 to 1.00, read
    as a double: never less than the threshold, never more than 1. *)
Theorem X19_inclusive_similarity_range (name : text) (names : list text)
  (m : sanctions_match) :
  In m (V9.matches name names) \/ In m (V8.matches name names) ->
  exists k : Z,
    (60 <= k <= 100)%Z
    /\ similarity m = Float64.lit (Qmake k 100)
    /\ (Float64.lit 0.6 <= similarity m <= 1)%Q.
Proof.
  rewrite V9_matches_loop, V8_matches_loop.
  intros [H|H]; exact (@match_loop_similarity 60 _ _ _ _ _ above_0_595 check_60 H).
Qed.

Lemma X19_witness :
  (In {| sanctioned_name := "ACME LTD"; similarity := 1 |}
      (V9.matches "Acme Ltd" (texts ["ACME LTD"; "Beta Corp"]))
   \/ In {| sanctioned_name := "ACME LTD"; similarity := 1 |}
        (V8.matches "Acme Ltd" (texts ["ACME LTD"; "Beta Corp"])))
  /\ exists k : Z,
       (60 <= k <= 100)%Z
       /\ 1%Q = Float64.lit (Qmake k 100)
       /\ (Float64.lit 0.6 <= 1 <= 1)%Q.
Proof.
  assert (H : In {| sanctioned_name := "ACME LTD"; similarity := 1 |}
                (V9.matches "Acme Ltd" (texts ["ACME LTD"; "Beta Corp"]))
              \/ In {| sanctioned_name := "ACME LTD"; similarity := 1 |}
                   (V8.matches "Acme Ltd" (texts ["ACME LTD"; "Beta Corp"]))).
  { left. rewrite matches_example_acme. now left. }
  split; [exact H|].
  exact (@X19_inclusive_similarity_range "Acme Ltd" (texts ["ACME LTD"; "Beta Corp"])
           {| sanctioned_name := "ACME LTD"; similarity := 1 |} H).
Defined.

(** X20. Every match of the strict matcher of [V1] and [V5] shows a
    similarity that is a whole number of hundredths from 0.80 to 1.00. *)
Theorem X20_strict_similarity_range (e : env) (name_query : text) (m : sanctions_match) :
  In m (Shared.search_sanctions e name_query) ->
  exists k : Z,
    (80 <= k <= 100)%Z
    /\ similarity m = Float64.lit (Qmake k 100)
    /\ (Float64.lit 0.8 <= similarity m <= 1)%Q.
Proof.
  intros H.
  change (Shared.search_sanctions e name_query)
    with (match_loop (Float64.lit 0.8) PyStr.lower name_query
            (filter PyStr.truthy
               (fetch_ofac_list e ++ fetch_opensanctions e ++ fetch_uk_list e))) in H.
  exact (@match_loop_similarity 80 _ _ _ _ _ above_0_795 check_80 H).
Qed.

Lemma X20_witness :
  In {| sanctioned_name := "ACME LTD"; similarity := 1 |}
     (Shared.search_sanctions example_env "acme ltd")
  /\ exists k : Z,
       (80 <= k <= 100)%Z
       /\ 1%Q = Float64.lit (Qmake k 100)
       /\ (Float64.lit 0.8 <= 1 <= 1)%Q.
Proof.
  assert (H : In {| sanctioned_name := "ACME LTD"; similarity := 1 |}
                (Shared.search_sanctions example_env "acme ltd")).
  { rewrite search_sanctions_example. now left. }
  split; [exact H|].
  exact (@X20_strict_similarity_range example_env "acme ltd"
           {| sanctioned_name := "ACME LTD"; similarity := 1 |} H).
Defined.

(** ** A text compared with itself *)

Section SelfMatch.

Local Open Scope nat_scope.

Variable a : text.

Let n := length a.
Let run := run_ending a a.

Lemma run_ending_eq (i j : nat) :
  run i j
  = if ((i <? n) && (j <? n)
        && Ascii.eqb (nth i a Difflib.dflt) (nth j a Difflib.dflt)
        && negb (Difflib.popular a (nth j a Difflib.dflt)))%bool
    then S (match i, j with
            | S i', S j' => run i' j'
            | _, _ => 0
            end)
    else 0.
Proof. unfold run, n. now destruct i. Qed.

Lemma run_positive (i j : nat) :
  0 < run i j ->
  i < n /\ j < n /\ nth j a Difflib.dflt = nth i a Difflib.dflt
  /\ Difflib.popular a (nth j a Difflib.dflt) = false.
Proof.
  rewrite run_ending_eq.
  destruct (i <? n) eqn:E1; cbn [andb]; [|lia].
  destruct (j <? n) eqn:E2; cbn [andb]; [|lia].
  destruct (Ascii.eqb _ _) eqn:E3; cbn [andb]; [|lia].
  destruct (Difflib.popular a _) eqn:E4; cbn [negb]; [lia|].
  intros _. apply Nat.ltb_lt in E1, E2. apply Ascii.eqb_eq in E3. auto.
Qed.

Lemma run_cell (i j : nat) :
  i < n -> j < n -> nth j a Difflib.dflt = nth i a Difflib.dflt ->
  Difflib.popular a (nth j a Difflib.dflt) = false ->
  run i j = S (match i, j with
               | S i', S j' => run i' j'
               | _, _ => 0
               end).
Proof.
  intros H1 H2 H3 H4. rewrite run_ending_eq.
  apply Nat.ltb_lt in H1, H2. rewrite H1, H2, H3, Ascii.eqb_refl.
  rewrite <- H3, H4. reflexivity.
Qed.

Lemma run_diag_l (i j : nat) : run i j <= run j j.
Proof.
  revert j. induction i as [|i IH]; intros j.
  - destruct (Nat.eq_dec (run 0 j) 0) as [E|E]; [lia|].
    destruct (@run_positive 0 j ltac:(lia)) as (H1 & H2 & H3 & H4).
    rewrite (run_cell H1 H2 H3 H4), (run_cell H2 H2 eq_refl H4). lia.
  - destruct (Nat.eq_dec (run (S i) j) 0) as [E|E]; [lia|].
    destruct (@run_positive (S i) j ltac:(lia)) as (H1 & H2 & H3 & H4).
    rewrite (run_cell H1 H2 H3 H4), (run_cell H2 H2 eq_refl H4).
    destruct j as [|j]; [lia|]. specialize (IH j). lia.
Qed.

Lemma run_diag_r (i j : nat) : run i j <= run i i.
Proof.
  revert j. induction i as [|i IH]; intros j.
  - destruct (Nat.eq_dec (run 0 j) 0) as [E|E]; [lia|].
    destruct (@run_positive 0 j ltac:(lia)) as (H1 & H2 & H3 & H4).
    rewrite (run_cell H1 H2 H3 H4), (@run_cell 0 0 H1 H1 eq_refl); [lia|].
    now rewrite <- H3.
  - destruct (Nat.eq_dec (run (S i) j) 0) as [E|E]; [lia|].
    destruct (@run_positive (S i) j ltac:(lia)) as (H1 & H2 & H3 & H4).
    rewrite (run_cell H1 H2 H3 H4), (@run_cell (S i) (S i) H1 H1 eq_refl);
      [|now rewrite <- H3].
    destruct j as [|j]; [lia|]. specialize (IH j). lia.
Qed.

Lemma in_indices_from (c : ascii) (s : text) (k j : nat) :
  In j (Difflib.indices_from c k s)
  <-> k <= j /\ j - k < length s /\ nth (j - k) s Difflib.dflt = c.
Proof.
  revert k. induction s as [|x s IH]; intros k.
  - cbn [Difflib.indices_from In length]. split; [tauto|lia].
  - cbn [Difflib.indices_from length].
    assert (Hrest : In j (Difflib.indices_from c (S k) s)
                    <-> k < j /\ j - k < S (length s)
                        /\ nth (j - k) (x :: s) Difflib.dflt = c).
    { rewrite IH. split.
      - intros (H1 & H2 & H3). replace (j - k) with (S (j - S k)) by lia.
        cbn [nth]. repeat split; [lia|lia|exact H3].
      - intros (H1 & H2 & H3). replace (j - k) with (S (j - S k)) in H3 by lia.
        cbn [nth] in H3. repeat split; [lia|lia|exact H3]. }
    destruct (Ascii.eqb x c) eqn:E.
    + apply Ascii.eqb_eq in E. subst x. cbn [In]. rewrite Hrest. split.
      * intros [<-|(H1 & H2 & H3)].
        -- rewrite Nat.sub_diag. cbn [nth]. repeat split; lia.
        -- repeat split; [lia|exact H2|exact H3].
      * intros (H1 & H2 & H3).
        destruct (Nat.eq_dec k j) as [->|Hne]; [now left|right].
        repeat split; [lia|exact H2|exact H3].
    + apply Ascii.eqb_neq in E. rewrite Hrest. split.
      * intros (H1 & H2 & H3). repeat split; [lia|exact H2|exact H3].
      * intros (H1 & H2 & H3).
        destruct (Nat.eq_dec k j) as [->|Hne].
        -- rewrite Nat.sub_diag in H3. cbn [nth] in H3. congruence.
        -- repeat split; [lia|exact H2|exact H3].
Qed.

Lemma indices_from_sorted (c : ascii) (s : text) (k : nat) :
  StronglySorted lt (Difflib.indices_from c k s).
Proof.
  revert k. induction s as [|x s IH]; intros k; [constructor|].
  cbn [Difflib.indices_from]. destruct (Ascii.eqb x c); [|apply IH].
  constructor; [apply IH|].
  apply Forall_forall. intros j Hj. apply in_indices_from in Hj. lia.
Qed.

Lemma in_b2j (i j : nat) :
  In j (Difflib.b2j a (nth i a Difflib.dflt))
  <-> j < n /\ nth j a Difflib.dflt = nth i a Difflib.dflt
      /\ Difflib.popular a (nth j a Difflib.dflt) = false.
Proof.
  unfold Difflib.b2j. destruct (Difflib.popular a (nth i a Difflib.dflt)) eqn:E.
  - cbn [In]. split; [tauto|]. intros (_ & H & Hp). rewrite H in Hp. congruence.
  - rewrite in_indices_from, Nat.sub_0_r. fold n. split.
    + intros (_ & H1 & H2). rewrite H2. auto.
    + intros (H1 & H2 & _). repeat split; [lia|exact H1|exact H2].
Qed.

Lemma b2j_sorted (c : ascii) : StronglySorted lt (Difflib.b2j a c).
Proof.
  unfold Difflib.b2j. destruct (Difflib.popular a c); [constructor|].
  apply indices_from_sorted.
Qed.

(** One row of the inner loop: the dictionary holds the runs that end on
    the row, and the best block stays on the diagonal. *)
Lemma scan_row_self (i : nat) (j2len : Difflib.dict) (js : list nat)
  (newj2len : Difflib.dict) (best : Difflib.Match) :
  i < n ->
  (forall j, Difflib.dict_get j2len j = match i with 0 => 0 | S i' => run i' j end) ->
  StronglySorted lt js ->
  (forall j, In j js -> j < n /\ nth j a Difflib.dflt = nth i a Difflib.dflt
                        /\ Difflib.popular a (nth j a Difflib.dflt) = false) ->
  (forall j, ~ In j js -> Difflib.dict_get newj2len j = run i j) ->
  Difflib.m_a best = Difflib.m_b best ->
  (forall j, ~ In j js -> run i j <= Difflib.m_size best) ->
  (forall i' j, i' < i -> run i' j <= Difflib.m_size best) ->
  (forall j, Difflib.dict_get (fst (Difflib.scan_row i 0 n j2len js newj2len best)) j
             = run i j)
  /\ Difflib.m_a (snd (Difflib.scan_row i 0 n j2len js newj2len best))
     = Difflib.m_b (snd (Difflib.scan_row i 0 n j2len js newj2len best))
  /\ (forall i' j, i' <= i ->
        run i' j <= Difflib.m_size (snd (Difflib.scan_row i 0 n j2len js newj2len best))).
Proof.
  intros Hi Hold. revert newj2len best.
  induction js as [|j js IH]; intros newj2len best Hsorted Hjs Hnew Hdiag Hrow Hprev.
  - cbn [Difflib.scan_row fst snd]. split; [|split].
    + intros j. apply Hnew. intros [].
    + exact Hdiag.
    + intros i' j Hi'. destruct (Nat.eq_dec i' i) as [->|Hne].
      * apply Hrow. intros [].
      * apply Hprev. lia.
  - cbn [Difflib.scan_row].
    destruct (Hjs j (or_introl eq_refl)) as (Hj & Heq & Hpop).
    change (j <? 0) with false. cbv iota.
    assert (E : (n <=? j) = false) by (apply Nat.leb_gt; exact Hj). rewrite E.
    apply StronglySorted_inv in Hsorted. destruct Hsorted as [Hsorted Hlt].
    rewrite Forall_forall in Hlt.
    assert (Hk : Difflib.prev_len j2len j + 1 = run i j).
    { rewrite (run_cell Hi Hj Heq Hpop). unfold Difflib.prev_len.
      destruct j as [|j']; [destruct i; lia|]. rewrite Hold. destruct i; lia. }
    rewrite Hk.
    apply IH.
    + exact Hsorted.
    + intros j' Hj'. apply Hjs. now right.
    + intros j' Hj'. rewrite dict_get_cons. destruct (j =? j') eqn:Ej.
      * apply Nat.eqb_eq in Ej. now subst j'.
      * apply Nat.eqb_neq in Ej. apply Hnew. intros [H|H]; [congruence|tauto].
    + destruct (Difflib.m_size best <? run i j) eqn:Elt; [|exact Hdiag].
      apply Nat.ltb_lt in Elt. cbn [Difflib.m_a Difflib.m_b].
      assert (j = i); [|subst; reflexivity].
      destruct (Nat.lt_trichotomy j i) as [Hlt'|[Heq'|Hgt]]; [|exact Heq'|].
      * pose proof (Hprev j j Hlt'). pose proof (run_diag_l i j). lia.
      * assert (Hni : ~ In i (j :: js)).
        { intros [H|H]; [lia|]. apply Hlt in H. lia. }
        pose proof (Hrow i Hni). pose proof (run_diag_r i j). lia.
    + intros j' Hj'.
      destruct (Nat.eq_dec j j') as [<-|Hne].
      * destruct (Difflib.m_size best <? run i j) eqn:Elt; cbn [Difflib.m_size];
          [lia|]. apply Nat.ltb_ge in Elt. exact Elt.
      * assert (Hn : ~ In j' (j :: js)) by (intros [H|H]; [congruence|tauto]).
        specialize (Hrow j' Hn).
        destruct (Difflib.m_size best <? run i j) eqn:Elt; cbn [Difflib.m_size];
          [|exact Hrow]. apply Nat.ltb_lt in Elt. lia.
    + intros i' j' Hi'. specialize (Hprev i' j' Hi').
      destruct (Difflib.m_size best <? run i j) eqn:Elt; cbn [Difflib.m_size];
        [|exact Hprev]. apply Nat.ltb_lt in Elt. lia.
Qed.

Lemma scan_rows_self (count i : nat) (j2len : Difflib.dict) (best : Difflib.Match) :
  i + count = n ->
  (forall j, Difflib.dict_get j2len j = match i with 0 => 0 | S i' => run i' j end) ->
  Difflib.m_a best = Difflib.m_b best ->
  (forall i' j, i' < i -> run i' j <= Difflib.m_size best) ->
  Difflib.m_a (Difflib.scan_rows a a 0 n (seq i count) j2len best)
  = Difflib.m_b (Difflib.scan_rows a a 0 n (seq i count) j2len best).
Proof.
  revert i j2len best.
  induction count as [|count IH]; intros i j2len best Hn Hold Hdiag Hprev.
  - exact Hdiag.
  - cbn [seq Difflib.scan_rows].
    assert (Hi : i < n) by lia.
    pose proof (@scan_row_self i j2len (Difflib.b2j a (nth i a Difflib.dflt)) [] best
                  Hi Hold (b2j_sorted _)) as H.
    destruct (Difflib.scan_row i 0 n j2len
                (Difflib.b2j a (nth i a Difflib.dflt)) [] best) as [new best'].
    cbn [fst snd] in H.
    destruct H as (Hnew & Hdiag' & Hprev').
    + intros j Hj. now apply in_b2j.
    + intros j Hj. cbn [Difflib.dict_get].
      destruct (Nat.eq_dec (run i j) 0) as [E|E]; [now rewrite E|].
      exfalso. apply Hj. apply in_b2j.
      destruct (@run_positive i j ltac:(lia)) as (H1 & H2 & H3 & H4). auto.
    + exact Hdiag.
    + intros j Hj.
      destruct (Nat.eq_dec (run i j) 0) as [E|E]; [lia|].
      exfalso. apply Hj. apply in_b2j.
      destruct (@run_positive i j ltac:(lia)) as (H1 & H2 & H3 & H4). auto.
    + exact Hprev.
    + apply IH; [lia|exact Hnew|exact Hdiag'|].
      intros i' j Hi'. apply Hprev'. lia.
Qed.

Lemma extend_left_self (turns : nat) (m : Difflib.Match) :
  Difflib.m_a m = Difflib.m_b m -> Difflib.m_a m <= turns ->
  Difflib.extend_left a a (fun c => negb (Difflib.isbjunk c)) 0 0 turns m
  = {| Difflib.m_a := 0; Difflib.m_b := 0;
       Difflib.m_size := Difflib.m_size m + Difflib.m_a m |}.
Proof.
  revert m. induction turns as [|turns IH]; intros [ma mb ms] Hd Ht;
    cbn [Difflib.m_a Difflib.m_b Difflib.m_size] in *; subst mb.
  - cbn [Difflib.extend_left]. replace ma with 0 by lia. f_equal. lia.
  - cbn [Difflib.extend_left Difflib.m_a Difflib.m_b Difflib.m_size].
    destruct ma as [|ma].
    + cbn [Nat.ltb Nat.leb andb]. f_equal. lia.
    + change (0 <? S ma) with true. unfold Difflib.isbjunk. cbn [andb negb].
      rewrite Ascii.eqb_refl.
      rewrite IH; cbn [Difflib.m_a Difflib.m_b Difflib.m_size]; [f_equal; lia| |]; lia.
Qed.

Lemma extend_right_self (turns s : nat) :
  s <= n -> n - s <= turns ->
  Difflib.extend_right a a (fun c => negb (Difflib.isbjunk c)) n n turns
    {| Difflib.m_a := 0; Difflib.m_b := 0; Difflib.m_size := s |}
  = {| Difflib.m_a := 0; Difflib.m_b := 0; Difflib.m_size := n |}.
Proof.
  revert s. induction turns as [|turns IH]; intros s Hs Ht.
  - cbn [Difflib.extend_right]. f_equal. lia.
  - cbn [Difflib.extend_right Difflib.m_a Difflib.m_b Difflib.m_size Nat.add].
    destruct (s <? n) eqn:E; cbn [andb].
    + apply Nat.ltb_lt in E. unfold Difflib.isbjunk. cbn [negb andb].
      rewrite Ascii.eqb_refl. apply IH; lia.
    + apply Nat.ltb_ge in E. f_equal. lia.
Qed.

Lemma extend_right_full (turns : nat) :
  Difflib.extend_right a a Difflib.isbjunk n n turns
    {| Difflib.m_a := 0; Difflib.m_b := 0; Difflib.m_size := n |}
  = {| Difflib.m_a := 0; Difflib.m_b := 0; Difflib.m_size := n |}.
Proof.
  destruct turns as [|turns]; [reflexivity|].
  cbn [Difflib.extend_right Difflib.m_a Difflib.m_b Difflib.m_size Nat.add].
  now rewrite Nat.ltb_irrefl.
Qed.

(** The longest block of a text with itself is the whole text. *)
Lemma find_longest_match_self :
  Difflib.find_longest_match a a 0 n 0 n
  = {| Difflib.m_a := 0; Difflib.m_b := 0; Difflib.m_size := n |}.
Proof.
  unfold Difflib.find_longest_match. cbv zeta. rewrite Nat.sub_0_r.
  set (m0 := {| Difflib.m_a := 0; Difflib.m_b := 0; Difflib.m_size := 0 |}).
  assert (Hd : Difflib.m_a (Difflib.scan_rows a a 0 n (seq 0 n) [] m0)
               = Difflib.m_b (Difflib.scan_rows a a 0 n (seq 0 n) [] m0)).
  { apply scan_rows_self; [reflexivity|reflexivity|reflexivity|]. intros i' j H. lia. }
  destruct (@scan_rows_bounds a a 0 0 n n 0 [] m0) as [_ Hb];
    [lia|intros j; cbn; lia|cbn; lia|cbn; lia|].
  set (m1 := Difflib.scan_rows a a 0 n (seq 0 n) [] m0) in *.
  rewrite (extend_left_self m1 Hd (le_n _)).
  rewrite extend_right_self by lia.
  cbn [Difflib.m_a Difflib.extend_left]. apply extend_right_full.
Qed.

Lemma matches_self : Difflib.matches a a = n.
Proof.
  unfold Difflib.matches, Difflib.get_matching_blocks. fold n.
  replace (2 * n + 1) with (S (2 * n)) by lia.
  cbn [Difflib.blocks_loop]. rewrite find_longest_match_self.
  cbn [Difflib.m_a Difflib.m_b Difflib.m_size Nat.add].
  destruct (0 <? n) eqn:E.
  - rewrite Nat.ltb_irrefl. change (0 <? 0) with false. cbn [andb app].
    destruct (2 * n); cbn [Difflib.blocks_loop fold_right Difflib.m_size]; lia.
  - apply Nat.ltb_ge in E.
    destruct (2 * n); cbn [Difflib.blocks_loop fold_right]; lia.
Qed.

End SelfMatch.

Lemma ilog2_same (p : positive) : Float64.ilog2 (Zpos p) (Zpos p) = 0%Z.
Proof.
  unfold Float64.ilog2. cbv zeta. rewrite Z.sub_diag.
  change (Z.max 0 0) with 0%Z. change (Z.max 0 (- 0)) with 0%Z.
  now rewrite Z.leb_refl.
Qed.

Lemma round_half_even_exact (q d : Z) :
  (0 < d)%Z -> Float64.round_half_even (d * q) d = q.
Proof.
  intros H. unfold Float64.round_half_even. cbv zeta.
  rewrite (Z.mul_comm d q), Z.div_mul, Z.mod_mul by lia.
  change (2 * 0)%Z with 0%Z. now destruct d.
Qed.

Lemma rnd_pos_same (p : positive) : Float64.rnd_pos (Zpos p) (Zpos p) = 1%Q.
Proof.
  unfold Float64.rnd_pos. cbv zeta. rewrite ilog2_same.
  change (Z.min (52 - 0) 1074) with 52%Z.
  change (Z.max 0 52) with 52%Z. change (Z.max 0 (- 52)) with 0%Z.
  change (2 ^ 0)%Z with 1%Z. rewrite !Z.mul_1_r.
  rewrite round_half_even_exact by reflexivity.
  vm_compute. reflexivity.
Qed.

Lemma rnd_one (q : Q) : (q == 1)%Q -> Float64.rnd q = 1%Q.
Proof.
  intros H. unfold Qeq in H. cbn [Qnum Qden] in H.
  unfold Float64.rnd. destruct (Qnum q) as [|n|n]; try lia.
  replace (Zpos n) with (Zpos (Qden q)) by lia. apply rnd_pos_same.
Qed.

Lemma ratio_self (a : text) : Difflib.ratio a a = 1%Q.
Proof.
  unfold Difflib.ratio. rewrite matches_self. unfold Difflib.calculate_ratio.
  destruct (0 <? length a + length a)%nat eqn:E; [|reflexivity].
  apply Nat.ltb_lt in E. unfold Float64.div, Float64.of_int. apply rnd_one.
  assert (Hd : (inject_Z (Z.of_nat (length a + length a))
                == 2 * inject_Z (Z.of_nat (length a)))%Q).
  { unfold Qeq. cbn [Qnum Qden inject_Z Qmult]. lia. }
  rewrite Hd. apply Qmult_inv_r.
  intros H. unfold Qeq in H. cbn [Qnum Qden inject_Z Qmult] in H. lia.
Qed.

(** X21. Every text scores 1.0 against itself, whatever its length: the
    automatic junk heuristic, which drops frequent characters from the index
    of a text of 200 characters or more, does not lower the score of a text
    compared with itself. *)
Theorem X21_self_similarity (a : text) :
  Difflib.ratio a a = 1%Q
  /\ V9.fuzzy_match a a = 1%Q
  /\ V8.fuzzy_match a a = 1%Q.
Proof.
  unfold V9.fuzzy_match, V8.fuzzy_match. now rewrite ratio_self.
Qed.

Lemma round2_one : Float64.round2 1 = 1%Q.
Proof. vm_compute. reflexivity. Qed.


Lemma match_loop_exact (threshold : Q) (prepare : text -> text) (query s : text)
  (candidates : list text) :
  Float64.geb 1 threshold = true ->
  In s candidates -> prepare s = prepare query ->
  In {| sanctioned_name := s; similarity := 1 |}
     (match_loop threshold prepare query candidates).
Proof.
  intros Ht Hin Hs. unfold match_loop. cbv zeta.
  rewrite (flat_map_kept threshold
             (fun s => Difflib.ratio (prepare query) (prepare s))).
  apply (Permutation_in _ (Permutation_sym (sorted_perm _ _ _))).
  unfold kept. apply in_map_iff. exists s. split.
  - now rewrite Hs, ratio_self, round2_one.
  - apply filter_In. split; [exact Hin|]. now rewrite Hs, ratio_self.
Qed.

(** X22. A candidate whose normalized form equals the normalized query is
    always reported by the inclusive matcher of [V8] and [V9], with
    similarity 1.0. *)
Theorem X22_equal_normal_forms_match (name s : text) (names : list text) :
  In s names ->
  (V9.normalize_name s = V9.normalize_name name ->
   In {| sanctioned_name := s; similarity := 1 |} (V9.matches name names))
  /\ (V8.normalize_name s = V8.normalize_name name ->
      In {| sanctioned_name := s; similarity := 1 |} (V8.matches name names)).
Proof.
  intros Hin. rewrite V9_matches_loop, V8_matches_loop.
  split; intros H; now apply match_loop_exact; [apply threshold_0_6_below_1| |].
Qed.

Lemma X22_witness :
  In (text_of_string "ACME, Ltd.") (texts ["Beta Corp"; "ACME, Ltd."])
  /\ V9.normalize_name "ACME, Ltd." = V9.normalize_name "acme"
  /\ In {| sanctioned_name := "ACME, Ltd."; similarity := 1 |}
        (V9.matches "acme" (texts ["Beta Corp"; "ACME, Ltd."])).
Proof.
  assert (H : In (text_of_string "ACME, Ltd.") (texts ["Beta Corp"; "ACME, Ltd."]))
    by (right; left; reflexivity).
  assert (E : V9.normalize_name "ACME, Ltd." = V9.normalize_name "acme")
    by (vm_compute; reflexivity).
  split; [exact H|]. split; [exact E|].
  exact (proj1 (@X22_equal_normal_forms_match "acme" "ACME, Ltd."
                  (texts ["Beta Corp"; "ACME, Ltd."]) H) E).
Defined.



(** ** The candidate names *)

Lemma merged_members (e : env) (sources fallback : list text) (s : text) :
  lists_members (set_order e) ->
  In s (set_order e
          (filter PyStr.truthy
             (set_order e (filter PyStr.truthy sources) ++ fallback)))
  <-> s <> [] /\ (In s sources \/ In s fallback).
Proof.
  intros H. rewrite (H _ s), filter_In, in_app_iff, (H _ s), filter_In, truthy_true.
  tauto.
Qed.

(** X24. When a set is iterated element by element, the candidate list of
    [V8] and [V9] holds exactly the non-empty names of the three sources
    and of the fallback list: the two rounds of merging lose no name and
    add none. *)
Theorem X24_candidate_names (e : env) (s : text) :
  lists_members (set_order e) ->
  (In s (V9.sanctions_names e)
   <-> s <> []
       /\ (In s (fetch_ofac_list e ++ fetch_uk_list e ++ fetch_opensanctions_all e 1000 3000)
           \/ In s V9.FALLBACK_SANCTIONS))
  /\ (In s (V8.sanctions_names e)
      <-> s <> []
          /\ (In s (fetch_ofac_list e ++ fetch_uk_list e
                    ++ fetch_opensanctions_all e 1000 4000)
              \/ In s V8.FALLBACK_SANCTIONS)).
Proof.
  intros H. unfold V9.sanctions_names, V8.sanctions_names. cbv zeta.
  split; now apply merged_members.
Qed.

Lemma example_env_lists_members : lists_members (set_order example_env).
Proof. intros l x. apply nodup_In. Qed.

Lemma X24_witness :
  lists_members (set_order example_env)
  /\ (In (text_of_string "Beta Corp") (V9.sanctions_names example_env)
      <-> text_of_string "Beta Corp" <> []
          /\ (In (text_of_string "Beta Corp")
                (fetch_ofac_list example_env ++ fetch_uk_list example_env
                 ++ fetch_opensanctions_all example_env 1000 3000)
              \/ In (text_of_string "Beta Corp") V9.FALLBACK_SANCTIONS))
  /\ (In (text_of_string "Beta Corp") (V8.sanctions_names example_env)
      <-> text_of_string "Beta Corp" <> []
          /\ (In (text_of_string "Beta Corp")
                (fetch_ofac_list example_env ++ fetch_uk_list example_env
                 ++ fetch_opensanctions_all example_env 1000 4000)
              \/ In (text_of_string "Beta Corp") V8.FALLBACK_SANCTIONS)).
Proof.
  split; [exact example_env_lists_members|].
  exact (@X24_candidate_names example_env "Beta Corp" example_env_lists_members).
Defined.

Lemma V9_fallback_nonempty : Forall (fun s : text => s <> []) V9.FALLBACK_SANCTIONS.
Proof. repeat constructor; discriminate. Qed.

Lemma V8_fallback_nonempty : Forall (fun s : text => s <> []) V8.FALLBACK_SANCTIONS.
Proof. repeat constructor; discriminate. Qed.

(** X25. The fallback list works whatever the sources return, even when
    every fetch fails: for a query whose normalized form is that of a
    fallback name, [search_all] of [V9] (name not blank) and of [V8] (name
    not empty) returns the sanctions row of that name with similarity 1.0. *)
Theorem X25_fallback_always_matched (e : env) (name s : text) (keywords : list text)
  (from_date to_date : text) (high_severity : bool) :
  lists_members (set_order e) ->
  (In s V9.FALLBACK_SANCTIONS ->
   V9.normalize_name s = V9.normalize_name name ->
   PyStr.truthy (PyStr.strip name) = true ->
   In (Shared.sanctions_result {| sanctioned_name := s; similarity := 1 |})
      (V9.search_all e name keywords from_date to_date high_severity))
  /\ (In s V8.FALLBACK_SANCTIONS ->
      V8.normalize_name s = V8.normalize_name name ->
      PyStr.truthy name = true ->
      In (Shared.sanctions_result {| sanctioned_name := s; similarity := 1 |})
         (V8.search_all e name keywords from_date to_date high_severity)).
Proof.
  intros H. split; intros Hs Hn Hname.
  - unfold V9.search_all.
    assert (Ht : PyStr.truthy name = true) by (destruct name; [discriminate|reflexivity]).
    rewrite Ht, Hname. cbn [negb orb]. apply in_or_app. left.
    unfold V9.sanctions_stage. apply in_map.
    rewrite V9_matches_loop.
    apply match_loop_exact; [apply threshold_0_6_below_1| |exact Hn].
    unfold V9.sanctions_names. cbv zeta. apply (proj2 (@merged_members e _ _ s H)).
    split; [|now right].
    pose proof V9_fallback_nonempty as F. rewrite Forall_forall in F. now apply F.
  - unfold V8.search_all. apply in_or_app. left.
    unfold V8.sanctions_stage. rewrite Hname. apply in_map.
    rewrite V8_matches_loop.
    apply match_loop_exact; [apply threshold_0_6_below_1| |exact Hn].
    unfold V8.sanctions_names. cbv zeta. apply (proj2 (@merged_members e _ _ s H)).
    split; [|now right].
    pose proof V8_fallback_nonempty as F. rewrite Forall_forall in F. now apply F.
Qed.

Lemma X25_witness :
  lists_members (set_order example_env)
  /\ In (text_of_string "Rosneft Oil Company") V9.FALLBACK_SANCTIONS
  /\ V9.normalize_name "Rosneft Oil Company" = V9.normalize_name " ROSNEFT  oil co. "
  /\ PyStr.truthy (PyStr.strip " ROSNEFT  oil co. ") = true
  /\ In (Shared.sanctions_result
           {| sanctioned_name := "Rosneft Oil Company"; similarity := 1 |})
        (V9.search_all example_env " ROSNEFT  oil co. " [] "2017-01-01" "2024-01-01" true).
Proof.
  assert (H1 : In (text_of_string "Rosneft Oil Company") V9.FALLBACK_SANCTIONS)
    by (repeat (first [left; reflexivity | right])).
  assert (H2 : V9.normalize_name "Rosneft Oil Company"
               = V9.normalize_name " ROSNEFT  oil co. ") by (vm_compute; reflexivity).
  assert (H3 : PyStr.truthy (PyStr.strip " ROSNEFT  oil co. ") = true)
    by (vm_compute; reflexivity).
  split; [exact example_env_lists_members|].
  split; [exact H1|]. split; [exact H2|]. split; [exact H3|].
  exact (proj1 (@X25_fallback_always_matched example_env " ROSNEFT  oil co. "
                  "Rosneft Oil Company" [] "2017-01-01" "2024-01-01" true
                  example_env_lists_members) H1 H2 H3).
Defined.

(** ** Texts that mention none of the terms *)

(** On the characters of a [text], U+0000 to U+00FF, the pattern compares
    letters as [str.lower] does: a term is found exactly when
    [kw.lower() in txt.lower()]. *)
Lemma match_literal_lower (kw s : text) :
  Re.match_literal kw s <> None
  <-> PyStr.startswith (PyStr.lower kw) (PyStr.lower s) = true.
Proof.
  revert s. induction kw as [|k kw IH]; intros s.
  - cbn [Re.match_literal PyStr.lower map PyStr.startswith]. split; [reflexivity|discriminate].
  - destruct s as [|c s].
    + cbn [Re.match_literal PyStr.lower map PyStr.startswith]. split; [congruence|discriminate].
    + cbn [Re.match_literal PyStr.lower map PyStr.startswith].
      destruct (PyStr.eqb_char (PyStr.lower_char k) (PyStr.lower_char c)); cbn [andb].
      * rewrite <- (IH s). fold (PyStr.lower kw) (PyStr.lower s).
        destruct (Re.match_literal kw s) as [[m rest]|]; split; congruence.
      * split; [congruence|discriminate].
Qed.

Lemma occurs_lower (kw s : text) :
  occurs kw s = PyStr.contains (PyStr.lower kw) (PyStr.lower s).
Proof.
  induction s as [|c s IH].
  - cbn [occurs PyStr.lower map PyStr.contains].
    pose proof (match_literal_lower kw []) as H. cbn [PyStr.lower map] in H.
    destruct (Re.match_literal kw []);
      destruct (PyStr.startswith (PyStr.lower kw) []); try reflexivity.
    + destruct H as [H _]. now specialize (H ltac:(discriminate)).
    + destruct H as [_ H]. now specialize (H eq_refl).
  - cbn [occurs]. cbn [PyStr.lower map]. rewrite contains_cons.
    fold (PyStr.lower s). rewrite <- IH.
    pose proof (match_literal_lower kw (c :: s)) as H. cbn [PyStr.lower map] in H.
    fold (PyStr.lower s) in H.
    destruct (Re.match_literal kw (c :: s));
      destruct (PyStr.startswith (PyStr.lower kw) (PyStr.lower_char c :: PyStr.lower s));
      try reflexivity.
    + destruct H as [H _]. now specialize (H ltac:(discriminate)).
    + destruct H as [_ H]. now specialize (H eq_refl).
Qed.

Lemma fold_sub_word_absent (wrap : text -> text) (keywords : list text) (txt : text) :
  Forall (fun kw => occurs kw txt = false) keywords ->
  fold_left (fun txt kw => Re.sub_word kw wrap txt) keywords txt = txt.
Proof.
  induction 1 as [|kw keywords Hkw Hks IH]; [reflexivity|].
  cbn [fold_left]. now rewrite (sub_word_absent kw wrap txt Hkw).
Qed.

(** X26. A text in which neither the name nor any keyword is found comes
    out of the highlighter as it went in: no marker is added and no
    character is changed, in the variant of [V5] and in that of [V1] and
    [V8].  A term is found where its characters stand in the text, letters
    compared as the case-insensitive pattern of the highlighter compares
    them, whether between word boundaries or not. *)
Theorem X26_nothing_to_highlight (e : env) (txt name : text) (keywords : list text) :
  (PyStr.truthy name = true -> occurs name txt = false) ->
  Forall (fun kw => occurs kw txt = false) (set_order e keywords) ->
  V5.color_highlight_terms e txt name keywords = txt
  /\ Shared.color_highlight_terms e txt name keywords = txt.
Proof.
  intros Hname Hkw.
  assert (Hl : Forall (fun kw => occurs kw txt = false) (longest_first e keywords))
    by (unfold longest_first; now apply sorted_Forall).
  split.
  - unfold V5.color_highlight_terms. cbv zeta.
    destruct (PyStr.truthy name).
    + rewrite (sub_word_absent name _ txt (Hname eq_refl)).
      now apply fold_sub_word_absent.
    + now apply fold_sub_word_absent.
  - unfold Shared.color_highlight_terms. cbv zeta.
    destruct txt as [|c txt]; [reflexivity|]. cbn [PyStr.truthy negb].
    destruct (PyStr.truthy name).
    + rewrite (sub_word_absent name _ (c :: txt) (Hname eq_refl)).
      now apply fold_sub_word_absent.
    + now apply fold_sub_word_absent.
Qed.

Lemma X26_witness :
  (PyStr.truthy "Acme" = true -> occurs "Acme" "Quarterly results beat forecasts" = false)
  /\ Forall (fun kw => occurs kw "Quarterly results beat forecasts" = false)
       (set_order example_env (texts ["fraud"; "fine"]))
  /\ V5.color_highlight_terms example_env "Quarterly results beat forecasts" "Acme"
       (texts ["fraud"; "fine"])
     = text_of_string "Quarterly results beat forecasts"
  /\ Shared.color_highlight_terms example_env "Quarterly results beat forecasts" "Acme"
       (texts ["fraud"; "fine"])
     = text_of_string "Quarterly results beat forecasts".
Proof.
  assert (H1 : PyStr.truthy "Acme" = true ->
               occurs "Acme" "Quarterly results beat forecasts" = false)
    by (intros _; vm_compute; reflexivity).
  assert (H2 : Forall (fun kw => occurs kw "Quarterly results beat forecasts" = false)
                 (set_order example_env (texts ["fraud"; "fine"])))
    by (repeat constructor).
  split; [exact H1|]. split; [exact H2|].
  exact (@X26_nothing_to_highlight example_env "Quarterly results beat forecasts"
           "Acme" (texts ["fraud"; "fine"]) H1 H2).
Defined.

(** ** The query sent to the news sources *)

(** X27. [build_query] of [V9] strips a name that holds no space once
    stripped, but puts a name with an inner space between the quotes as it
    was typed: the query of a name is the query of its stripped form exactly
    when the stripped name holds no space or the name was stripped
    already. *)
Theorem X27_build_query_and_blanks (name : text) (keywords : list text) :
  V9.build_query name keywords = V9.build_query (PyStr.strip name) keywords
  <-> PyStr.contains " " (PyStr.strip name) = false \/ name = PyStr.strip name.
Proof.
  unfold V9.build_query. cbv zeta. rewrite strip_idempotent.
  destruct (PyStr.contains " " (PyStr.strip name)) eqn:E.
  - split.
    + intros H. right.
      apply app_inv_tail in H. apply app_inv_head in H. now apply app_inv_tail in H.
    + intros [H|H]; [discriminate|]. now rewrite <- H.
  - split; [now left|reflexivity].
Qed.

(** ** Headlines and queries *)

Lemma blank_app (s t : text) : blank (s ++ t) <-> blank s /\ blank t.
Proof. apply Forall_app. Qed.

Lemma text_blank (title desc : text) :
  PyStr.strip (title +++ " " +++ desc) = []
  <-> PyStr.strip title = [] /\ PyStr.strip desc = [].
Proof.
  rewrite !strip_nil, blank_app, blank_app. split.
  - tauto.
  - intros [H1 H2]. repeat split; [exact H1| |exact H2]. repeat constructor.
Qed.

Lemma fetched_of_article (e : env) (high_severity : bool) (a : article) :
  Fetched.classify_article e high_severity (Fetched.of_article a)
  = Some (V9.classify_article e high_severity a).
Proof.
  unfold Fetched.classify_article, V9.classify_article. cbv zeta.
  cbn [Fetched.of_article Fetched.raw_title Fetched.raw_desc Fetched.raw_date
       Fetched.raw_url Fetched.raw_source Fetched.shown_as].
  destruct (negb (PyStr.truthy (PyStr.strip _))); [reflexivity|].
  destruct (Shared.run_model e _) as [label score].
  destruct (negb (Shared.is_negative (model_choice e) label)); [reflexivity|].
  destruct (high_severity && _)%bool; [reflexivity|].
  unfold Fetched.headline_of.
  cbn [Fetched.of_article Fetched.raw_title Fetched.raw_desc Fetched.strip_of].
  now destruct (PyStr.truthy (PyStr.strip (art_title a))).
Qed.

Lemma fetched_stranded (e : env) (high_severity : bool) (art : Fetched.fetched) :
  Fetched.classify_article e high_severity art = None
  <-> stranded e high_severity art.
Proof.
  unfold Fetched.classify_article, stranded. cbv zeta.
  set (txt := Fetched.shown_as _ +++ " " +++ Fetched.shown_as _).
  destruct (PyStr.truthy (PyStr.strip txt)) eqn:Et; cbn [negb].
  2:{ apply strip_truthy in Et. split; [discriminate|]. intros [H _]. contradiction. }
  assert (Hne : PyStr.strip txt <> []) by now apply truthy_true.
  destruct (Shared.run_model e txt) as [label confidence]. cbn [fst snd].
  destruct (Shared.is_negative (model_choice e) label); cbn [negb].
  2:{ split; [discriminate|]. intros (_ & H & _). discriminate. }
  assert (Hsev : (high_severity && negb (severity_eqb
                    (Shared.severity_of_score confidence) High))%bool = false
                 <-> (high_severity = true ->
                      Shared.severity_of_score confidence = High)).
  { destruct high_severity; cbn [andb].
    - destruct (Shared.severity_of_score confidence); cbn [severity_eqb negb];
        split; intros H; try reflexivity; try discriminate;
        try (specialize (H eq_refl); discriminate).
    - split; [discriminate|reflexivity]. }
  destruct (high_severity && _)%bool.
  { split; [discriminate|]. intros (_ & _ & H & _). apply Hsev in H. discriminate. }
  assert (Hs : high_severity = true -> Shared.severity_of_score confidence = High)
    by now apply Hsev.
  unfold Fetched.headline_of.
  destruct (Fetched.raw_title art) as [t| |shown]; cbn [Fetched.strip_of].
  - destruct (PyStr.truthy (PyStr.strip t)) eqn:Ett.
    + split; [discriminate|]. intros (_ & _ & _ & H & _).
      rewrite H in Ett. discriminate.
    + apply strip_truthy in Ett.
      destruct (Fetched.raw_desc art) as [d| |shown]; cbn [Fetched.strip_of].
      * split; [discriminate|]. intros (_ & _ & _ & _ & []).
      * split; [intros _|reflexivity]. repeat split; assumption.
      * split; [intros _|reflexivity]. repeat split; assumption.
  - split; [intros _|reflexivity]. repeat split; assumption.
  - split; [intros _|reflexivity]. repeat split; assumption.
Qed.

Lemma fetched_headline (e : env) (high_severity : bool) (art : Fetched.fetched)
  (rows : list result) :
  Fetched.classify_article e high_severity art = Some rows ->
  Forall (fun r => title r <> []
                   /\ PyStr.strip (title r) = title r
                   /\ snippet_html r = title r) rows.
Proof.
  unfold Fetched.classify_article. cbv zeta.
  set (txt := Fetched.shown_as _ +++ " " +++ Fetched.shown_as _).
  destruct (PyStr.truthy (PyStr.strip txt)) eqn:Et; cbn [negb];
    [|intros H; injection H as <-; constructor].
  destruct (Shared.run_model e txt) as [label confidence].
  destruct (negb (Shared.is_negative (model_choice e) label));
    [intros H; injection H as <-; constructor|].
  destruct (high_severity && _)%bool; [intros H; injection H as <-; constructor|].
  destruct (Fetched.headline_of art) as [headline|] eqn:Eh; [|discriminate].
  intros H. injection H as <-. constructor; [|constructor].
  cbn [title snippet_html]. split; [|split; [|reflexivity]].
  - unfold Fetched.headline_of in Eh.
    destruct (Fetched.raw_title art) as [t| |shown]; cbn [Fetched.strip_of] in Eh;
      try discriminate.
    destruct (PyStr.truthy (PyStr.strip t)) eqn:Ett.
    + injection Eh as <-. now apply truthy_true.
    + apply strip_truthy in Ett.
      destruct (Fetched.raw_desc art) as [d| |shown] eqn:Ed;
        cbn [Fetched.strip_of] in Eh; try discriminate.
      injection Eh as <-. intros Hd.
      apply truthy_true in Et. apply Et.
      unfold txt. cbn [Fetched.shown_as]. now apply text_blank.
  - unfold Fetched.headline_of in Eh.
    destruct (Fetched.raw_title art) as [t| |shown]; cbn [Fetched.strip_of] in Eh;
      try discriminate.
    destruct (PyStr.truthy (PyStr.strip t)).
    + injection Eh as <-. apply strip_idempotent.
    + destruct (Fetched.raw_desc art) as [d| |shown];
        cbn [Fetched.strip_of] in Eh; try discriminate.
      injection Eh as <-. apply strip_idempotent.
Qed.

(** X28. The headline of a news row of [V9], with the articles as the
    fetchers hand them over: the title and the description are strings, or
    null, or any other value of the answer.  The line that takes the
    headline stands outside the [try]: the loop raises, and [search_all]
    with it, exactly when some article with a text that is not blank, a
    negative answer of the classifier and a severity the switch lets through
    has a title that is not a string, or a blank title and a description
    that is not a string; an empty title with a null description is such an
    article, its text being [" None"].  When the loop returns, every row has
    a headline: its title is not empty, carries no whitespace at its ends,
    and is also its snippet.  For articles whose title and description are
    strings the loop never raises and returns the rows of [news_stage]. *)
Theorem X28_v9_rows_have_a_headline :
  (forall (e : env) (high_severity : bool) (articles : list Fetched.fetched),
      Fetched.news_loop e high_severity articles = None
      <-> Exists (stranded e high_severity) articles)
  /\ (forall (e : env) (high_severity : bool) (articles : list Fetched.fetched)
        (rows : list result),
        Fetched.news_loop e high_severity articles = Some rows ->
        Forall (fun r => title r <> []
                         /\ PyStr.strip (title r) = title r
                         /\ snippet_html r = title r) rows)
  /\ (forall (e : env) (high_severity : bool) (articles : list article),
        Fetched.news_loop e high_severity (map Fetched.of_article articles)
        = Some (flat_map (V9.classify_article e high_severity) articles))
  /\ (forall (e : env) (name from_date to_date : text) (high_severity : bool),
        Forall (fun r => title r <> []
                         /\ PyStr.strip (title r) = title r
                         /\ snippet_html r = title r)
          (V9.news_stage e name from_date to_date high_severity))
  /\ Fetched.news_loop example_env false
       [Fetched.of_article fine_article; null_description]
     = None.
Proof.
  assert (Hrows : forall (e : env) (high_severity : bool)
                    (articles : list Fetched.fetched) (rows : list result),
             Fetched.news_loop e high_severity articles = Some rows ->
             Forall (fun r => title r <> []
                              /\ PyStr.strip (title r) = title r
                              /\ snippet_html r = title r) rows).
  { intros e high_severity articles.
    induction articles as [|art articles IH]; intros rows H; cbn [Fetched.news_loop] in H.
    - injection H as <-. constructor.
    - destruct (Fetched.classify_article e high_severity art) as [first|] eqn:E;
        [|discriminate].
      destruct (Fetched.news_loop e high_severity articles) as [more|];
        [|discriminate].
      injection H as <-. apply Forall_app. split.
      + exact (fetched_headline e high_severity art E).
      + now apply IH. }
  assert (Hstr : forall (e : env) (high_severity : bool) (articles : list article),
             Fetched.news_loop e high_severity (map Fetched.of_article articles)
             = Some (flat_map (V9.classify_article e high_severity) articles)).
  { intros e high_severity articles.
    induction articles as [|a articles IH]; [reflexivity|].
    cbn [map Fetched.news_loop flat_map]. now rewrite fetched_of_article, IH. }
  split; [|split; [exact Hrows|split; [exact Hstr|split]]].
  - intros e high_severity articles.
    induction articles as [|art articles IH]; cbn [Fetched.news_loop].
    + split; [discriminate|]. intros H. inversion H.
    + destruct (Fetched.classify_article e high_severity art) as [first|] eqn:E.
      * destruct (Fetched.news_loop e high_severity articles) as [more|].
        -- split; [discriminate|]. intros H. inversion H as [? ? Hs|? ? Hs]; subst.
           ++ apply fetched_stranded in Hs. congruence.
           ++ apply IH in Hs. discriminate.
        -- split; [intros _|reflexivity]. apply Exists_cons_tl. now apply IH.
      * split; [intros _|reflexivity]. apply Exists_cons_hd.
        now apply fetched_stranded.
  - intros e name from_date to_date high_severity.
    apply (Hrows e high_severity
             (map Fetched.of_article (V9.articles e name from_date to_date))).
    apply Hstr.
  - vm_compute. reflexivity.
Qed.

(** X29. The additional keywords have no effect in [V9]: [search_all]
    takes them as an argument and never reads it; the queries are built from
    the name and the nine keywords of [KEYWORD_BUCKET] alone. *)
Theorem X29_v9_extra_keywords_unused (e : env) (name : text)
  (extra_keywords other_keywords : list text) (from_date to_date : text)
  (high_severity : bool) :
  V9.search_all e name extra_keywords from_date to_date high_severity
  = V9.search_all e name other_keywords from_date to_date high_severity
  /\ V9.articles e name from_date to_date
     = fetch_from_newsdata e (V9.build_query name V9.KEYWORD_BUCKET) from_date to_date
       ++ fetch_from_newsapi e (V9.build_query name V9.KEYWORD_BUCKET) from_date to_date
       ++ fetch_from_gnews e (V9.build_query name V9.KEYWORD_BUCKET) from_date to_date.
Proof. split; reflexivity. Qed.

Lemma startswith_refl (p : text) : PyStr.startswith p p = true.
Proof.
  induction p as [|x p IH]; [reflexivity|].
  cbn [PyStr.startswith]. unfold PyStr.eqb_char. now rewrite Ascii.eqb_refl.
Qed.

Lemma contains_prefix (p d : text) : PyStr.contains p (p ++ d) = true.
Proof.
  destruct p as [|x p]; [now destruct d|].
  apply contains_app_l; [discriminate|].
  cbn [PyStr.contains]. now rewrite startswith_refl.
Qed.

Lemma contains_join (sep k : text) (l : list text) :
  In k l -> PyStr.contains k (PyStr.join sep l) = true.
Proof.
  induction l as [|p l IH]; [intros []|].
  intros [->|H].
  - destruct l as [|q l].
    + cbn [PyStr.join]. rewrite <- (app_nil_r k) at 2. apply contains_prefix.
    + change (PyStr.join sep (k :: q :: l)) with (k ++ sep ++ PyStr.join sep (q :: l)).
      apply contains_prefix.
  - destruct l as [|q l]; [destruct H|].
    change (PyStr.join sep (p :: q :: l)) with (p ++ sep ++ PyStr.join sep (q :: l)).
    apply contains_app_r, contains_app_r, IH, H.
Qed.

Lemma query_holds (e : env) (name k : text) (keywords defaults : list text) :
  lists_members (set_order e) ->
  In k keywords \/ In k defaults \/ (k = name /\ name <> []) ->
  PyStr.contains k
    (PyStr.join " " ((if PyStr.truthy name then [name] else [])
                     ++ set_order e (keywords ++ defaults))) = true.
Proof.
  intros H Hk. apply contains_join, in_or_app.
  destruct Hk as [Hk|[Hk|[-> Hn]]].
  - right. apply H, in_or_app. now left.
  - right. apply H, in_or_app. now right.
  - left. apply truthy_true in Hn. rewrite Hn. now left.
Qed.

(** X30. In [V5], [V1] and [V8], when a set is iterated element by
    element, the query sent to the news sources holds the name (if one was
    given), every keyword typed in the keyword box and every default
    keyword. *)
Theorem X30_query_holds_every_term (e : env) (name k : text) (keywords : list text) :
  lists_members (set_order e) ->
  (In k keywords \/ In k V5.default_negative_keywords \/ (k = name /\ name <> []) ->
   PyStr.contains k (V5.query e name keywords) = true
   /\ PyStr.contains k (V1.query e name keywords) = true)
  /\ (In k keywords \/ In k V8.DEFAULT_NEGATIVE_KEYWORDS \/ (k = name /\ name <> []) ->
      PyStr.contains k (V8.query e name keywords) = true).
Proof.
  intros H. split; [intros Hk; split|intros Hk]; now apply query_holds.
Qed.

Lemma X30_witness :
  lists_members (set_order example_env)
  /\ PyStr.contains "zinc" (V5.query example_env "Acme" (texts ["zinc"; "ore"])) = true
  /\ PyStr.contains "zinc" (V1.query example_env "Acme" (texts ["zinc"; "ore"])) = true
  /\ PyStr.contains "zinc" (V8.query example_env "Acme" (texts ["zinc"; "ore"])) = true.
Proof.
  assert (Hk : forall defaults : list text,
             In (text_of_string "zinc") (texts ["zinc"; "ore"])
             \/ In (text_of_string "zinc") defaults
             \/ (text_of_string "zinc" = text_of_string "Acme"
                 /\ text_of_string "Acme" <> []))
    by (intros defaults; left; left; reflexivity).
  split; [exact example_env_lists_members|].
  pose proof (@X30_query_holds_every_term example_env "Acme" "zinc"
                (texts ["zinc"; "ore"]) example_env_lists_members) as [H5 H8].
  split; [exact (proj1 (H5 (Hk _)))|].
  split; [exact (proj2 (H5 (Hk _)))|exact (H8 (Hk _))].
Defined.
